(** * Intersection module of the behavior velocity planner

    A shallow embedding of
    [behavior_velocity_planner/src/scene_module/intersection/scene_intersection.cpp]:
    the GO/STOP state machine with its margin time, the external override,
    the time-distance profile, the collision and stuck-vehicle checks and
    [modifyPathVelocity], followed by the properties of the specification
    that are checked against them, and by further properties of the code.
    Two smaller files are embedded beside it: the multiple vehicle tracker
    of the multi-object tracker and the route node of the internal API.

    Conventions.
    - A C++ [double] is a primitive binary64 float; [std::max], [std::min]
      and the comparisons are written out with the IEEE [<].
    - An [rclcpp::Time] is its count of nanoseconds, a [Z]; the clock reading
      [clock_->now()] of one planning cycle is the argument [now].
    - A lane id, an [int64_t], is a [Z]; where the file passes it for an
      [int] parameter of one of its own functions the conversion [to_int] is
      written out.
    - A C++ exception ([std::out_of_range] of [vector::at], the missing
      lanelet of [laneletLayer.get]) and undefined behaviour (dereferencing
      an end iterator, [front()] of an empty vector) are the result [None].
    - Functions of lanelet2, boost::geometry, tf2 and of the planner's
      utility files, none of which is part of the translated file, are the
      fields of the class [Externals]. *)

From Stdlib Require Import ZArith List Bool String Lia.
From Stdlib Require Import Floats.
Import ListNotations.
Open Scope Z_scope.

Set Implicit Arguments.

(** ** Doubles and time *)

Definition double := float.
Bind Scope float_scope with double.

(** [rclcpp::Time]: nanoseconds since the epoch of the clock, a non-negative
    64-bit count, so that the difference of two times does not overflow. *)
Definition Time := Z.

(** [static_cast<double>(n)] of a 64-bit integer: round to nearest even. *)
Definition Z2double (n : Z) : double :=
  SF2Prim (binary_normalize prec emax n 0 false).

(** [rclcpp::Duration::seconds()]: the nanosecond count as a double over 1e9. *)
Definition seconds (ns : Z) : double := (Z2double ns / 1e9)%float.

(** [a < b] and [a > b] on doubles; both are false on a NaN. *)
Definition dlt (a b : double) : bool := (a <? b)%float.
Definition dgt (a b : double) : bool := (b <? a)%float.
Definition dge (a b : double) : bool := (b <=? a)%float.

(** [std::max(a, b)] is [(a < b) ? b : a]; [std::min(a, b)] is [(b < a) ? b : a]. *)
Definition std_max (a b : double) : double := if dlt a b then b else a.
Definition std_min (a b : double) : double := if dlt b a then b else a.

Definition fabs (a : double) : double := PrimFloat.abs a.

(** ** Exceptions and undefined behaviour *)

Definition bind {A B : Type} (m : option A) (k : A -> option B) : option B :=
  match m with
  | Some a => k a
  | None => None
  end.

Notation "x <- m ;; k" := (bind m (fun x => k))
  (at level 61, m at next level, right associativity).
Notation "' p <- m ;; k" := (bind m (fun x => match x with p => k end))
  (at level 61, p pattern, m at next level, right associativity).

(** [v.at(i)] for an [int] or [size_t] index: a negative [int] converts to a
    [size_t] beyond any vector, so it throws like any index past the end. *)
Definition at_ {A : Type} (v : list A) (i : Z) : option A :=
  if i <? 0 then None else nth_error v (Z.to_nat i).

(** The conversion of an [int64_t] to an [int], where a 64-bit value is
    passed for an [int] parameter: the value modulo 2^32 in the range of
    [int]. *)
Definition to_int (z : Z) : Z := (z + 2147483648) mod 4294967296 - 2147483648.

(** ** The decision state machine *)

Inductive State : Type := GO | STOP.

Definition State_eqb (a b : State) : bool :=
  match a, b with
  | GO, GO | STOP, STOP => true
  | _, _ => false
  end.

(** [IntersectionModule::StateMachine]: [start_time_] is the shared pointer,
    [None] for [nullptr]. *)
Record StateMachine : Type := mkStateMachine {
  state_ : State;
  margin_time_ : double;
  start_time_ : option Time
}.

Definition getState (sm : StateMachine) : State := state_ sm.

Definition setState (state : State) (sm : StateMachine) : StateMachine :=
  mkStateMachine state (margin_time_ sm) (start_time_ sm).

Definition setMarginTime (t : double) (sm : StateMachine) : StateMachine :=
  mkStateMachine (state_ sm) t (start_time_ sm).

(** [StateMachine::setStateWithMarginTime(state, logger, clock)], with the
    reading of [clock] as [now].  [State] has no value besides [GO] and
    [STOP], so the final error log of the source is not reached. *)
Definition setStateWithMarginTime (state : State) (now : Time) (sm : StateMachine)
  : StateMachine :=
  if State_eqb (state_ sm) state then
    (* same state request *)
    mkStateMachine (state_ sm) (margin_time_ sm) None
  else
    match state with
    | STOP =>
        (* GO -> STOP *)
        mkStateMachine STOP (margin_time_ sm) None
    | GO =>
        (* STOP -> GO *)
        match start_time_ sm with
        | None => mkStateMachine (state_ sm) (margin_time_ sm) (Some now)
        | Some start =>
            let duration := seconds (now - start) in
            if dgt duration (margin_time_ sm)
            then mkStateMachine GO (margin_time_ sm) None
            else sm
        end
    end.

(** One evaluation per planning cycle: the requested state and the clock
    reading of that cycle. *)
Definition Request : Type := (State * Time)%type.

Definition step (sm : StateMachine) (r : Request) : StateMachine :=
  setStateWithMarginTime (fst r) (snd r) sm.

Definition run (sm : StateMachine) (rs : list Request) : StateMachine :=
  fold_left step rs sm.

(** ** Messages *)

(** geometry_msgs. *)
Record Point : Type := mkPoint { point_x : double; point_y : double; point_z : double }.

Record Quaternion : Type := mkQuaternion {
  quat_x : double; quat_y : double; quat_z : double; quat_w : double
}.

Record Pose : Type := mkPose { position : Point; orientation : Quaternion }.

Record Vector3 : Type := mkVector3 { vec_x : double; vec_y : double; vec_z : double }.

(** The default-constructed pose of [DebugData()]. *)
Definition Pose_default : Pose :=
  mkPose (mkPoint 0 0 0) (mkQuaternion 0 0 0 1).

(** [PoseWithCovarianceStamped]: [header.stamp] as an [rclcpp::Time] and
    [pose.pose]. *)
Record PoseWithCovarianceStamped : Type := mkStamped {
  header_stamp : Time;
  pose_pose : Pose
}.

(** boost::geometry models of the planner: a 2D point, a line string, and a
    polygon given by its outer ring. *)
Definition Point2d : Type := (double * double)%type.
Definition LineString2d : Type := list Point2d.
Definition Polygon2d : Type := list Point2d.

(** autoware_perception_msgs. *)
Inductive SemanticType : Type :=
  UNKNOWN | CAR | TRUCK | BUS | BICYCLE | MOTORBIKE | PEDESTRIAN | ANIMAL.

Definition SemanticType_eqb (a b : SemanticType) : bool :=
  match a, b with
  | UNKNOWN, UNKNOWN | CAR, CAR | TRUCK, TRUCK | BUS, BUS
  | BICYCLE, BICYCLE | MOTORBIKE, MOTORBIKE | PEDESTRIAN, PEDESTRIAN
  | ANIMAL, ANIMAL => true
  | _, _ => false
  end.

Inductive ShapeType : Type := BOUNDING_BOX | CYLINDER | POLYGON.

Record Shape : Type := mkShape {
  shape_type : ShapeType;
  dimensions : Vector3;
  footprint : list Point
}.

Record PredictedPath : Type := mkPredictedPath {
  predicted_poses : list PoseWithCovarianceStamped;   (* [path] *)
  confidence : double
}.

(** [State] of a dynamic object: [pose_covariance.pose],
    [orientation_reliable], [twist_covariance.twist.linear.x] and the
    predicted paths. *)
Record ObjectState : Type := mkObjectState {
  pose_covariance_pose : Pose;
  orientation_reliable : bool;
  twist_linear_x : double;
  predicted_paths : list PredictedPath
}.

Record DynamicObject : Type := mkDynamicObject {
  object_id : Z;
  semantic_type : SemanticType;
  state : ObjectState;
  shape : Shape
}.

(** autoware_planning_msgs: a path point carries its pose, its target
    velocity [twist.linear.x] and the lane ids it belongs to. *)
Record PathPointWithLaneId : Type := mkPathPoint {
  point_pose : Pose;
  point_twist_linear_x : double;
  lane_ids : list Z
}.

Definition PathWithLaneId : Type := list PathPointWithLaneId.   (* [points] *)

Record StopFactor : Type := mkStopFactor {
  stop_pose : Pose;
  stop_factor_points : list Point
}.

(** The stop reason of one module: the stop factors appended to the reason
    initialised with the tag INTERSECTION. *)
Definition StopReason : Type := list StopFactor.

(** Modelled from the spec: the message [autoware_api_msgs::IntersectionStatus]
    is not part of the translated file; the external override record is "a
    status enum plus a timestamp", of which the source names the values GO
    and STOP.  Any other value of the status field is [OTHER_STATUS]. *)
Inductive IntersectionStatus : Type :=
  IntersectionStatus_GO | IntersectionStatus_STOP | OTHER_STATUS (code : Z).

Definition IntersectionStatus_eqb (a b : IntersectionStatus) : bool :=
  match a, b with
  | IntersectionStatus_GO, IntersectionStatus_GO => true
  | IntersectionStatus_STOP, IntersectionStatus_STOP => true
  | OTHER_STATUS c, OTHER_STATUS d => c =? d
  | _, _ => false
  end.

Record ExternalInput : Type := mkExternalInput {
  status : IntersectionStatus;
  input_stamp : Time
}.

(** ** Parameters and planner data *)

(** [IntersectionModule::PlannerParam], the fields the translated file reads. *)
Record PlannerParam : Type := mkPlannerParam {
  state_transit_margin_time : double;
  decel_velocity : double;
  stuck_vehicle_detect_dist : double;
  stuck_vehicle_ignore_dist : double;
  stuck_vehicle_vel_thr : double;
  intersection_velocity : double;
  intersection_max_acc : double;
  detection_area_margin : double;
  detection_area_length : double;
  detection_area_angle_thr : double;
  min_predicted_path_confidence : double;
  external_input_timeout : double;
  collision_start_margin_time : double;
  collision_end_margin_time : double
}.

(** The types of lanelet2 the module handles without looking inside. *)
Class MapTypes : Type := {
  Lanelet : Type;
  LaneletMap : Type;
  RoutingGraph : Type;
  CompoundPolygon3d : Type
}.

(** [PlannerData], the fields the translated file reads.
    [current_velocity] is [current_velocity->twist.linear.x]. *)
Record PlannerData `{MapTypes} : Type := mkPlannerData {
  current_pose : Pose;
  current_velocity : double;
  dynamic_objects : list DynamicObject;
  lanelet_map : LaneletMap;
  routing_graph : RoutingGraph;
  max_longitudinal_offset_m : double;
  vehicle_length_m : double;
  external_intersection_status_input : option ExternalInput
}.

Arguments mkPlannerData {_}.

(** What the translated file calls and does not define. *)
Class Externals `{MapTypes} : Type := {
  (* lanelet2 and lanelet2_extension *)
  laneletLayer_get : LaneletMap -> Z -> option Lanelet;   (* throws if absent *)
  attributeOr : Lanelet -> string -> string -> string;
  regulatoryElementsAs_TrafficLight : Lanelet -> list Z;
  getArcCoordinates_length : list Lanelet -> Pose -> double;
  getLaneletLength3d : Lanelet -> double;
  getPolygonFromArcLength : list Lanelet -> double -> double -> list Point2d;
  isInLanelet : Pose -> Lanelet -> double -> bool;
  getLaneletAngle : Lanelet -> Point -> double;
  centerline2d_front : Lanelet -> Point2d;
  to2D_basicPolygon : CompoundPolygon3d -> Polygon2d;
  (* boost::geometry *)
  bg_within : Point2d -> Polygon2d -> bool;
  bg_distance : Point2d -> Polygon2d -> double;
  bg_intersects_linestring : Polygon2d -> LineString2d -> bool;
  bg_intersects : Polygon2d -> Polygon2d -> bool;
  bg_disjoint : Polygon2d -> Polygon2d -> bool;
  (* tf2, autoware_utils, libm *)
  getEulerYPR : Quaternion -> double * double * double;
  setRPY : double -> double -> double -> Quaternion;
  getYaw : Quaternion -> double;
  normalizeRadian : double -> double;
  hypot : double -> double -> double;
  (* utilization/boost_geometry_helper.hpp and utilization/util.hpp *)
  to_bg2d : Point -> Point2d;
  toBoostPoly : list Point -> Polygon2d;
  obj2polygon : Pose -> Vector3 -> Polygon2d;
  calcClosestIndex : PathWithLaneId -> Pose -> option Z;   (* [None]: returns false *)
  calcDist2d : PathPointWithLaneId -> PathPointWithLaneId -> double;
  (* scene_module/intersection/util.hpp *)
  getObjectiveLanelets :
    LaneletMap -> RoutingGraph -> Z -> PlannerParam ->
    list (list Lanelet) * list (list Lanelet);   (* conflicting, detection *)
  getPolygon3dFromLaneletsVec : list (list Lanelet) -> double -> list CompoundPolygon3d;
  getLaneletIdsFromLaneletsVec : list (list Lanelet) -> list Z;
  (* Modelled from the spec: the stop-line and pass-judge locator "computes
     the path index" of the stop line and of the pass-judge line and leaves
     the path as it is; [None] when a line cannot be placed.  The result is
     (stop_line_idx, pass_judge_line_idx, first_idx_inside_lane). *)
  generateStopLine :
    Z -> list CompoundPolygon3d -> PlannerData -> PlannerParam -> PathWithLaneId ->
    option (Z * Z * Z);
  isAheadOf : Pose -> Pose -> bool;
  setVelocityFrom : Z -> double -> PathWithLaneId -> PathWithLaneId;
  getAheadPose : Z -> double -> PathWithLaneId -> Pose;
  calcArcLengthFromPath : PathWithLaneId -> Z -> Z -> double
}.

(** Modelled from the spec: [util::hasLaneId] is not part of the translated
    file; a waypoint is "tagged with the evaluated lane id" when the id is
    among "the set of lane identifiers it belongs to". *)
Definition hasLaneId (p : PathPointWithLaneId) (id : Z) : bool :=
  existsb (Z.eqb id) (lane_ids p).

(** Modelled from the spec: [planning_utils::toRosPoints] is not part of the
    translated file; the stop reason lists "points from colliding and stuck
    objects", here the position of each object. *)
Definition toRosPoints (objects : list DynamicObject) : list Point :=
  map (fun o => position (pose_covariance_pose (state o))) objects.

(** ** The module *)

Definition is_empty {A : Type} (v : list A) : bool :=
  match v with
  | [] => true
  | _ :: _ => false
  end.

(** [v.back()]: undefined on an empty vector. *)
Definition back {A : Type} (v : list A) : option A := hd_error (rev v).

Section Intersection.

Context {MT : MapTypes} {E : Externals}.

(** [IntersectionModule::DebugData]; polygons are kept as computed
    ([toGeomMsg] only changes their representation). *)
Record DebugData : Type := mkDebugData {
  stop_required : bool;
  path_raw : PathWithLaneId;
  stop_wall_pose : Pose;
  slow_wall_pose : Pose;
  stop_point_pose : Pose;
  judge_point_pose : Pose;
  ego_lane_polygon : Polygon2d;
  stuck_vehicle_detect_area : Polygon2d;
  candidate_collision_ego_lane_polygon : Polygon2d;
  candidate_collision_object_polygons : list Polygon2d;
  detection_area : list CompoundPolygon3d;
  conflicting_targets : list DynamicObject;
  stuck_targets : list DynamicObject
}.

(** [DebugData()]. *)
Definition DebugData_default : DebugData :=
  mkDebugData false [] Pose_default Pose_default Pose_default Pose_default
    [] [] [] [] [] [] [].

(** Assignments to one field of the debug data. *)
Definition set_stop_required (v : bool) (d : DebugData) : DebugData :=
  mkDebugData v (path_raw d) (stop_wall_pose d) (slow_wall_pose d) (stop_point_pose d)
    (judge_point_pose d) (ego_lane_polygon d) (stuck_vehicle_detect_area d)
    (candidate_collision_ego_lane_polygon d) (candidate_collision_object_polygons d)
    (detection_area d) (conflicting_targets d) (stuck_targets d).

Definition set_path_raw (v : PathWithLaneId) (d : DebugData) : DebugData :=
  mkDebugData (stop_required d) v (stop_wall_pose d) (slow_wall_pose d)
    (stop_point_pose d) (judge_point_pose d) (ego_lane_polygon d)
    (stuck_vehicle_detect_area d) (candidate_collision_ego_lane_polygon d)
    (candidate_collision_object_polygons d) (detection_area d) (conflicting_targets d)
    (stuck_targets d).

Definition set_stop_wall_pose (v : Pose) (d : DebugData) : DebugData :=
  mkDebugData (stop_required d) (path_raw d) v (slow_wall_pose d) (stop_point_pose d)
    (judge_point_pose d) (ego_lane_polygon d) (stuck_vehicle_detect_area d)
    (candidate_collision_ego_lane_polygon d) (candidate_collision_object_polygons d)
    (detection_area d) (conflicting_targets d) (stuck_targets d).

Definition set_slow_wall_pose (v : Pose) (d : DebugData) : DebugData :=
  mkDebugData (stop_required d) (path_raw d) (stop_wall_pose d) v (stop_point_pose d)
    (judge_point_pose d) (ego_lane_polygon d) (stuck_vehicle_detect_area d)
    (candidate_collision_ego_lane_polygon d) (candidate_collision_object_polygons d)
    (detection_area d) (conflicting_targets d) (stuck_targets d).

Definition set_stop_point_pose (v : Pose) (d : DebugData) : DebugData :=
  mkDebugData (stop_required d) (path_raw d) (stop_wall_pose d) (slow_wall_pose d) v
    (judge_point_pose d) (ego_lane_polygon d) (stuck_vehicle_detect_area d)
    (candidate_collision_ego_lane_polygon d) (candidate_collision_object_polygons d)
    (detection_area d) (conflicting_targets d) (stuck_targets d).

Definition set_judge_point_pose (v : Pose) (d : DebugData) : DebugData :=
  mkDebugData (stop_required d) (path_raw d) (stop_wall_pose d) (slow_wall_pose d)
    (stop_point_pose d) v (ego_lane_polygon d) (stuck_vehicle_detect_area d)
    (candidate_collision_ego_lane_polygon d) (candidate_collision_object_polygons d)
    (detection_area d) (conflicting_targets d) (stuck_targets d).

Definition set_ego_lane_polygon (v : Polygon2d) (d : DebugData) : DebugData :=
  mkDebugData (stop_required d) (path_raw d) (stop_wall_pose d) (slow_wall_pose d)
    (stop_point_pose d) (judge_point_pose d) v (stuck_vehicle_detect_area d)
    (candidate_collision_ego_lane_polygon d) (candidate_collision_object_polygons d)
    (detection_area d) (conflicting_targets d) (stuck_targets d).

Definition set_stuck_vehicle_detect_area (v : Polygon2d) (d : DebugData) : DebugData :=
  mkDebugData (stop_required d) (path_raw d) (stop_wall_pose d) (slow_wall_pose d)
    (stop_point_pose d) (judge_point_pose d) (ego_lane_polygon d) v
    (candidate_collision_ego_lane_polygon d) (candidate_collision_object_polygons d)
    (detection_area d) (conflicting_targets d) (stuck_targets d).

Definition set_candidate_collision_ego_lane_polygon (v : Polygon2d) (d : DebugData) : DebugData :=
  mkDebugData (stop_required d) (path_raw d) (stop_wall_pose d) (slow_wall_pose d)
    (stop_point_pose d) (judge_point_pose d) (ego_lane_polygon d)
    (stuck_vehicle_detect_area d) v (candidate_collision_object_polygons d)
    (detection_area d) (conflicting_targets d) (stuck_targets d).

Definition set_candidate_collision_object_polygons (v : list Polygon2d) (d : DebugData) : DebugData :=
  mkDebugData (stop_required d) (path_raw d) (stop_wall_pose d) (slow_wall_pose d)
    (stop_point_pose d) (judge_point_pose d) (ego_lane_polygon d)
    (stuck_vehicle_detect_area d) (candidate_collision_ego_lane_polygon d) v
    (detection_area d) (conflicting_targets d) (stuck_targets d).

Definition set_detection_area (v : list CompoundPolygon3d) (d : DebugData) : DebugData :=
  mkDebugData (stop_required d) (path_raw d) (stop_wall_pose d) (slow_wall_pose d)
    (stop_point_pose d) (judge_point_pose d) (ego_lane_polygon d)
    (stuck_vehicle_detect_area d) (candidate_collision_ego_lane_polygon d)
    (candidate_collision_object_polygons d) v (conflicting_targets d) (stuck_targets d).

Definition set_conflicting_targets (v : list DynamicObject) (d : DebugData) : DebugData :=
  mkDebugData (stop_required d) (path_raw d) (stop_wall_pose d) (slow_wall_pose d)
    (stop_point_pose d) (judge_point_pose d) (ego_lane_polygon d)
    (stuck_vehicle_detect_area d) (candidate_collision_ego_lane_polygon d)
    (candidate_collision_object_polygons d) (detection_area d) v (stuck_targets d).

Definition set_stuck_targets (v : list DynamicObject) (d : DebugData) : DebugData :=
  mkDebugData (stop_required d) (path_raw d) (stop_wall_pose d) (slow_wall_pose d)
    (stop_point_pose d) (judge_point_pose d) (ego_lane_polygon d)
    (stuck_vehicle_detect_area d) (candidate_collision_ego_lane_polygon d)
    (candidate_collision_object_polygons d) (detection_area d) (conflicting_targets d) v.

(** The members of [IntersectionModule] that the translated file reads and
    writes.  The planner data and the clock, which the class reaches through
    pointers, are arguments of the methods. *)
Record IntersectionModule : Type := mkIntersectionModule {
  lane_id_ : Z;
  turn_direction_ : string;
  has_traffic_light_ : bool;
  planner_param_ : PlannerParam;
  state_machine_ : StateMachine;
  debug_data_ : DebugData
}.

Definition with_debug_data (d : DebugData) (m : IntersectionModule) : IntersectionModule :=
  mkIntersectionModule (lane_id_ m) (turn_direction_ m) (has_traffic_light_ m)
    (planner_param_ m) (state_machine_ m) d.

Definition with_state_machine (sm : StateMachine) (m : IntersectionModule)
  : IntersectionModule :=
  mkIntersectionModule (lane_id_ m) (turn_direction_ m) (has_traffic_light_ m)
    (planner_param_ m) sm (debug_data_ m).

(** The constructor.  [initial] is the default-constructed state machine of
    the header, which is not part of the translated file. *)
Definition IntersectionModule_new (lane_id : Z) (planner_data : PlannerData)
    (planner_param : PlannerParam) (initial : StateMachine) : option IntersectionModule :=
  assigned_lanelet <- laneletLayer_get (lanelet_map planner_data) lane_id ;;
  let turn_direction := attributeOr assigned_lanelet "turn_direction" "else" in
  let has_traffic_light :=
    negb (is_empty (regulatoryElementsAs_TrafficLight assigned_lanelet)) in
  Some (mkIntersectionModule lane_id turn_direction has_traffic_light planner_param
          (setMarginTime (state_transit_margin_time planner_param) initial)
          DebugData_default).

(** [isTargetExternalInputStatus(target_status)]. *)
Definition isTargetExternalInputStatus (m : IntersectionModule) (pd : PlannerData)
    (now : Time) (target_status : IntersectionStatus) : bool :=
  match external_intersection_status_input pd with
  | None => false
  | Some input =>
      IntersectionStatus_eqb (status input) target_status &&
      dlt (seconds (now - input_stamp input))
          (external_input_timeout (planner_param_ m))
  end.

Definition getObjectPoseWithVelocityDirection (obj_state : ObjectState) : Pose :=
  if orientation_reliable obj_state then pose_covariance_pose obj_state
  else if dge (twist_linear_x obj_state) 0 then pose_covariance_pose obj_state
  else
    (* When the object velocity is negative, invert orientation (yaw) *)
    let obj_pose := pose_covariance_pose obj_state in
    let '(yaw, pitch, roll) := getEulerYPR (orientation obj_pose) in
    mkPose (position obj_pose) (setRPY roll pitch (- yaw)%float).

Definition isTargetCollisionVehicleType (object : DynamicObject) : bool :=
  SemanticType_eqb (semantic_type object) CAR ||
  SemanticType_eqb (semantic_type object) BUS ||
  SemanticType_eqb (semantic_type object) TRUCK ||
  SemanticType_eqb (semantic_type object) MOTORBIKE ||
  SemanticType_eqb (semantic_type object) BICYCLE.

Definition isTargetStuckVehicleType (object : DynamicObject) : bool :=
  SemanticType_eqb (semantic_type object) CAR ||
  SemanticType_eqb (semantic_type object) BUS ||
  SemanticType_eqb (semantic_type object) TRUCK ||
  SemanticType_eqb (semantic_type object) MOTORBIKE.

Definition toFootprintPolygon (object : DynamicObject) : Polygon2d :=
  match shape_type (shape object) with
  | POLYGON => toBoostPoly (footprint (shape object))
  | _ =>
      (* cylinder type is treated as square-polygon *)
      obj2polygon (pose_covariance_pose (state object)) (dimensions (shape object))
  end.

Definition toPredictedFootprintPolygon (object : DynamicObject)
    (predicted_pose : PoseWithCovarianceStamped) : Polygon2d :=
  obj2polygon (pose_pose predicted_pose) (dimensions (shape object)).

(** [checkAngleForTargetLanelets(pose, target_lanelet_ids)]. *)
Fixpoint checkAngleForTargetLanelets (m : IntersectionModule) (pd : PlannerData)
    (pose : Pose) (target_lanelet_ids : list Z) : option bool :=
  match target_lanelet_ids with
  | [] => Some false
  | lanelet_id :: rest =>
      ll <- laneletLayer_get (lanelet_map pd) lanelet_id ;;
      if negb (isInLanelet pose ll (detection_area_margin (planner_param_ m)))
      then checkAngleForTargetLanelets m pd pose rest
      else
        let ll_angle := getLaneletAngle ll (position pose) in
        let pose_angle := getYaw (orientation pose) in
        let angle_diff := normalizeRadian (ll_angle - pose_angle)%float in
        if dlt (fabs angle_diff) (detection_area_angle_thr (planner_param_ m))
        then Some true
        else checkAngleForTargetLanelets m pd pose rest
  end.

(** [std::find_if] with the predicate [p.lane_ids.front() == lane_id_]: the
    offset of the first match, the length of the range when there is none.
    [front()] of an empty [lane_ids] is undefined. *)
Fixpoint find_if_front_lane (lane_id : Z) (points : list PathPointWithLaneId)
  : option nat :=
  match points with
  | [] => Some 0%nat
  | p :: rest =>
      front <- hd_error (lane_ids p) ;;
      if front =? lane_id then Some 0%nat
      else k <- find_if_front_lane lane_id rest ;; Some (S k)
  end.

(** [getEgoLaneWithNextLane(lanelet_map_ptr, path)].  The search runs over
    the reversed points; [last_itr.base()] is the index after the match, and
    the first index when nothing matches. *)
Definition getEgoLaneWithNextLane (m : IntersectionModule)
    (lanelet_map_ptr : LaneletMap) (path : PathWithLaneId) : option (list Lanelet) :=
  assigned_lanelet <- laneletLayer_get lanelet_map_ptr (lane_id_ m) ;;
  k <- find_if_front_lane (lane_id_ m) (rev path) ;;
  let base := (List.length path - k)%nat in
  if negb (base =? List.length path)%nat then
    p <- nth_error path base ;;
    front <- hd_error (lane_ids p) ;;
    next_lanelet <- laneletLayer_get lanelet_map_ptr front ;;
    Some [assigned_lanelet; next_lanelet]
  else Some [assigned_lanelet].

(** [calcDistanceUntilIntersectionLanelet(lanelet_map_ptr, path, closest_idx)].
    [closest_idx] arrives as a [size_t]: a negative [int] is then larger
    than any index. *)
Definition calcDistanceUntilIntersectionLanelet (m : IntersectionModule)
    (lanelet_map_ptr : LaneletMap) (path : PathWithLaneId) (closest_idx : Z)
  : option double :=
  assigned_lanelet <- laneletLayer_get lanelet_map_ptr (lane_id_ m) ;;
  k <- find_if_front_lane (lane_id_ m) path ;;
  if (k =? 0)%nat || (k =? List.length path)%nat then Some 0%float
  else
    let dst_idx := Z.of_nat k - 1 in
    if (closest_idx <? 0) || (closest_idx >? dst_idx) then Some 0%float
    else
      let distance := calcArcLengthFromPath path closest_idx dst_idx in
      let lane_first_point := centerline2d_front assigned_lanelet in
      p <- at_ path dst_idx ;;
      Some (distance +
            hypot (point_x (position (point_pose p)) - fst lane_first_point)
                  (point_y (position (point_pose p)) - snd lane_first_point))%float.

(** [generateEgoIntersectionLanePolygon]. *)
Definition generateEgoIntersectionLanePolygon (m : IntersectionModule)
    (lanelet_map_ptr : LaneletMap) (path : PathWithLaneId)
    (closest_idx start_idx : Z) (extra_dist ignore_dist : double) : option Polygon2d :=
  ego_lane_with_next_lane <- getEgoLaneWithNextLane m lanelet_map_ptr path ;;
  p_start <- at_ path start_idx ;;
  let start_arc_coords_length :=
    getArcCoordinates_length ego_lane_with_next_lane (point_pose p_start) in
  p_closest <- at_ path closest_idx ;;
  let closest_arc_coords_length :=
    getArcCoordinates_length ego_lane_with_next_lane (point_pose p_closest) in
  let start_arc_length :=
    if dlt (start_arc_coords_length + ignore_dist)%float closest_arc_coords_length
    then closest_arc_coords_length
    else (start_arc_coords_length + ignore_dist)%float in
  front_lanelet <- hd_error ego_lane_with_next_lane ;;
  let end_arc_length := (getLaneletLength3d front_lanelet + extra_dist)%float in
  let target_polygon :=
    getPolygonFromArcLength ego_lane_with_next_lane start_arc_length end_arc_length in
  match target_polygon with
  | [] => Some []
  | front :: _ => Some (target_polygon ++ [front])
  end.

(** *** The time-distance profile *)

(** [TimeDistanceArray]: pairs (elapsed time, arc length). *)
Definition TimeDistanceArray : Type := list (double * double).

(** The variables of the loop of [calcIntersectionPassingTime]. *)
Record PassingLoop : Type := mkPassingLoop {
  closest_vel : double;
  dist_sum : double;
  passing_time : double;
  time_distance_array : TimeDistanceArray;
  assigned_lane_found : bool
}.

(** One pass through the body of the loop, for the points [prev] at [i - 1]
    and [cur] at [i]; the boolean tells whether the body ended in [break]. *)
Definition passing_body (param : PlannerParam) (objective_lane_id : Z)
    (prev cur : PathPointWithLaneId) (s : PassingLoop) : PassingLoop * bool :=
  let dist := calcDist2d prev cur in
  let dist_sum' := (dist_sum s + dist)%float in
  (* calc vel in idx i+1 (v_{i+1}^2 - v_{i}^2 = 2ax) *)
  let next_vel :=
    std_min
      (sqrt (closest_vel s * closest_vel s + 2 * intersection_max_acc param * dist))%float
      (intersection_velocity param) in
  (* calc average vel in idx i~i+1 *)
  let average_vel :=
    std_min ((closest_vel s + next_vel) / 2)%float (intersection_velocity param) in
  let passing_time' := (passing_time s + dist / average_vel)%float in
  let array' := time_distance_array s ++ [(passing_time', dist_sum')] in
  let has_objective_lane_id := hasLaneId cur objective_lane_id in
  if assigned_lane_found s && negb has_objective_lane_id
  then (mkPassingLoop next_vel dist_sum' passing_time' array' (assigned_lane_found s), true)
  else (mkPassingLoop next_vel dist_sum' passing_time' array' has_objective_lane_id, false).

(** [for (size_t i = ...; i < path.points.size(); ++i)], at most [fuel]
    iterations.  At [i = 0] the index [i - 1] wraps around and [at] throws. *)
Fixpoint passing_loop (fuel : nat) (param : PlannerParam) (objective_lane_id : Z)
    (path : PathWithLaneId) (i : nat) (s : PassingLoop) : option PassingLoop :=
  match fuel with
  | O => Some s
  | S fuel' =>
      if (i <? List.length path)%nat then
        prev <- at_ path (Z.of_nat i - 1) ;;
        cur <- at_ path (Z.of_nat i) ;;
        let '(s', stop) := passing_body param objective_lane_id prev cur s in
        if stop then Some s'
        else passing_loop fuel' param objective_lane_id path (S i) s'
      else Some s
  end.

(** [calcIntersectionPassingTime(path, closest_idx, objective_lane_id)].
    [std::pow(v, 2.0)] is the product [v * v].  A negative [closest_idx + 1]
    becomes a [size_t] past the end of any path, and the loop is not entered. *)
Definition calcIntersectionPassingTime (m : IntersectionModule) (pd : PlannerData)
    (path : PathWithLaneId) (closest_idx : Z) (objective_lane_id : Z)
  : option TimeDistanceArray :=
  let closest_vel := std_max 0x1.999999999999ap-4 (fabs (current_velocity pd)) in
  let s0 := mkPassingLoop closest_vel 0 0 [(0, 0)%float] false in
  s <- (if closest_idx + 1 <? 0 then Some s0
        else passing_loop (List.length path) (planner_param_ m) objective_lane_id
               path (Z.to_nat (closest_idx + 1)) s0) ;;
  if negb (assigned_lane_found s)
  then Some [(0, 0)%float]   (* has already passed the intersection. *)
  else Some (time_distance_array s).

(** [cutPredictPathWithDuration(objects_ptr, time_thr)]. *)
Definition cutPredictPathWithDuration (now : Time) (objects : list DynamicObject)
    (time_thr : double) : list DynamicObject :=
  let current_time := now in
  map (fun object =>
    mkDynamicObject (object_id object) (semantic_type object)
      (mkObjectState
         (pose_covariance_pose (state object))
         (orientation_reliable (state object))
         (twist_linear_x (state object))
         (map (fun predicted_path =>
                 mkPredictedPath
                   (filter (fun predicted_pose =>
                              dlt (seconds (header_stamp predicted_pose - current_time))
                                  time_thr)
                           (predicted_poses predicted_path))
                   (confidence predicted_path))
              (predicted_paths (state object))))
      (shape object))
    objects.

(** *** Collision check *)

(** [std::adjacent_find(first, last, p)]: the offset of the first element
    that satisfies [p] with its successor, the length of the range when
    there is none. *)
Fixpoint adjacent_find {A : Type} (p : A -> A -> bool) (l : list A) : nat :=
  match l with
  | [] => 0%nat
  | a :: tl =>
      match tl with
      | [] => 1%nat
      | b :: _ => if p a b then 0%nat else S (adjacent_find p tl)
      end
  end.

(** [std::lower_bound(first, last, val, comp)] with the comparison
    [a.first < b], as the bisection of libstdc++: [first] and [len] are the
    start and the length of the range still searched. *)
Fixpoint lower_bound_loop (fuel : nat) (v : TimeDistanceArray) (first len : nat)
    (val : double) : nat :=
  match fuel with
  | O => first
  | S fuel' =>
      if (len =? 0)%nat then first
      else
        let half := (len / 2)%nat in
        let middle := (first + half)%nat in
        match nth_error v middle with
        | Some a =>
            if dlt (fst a) val
            then lower_bound_loop fuel' v (S middle) (len - half - 1)%nat val
            else lower_bound_loop fuel' v first half val
        | None => first
        end
  end.

Definition lower_bound (v : TimeDistanceArray) (val : double) : nat :=
  lower_bound_loop (List.length v) v 0%nat (List.length v) val.

(** The first loop of [checkCollision] for one object and the detection
    areas still to visit: whether the object is pushed to [target_objects]. *)
Fixpoint in_detection_area (m : IntersectionModule) (pd : PlannerData)
    (object : DynamicObject) (detection_areas : list CompoundPolygon3d)
    (detection_area_lanelet_ids : list Z) : option bool :=
  match detection_areas with
  | [] => Some false
  | detection_area :: rest =>
      let obj_point : Point2d :=
        (point_x (position (pose_covariance_pose (state object))),
         point_y (position (pose_covariance_pose (state object)))) in
      let detection_poly := to2D_basicPolygon detection_area in
      let dist_to_detection_area := bg_distance obj_point detection_poly in
      if dgt dist_to_detection_area (detection_area_margin (planner_param_ m))
      then
        (* ignore the object far from detection area *)
        in_detection_area m pd object rest detection_area_lanelet_ids
      else
        (* check direction of objects *)
        let object_direction := getObjectPoseWithVelocityDirection (state object) in
        ok <- checkAngleForTargetLanelets m pd object_direction
                detection_area_lanelet_ids ;;
        if ok then Some true
        else in_detection_area m pd object rest detection_area_lanelet_ids
  end.

(** "extract target objects". *)
Fixpoint extract_target_objects (m : IntersectionModule) (pd : PlannerData)
    (ego_poly : Polygon2d) (detection_areas : list CompoundPolygon3d)
    (detection_area_lanelet_ids : list Z) (objects : list DynamicObject)
  : option (list DynamicObject) :=
  match objects with
  | [] => Some []
  | object :: rest =>
      (* ignore non-vehicle type objects, such as pedestrian. *)
      if negb (isTargetCollisionVehicleType object)
      then extract_target_objects m pd ego_poly detection_areas
             detection_area_lanelet_ids rest
      else
        (* ignore vehicle in ego-lane. *)
        let object_pose := pose_covariance_pose (state object) in
        let is_in_ego_lane := bg_within (to_bg2d (position object_pose)) ego_poly in
        if is_in_ego_lane
        then extract_target_objects m pd ego_poly detection_areas
               detection_area_lanelet_ids rest
        else
          (* keep vehicle in detection_area *)
          keep <- in_detection_area m pd object detection_areas
                    detection_area_lanelet_ids ;;
          tl <- extract_target_objects m pd ego_poly detection_areas
                  detection_area_lanelet_ids rest ;;
          Some (if keep then object :: tl else tl)
  end.

(** What the second loop of [checkCollision] reads and does not change. *)
Record CollisionScan : Type := mkCollisionScan {
  scan_param : PlannerParam;
  scan_ego_poly : Polygon2d;
  scan_time_distance_array : TimeDistanceArray;
  scan_ego_lane_with_next_lane : list Lanelet;
  scan_closest_arc_length : double;
  scan_distance_until_intersection : double;
  scan_base_link2front : double
}.

Definition to_bg2d_path (poses : list PoseWithCovarianceStamped) : LineString2d :=
  map (fun p => to_bg2d (position (pose_pose p))) poses.

(** The predicate of both [adjacent_find] calls. *)
Definition segment_enters (ego_poly : Polygon2d) (a b : PoseWithCovarianceStamped)
  : bool :=
  bg_intersects_linestring ego_poly
    [to_bg2d (position (pose_pose a)); to_bg2d (position (pose_pose b))].

(** [for (auto itr = first_itr; itr != last_itr.base(); ++itr)] over the
    poses from [first_itr] on: [n] is the distance to [last_itr.base()] when
    that iterator lies ahead, and [None] when it lies behind, in which case
    the loop can only end by [break] and otherwise runs off the end of the
    path.  The result is the flag [collision_detected] and the debug
    polygons. *)
Fixpoint scan_footprints (polygon : Polygon2d) (object : DynamicObject)
    (poses : list PoseWithCovarianceStamped) (n : option nat)
    (collision_detected : bool) (cands : list Polygon2d)
  : option (bool * list Polygon2d) :=
  match n with
  | Some O => Some (collision_detected, cands)
  | _ =>
      match poses with
      | [] => None
      | itr :: rest =>
          let footprint_polygon := toPredictedFootprintPolygon object itr in
          let cands' := cands ++ [footprint_polygon] in
          if bg_intersects polygon footprint_polygon
          then Some (true, cands')
          else scan_footprints polygon object rest (option_map Nat.pred n)
                 collision_detected cands'
      end
  end.

(** The loop over the predicted paths of one object.  [collision_detected]
    is the flag declared before the loop over the objects. *)
Fixpoint check_predicted_paths (c : CollisionScan) (object : DynamicObject)
    (paths : list PredictedPath) (collision_detected : bool) (d : DebugData)
  : option (bool * DebugData) :=
  match paths with
  | [] => Some (collision_detected, d)
  | predicted_path :: rest =>
      let param := scan_param c in
      let ego_poly := scan_ego_poly c in
      let time_distance_array := scan_time_distance_array c in
      let poses := predicted_poses predicted_path in
      if dlt (confidence predicted_path) (min_predicted_path_confidence param)
      then
        (* ignore the predicted path with too low confidence *)
        check_predicted_paths c object rest collision_detected d
      else
        let has_collision := bg_intersects_linestring ego_poly (to_bg2d_path poses) in
        if has_collision then
          let first_itr := adjacent_find (segment_enters ego_poly) poses in
          let last_itr := adjacent_find (segment_enters ego_poly) (rev poses) in
          first_pose <- nth_error poses first_itr ;;
          front_pose <- hd_error poses ;;
          let ref_object_enter_time :=
            seconds (header_stamp first_pose - header_stamp front_pose) in
          let enter := (ref_object_enter_time - collision_start_margin_time param)%float in
          let start_time_distance :=
            if dgt enter 0 then
              let found := lower_bound time_distance_array enter in
              if (found =? List.length time_distance_array)%nat
              then None else Some found
            else Some 0%nat in
          match start_time_distance with
          | None => check_predicted_paths c object rest collision_detected d
          | Some start_time_distance_itr =>
            last_pose <- nth_error (rev poses) last_itr ;;
            let ref_object_exit_time :=
              seconds (header_stamp last_pose - header_stamp front_pose) in
            let found :=
              lower_bound time_distance_array
                (ref_object_exit_time + collision_end_margin_time param)%float in
            let end_time_distance_itr :=
              if (found =? List.length time_distance_array)%nat
              then (List.length time_distance_array - 1)%nat else found in
            start_td <- nth_error time_distance_array start_time_distance_itr ;;
            end_td <- nth_error time_distance_array end_time_distance_itr ;;
            let start_arc_length :=
              std_max 0
                (scan_closest_arc_length c + snd start_td
                 - scan_distance_until_intersection c)%float in
            let end_arc_length :=
              std_max 0
                (scan_closest_arc_length c + snd end_td + scan_base_link2front c
                 - scan_distance_until_intersection c)%float in
            let trimmed_ego_polygon :=
              getPolygonFromArcLength (scan_ego_lane_with_next_lane c)
                start_arc_length end_arc_length in
            front <- hd_error trimmed_ego_polygon ;;
            let polygon := trimmed_ego_polygon ++ [front] in
            let d1 := set_candidate_collision_ego_lane_polygon polygon d in
            let last_base := (List.length poses - last_itr)%nat in
            '(collision_detected', cands) <-
              scan_footprints polygon object (skipn first_itr poses)
                (if (first_itr <=? last_base)%nat
                 then Some (last_base - first_itr)%nat else None)
                collision_detected (candidate_collision_object_polygons d1) ;;
            let d2 := set_candidate_collision_object_polygons cands d1 in
            if collision_detected'
            then Some (true,
                       set_conflicting_targets (conflicting_targets d2 ++ [object]) d2)
            else check_predicted_paths c object rest collision_detected' d2
          end
        else check_predicted_paths c object rest collision_detected d
  end.

(** "check collision between predicted_path and ego_area": the loop over the
    target objects. *)
Fixpoint check_target_objects (c : CollisionScan) (objects : list DynamicObject)
    (collision_detected : bool) (d : DebugData) : option (bool * DebugData) :=
  match objects with
  | [] => Some (collision_detected, d)
  | object :: rest =>
      '(collision_detected', d') <-
        check_predicted_paths c object (predicted_paths (state object))
          collision_detected d ;;
      check_target_objects c rest collision_detected' d'
  end.

(** [checkCollision]: the result and the debug data it leaves. *)
Definition checkCollision (m : IntersectionModule) (pd : PlannerData) (now : Time)
    (lanelet_map_ptr : LaneletMap) (path : PathWithLaneId)
    (detection_areas : list CompoundPolygon3d) (detection_area_lanelet_ids : list Z)
    (objects : list DynamicObject) (closest_idx : Z) (d : DebugData)
  : option (bool * DebugData) :=
  (* generate ego-lane polygon *)
  ego_poly <- generateEgoIntersectionLanePolygon m lanelet_map_ptr path
                closest_idx closest_idx 0 0 ;;
  let d := set_ego_lane_polygon ego_poly d in
  (* extract target objects *)
  target_objects <- extract_target_objects m pd ego_poly detection_areas
                      detection_area_lanelet_ids objects ;;
  (* cut the predicted path at passing_time; the 64-bit [lane_id_] is passed
     for the parameter [const int objective_lane_id] *)
  time_distance_array <-
    calcIntersectionPassingTime m pd path closest_idx (to_int (lane_id_ m)) ;;
  last_pair <- back time_distance_array ;;
  let passing_time := fst last_pair in
  let target_objects := cutPredictPathWithDuration now target_objects passing_time in
  ego_lane_with_next_lane <- getEgoLaneWithNextLane m lanelet_map_ptr path ;;
  p_closest <- at_ path closest_idx ;;
  let closest_arc_coords_length :=
    getArcCoordinates_length ego_lane_with_next_lane (point_pose p_closest) in
  distance_until_intersection <-
    calcDistanceUntilIntersectionLanelet m lanelet_map_ptr path closest_idx ;;
  let base_link2front := max_longitudinal_offset_m pd in
  (* check collision between predicted_path and ego_area *)
  check_target_objects
    (mkCollisionScan (planner_param_ m) ego_poly time_distance_array
       ego_lane_with_next_lane closest_arc_coords_length distance_until_intersection
       base_link2front)
    target_objects false d.

(** *** Stuck vehicles *)

(** The loop of [checkStuckVehicleInIntersection] over the objects. *)
Fixpoint find_stuck_vehicle (param : PlannerParam)
    (stuck_vehicle_detect_area : Polygon2d) (objects : list DynamicObject)
    (d : DebugData) : bool * DebugData :=
  match objects with
  | [] => (false, d)
  | object :: rest =>
      if negb (isTargetStuckVehicleType object)
      then find_stuck_vehicle param stuck_vehicle_detect_area rest d   (* not target vehicle type *)
      else
        let obj_v := fabs (twist_linear_x (state object)) in
        if dgt obj_v (stuck_vehicle_vel_thr param)
        then find_stuck_vehicle param stuck_vehicle_detect_area rest d   (* not stop vehicle *)
        else
          (* check if the footprint is in the stuck detect area *)
          let obj_footprint := toFootprintPolygon object in
          let is_in_stuck_area := negb (bg_disjoint obj_footprint stuck_vehicle_detect_area) in
          if is_in_stuck_area
          then (true, set_stuck_targets (stuck_targets d ++ [object]) d)
          else find_stuck_vehicle param stuck_vehicle_detect_area rest d
  end.

(** [checkStuckVehicleInIntersection]. *)
Definition checkStuckVehicleInIntersection (m : IntersectionModule) (pd : PlannerData)
    (lanelet_map_ptr : LaneletMap) (path : PathWithLaneId) (closest_idx stop_idx : Z)
    (objects : list DynamicObject) (d : DebugData) : option (bool * DebugData) :=
  let detect_length :=
    (stuck_vehicle_detect_dist (planner_param_ m) + vehicle_length_m pd)%float in
  stuck_vehicle_detect_area <-
    generateEgoIntersectionLanePolygon m lanelet_map_ptr path closest_idx stop_idx
      detect_length (stuck_vehicle_ignore_dist (planner_param_ m)) ;;
  let d := set_stuck_vehicle_detect_area stuck_vehicle_detect_area d in
  Some (find_stuck_vehicle (planner_param_ m) stuck_vehicle_detect_area objects d).

(** *** The planning cycle *)

(** Lines 169 to 174: the detection results and the external override. *)
Definition is_entry_prohibited (external_go external_stop has_collision is_stuck : bool)
  : bool :=
  let is_entry_prohibited := has_collision || is_stuck in
  if external_go then false
  else if external_stop then true
  else is_entry_prohibited.

(** The state requested from the state machine (line 176). *)
Definition requested_state (is_entry_prohibited : bool) : State :=
  if is_entry_prohibited then STOP else GO.

(** Line 182. *)
Definition is_stop_required (m : IntersectionModule) (is_stuck : bool) : bool :=
  is_stuck || negb (has_traffic_light_ m) ||
  negb (String.eqb (turn_direction_ m) "straight").

(** Lines 180 to 183: the velocity handed to [setVelocityFrom]. *)
Definition stop_line_velocity (m : IntersectionModule) (is_stuck : bool) : double :=
  let stop_vel := 0%float in
  let decel_vel := decel_velocity (planner_param_ m) in
  if is_stop_required m is_stuck then stop_vel else decel_vel.

(** What one call of [modifyPathVelocity] leaves: the returned boolean, the
    path and the stop reason behind the two pointers, and the module. *)
Record Cycle : Type := mkCycle {
  returned : bool;
  cycle_path : PathWithLaneId;
  cycle_stop_reason : StopReason;
  cycle_module : IntersectionModule
}.

(** The cycle up to the pass-judge test (lines 75 to 156) either returns, or
    goes on with the indices of the stop line, of the pass-judge line and of
    the closest point, the detection areas with their lanelet ids, and the
    debug data written so far. *)
Inductive Located : Type :=
| Return (c : Cycle)
| Proceed (stop_line_idx pass_judge_line_idx closest_idx : Z)
    (detection_areas : list CompoundPolygon3d) (detection_area_lanelet_ids : list Z)
    (debug : DebugData).

Definition locate (m : IntersectionModule) (pd : PlannerData) (now : Time)
    (path : PathWithLaneId) : option Located :=
  let external_stop := isTargetExternalInputStatus m pd now IntersectionStatus_STOP in
  let stop_reason : StopReason := [] in
  let input_path := path in
  let debug0 := set_path_raw input_path DebugData_default in
  let current_state := getState (state_machine_ m) in
  (* get current pose *)
  let current_pose := current_pose pd in
  (* get lanelet map *)
  let lanelet_map_ptr := lanelet_map pd in
  let routing_graph_ptr := routing_graph pd in
  (* get detection area and conflicting area *)
  let '(conflicting_area_lanelets, detection_area_lanelets) :=
    getObjectiveLanelets lanelet_map_ptr routing_graph_ptr (lane_id_ m)
      (planner_param_ m) in
  let conflicting_areas :=
    getPolygon3dFromLaneletsVec conflicting_area_lanelets
      (detection_area_length (planner_param_ m)) in
  let detection_areas :=
    getPolygon3dFromLaneletsVec detection_area_lanelets
      (detection_area_length (planner_param_ m)) in
  let detection_area_lanelet_ids :=
    getLaneletIdsFromLaneletsVec detection_area_lanelets in
  if is_empty detection_areas then
    (* no detection area. skip computation. *)
    Some (Return (mkCycle true path stop_reason (with_debug_data debug0 m)))
  else
    let debug1 := set_detection_area detection_areas debug0 in
    (* set stop-line and stop-judgement-line for base_link *)
    match generateStopLine (lane_id_ m) conflicting_areas pd (planner_param_ m) path with
    | None => Some (Return (mkCycle false path stop_reason (with_debug_data debug1 m)))
    | Some (stop_line_idx, pass_judge_line_idx, first_idx_inside_lane) =>
        if (stop_line_idx <=? 0) || (pass_judge_line_idx <=? 0) then
          (* stop line or pass judge line is at path[0], ignore planning. *)
          Some (Return (mkCycle true path stop_reason (with_debug_data debug1 m)))
        else
          (* calc closest index *)
          match calcClosestIndex input_path current_pose with
          | None =>
              Some (Return (mkCycle false path stop_reason (with_debug_data debug1 m)))
          | Some closest_idx =>
              (* if current_state = GO, and current_pose is in front of
                 stop_line, ignore planning. *)
              is_over_pass_judge_line <-
                (if closest_idx =? pass_judge_line_idx then
                   pass_judge_line <- at_ path pass_judge_line_idx ;;
                   Some (isAheadOf current_pose (point_pose pass_judge_line))
                 else Some (closest_idx >? pass_judge_line_idx)) ;;
              if State_eqb current_state GO && is_over_pass_judge_line
                 && negb external_stop
              then
                (* over the pass judge line. no plan needed. *)
                Some (Return (mkCycle true path stop_reason (with_debug_data debug1 m)))
              else
                Some (Proceed stop_line_idx pass_judge_line_idx closest_idx
                        detection_areas detection_area_lanelet_ids debug1)
          end
    end.

(** The rest of the cycle (lines 158 to 211). *)
Definition decide (m : IntersectionModule) (pd : PlannerData) (now : Time)
    (path : PathWithLaneId) (stop_line_idx pass_judge_line_idx closest_idx : Z)
    (detection_areas : list CompoundPolygon3d) (detection_area_lanelet_ids : list Z)
    (debug1 : DebugData) : option Cycle :=
  let external_go := isTargetExternalInputStatus m pd now IntersectionStatus_GO in
  let external_stop := isTargetExternalInputStatus m pd now IntersectionStatus_STOP in
  let stop_reason : StopReason := [] in
  let lanelet_map_ptr := lanelet_map pd in
  (* get dynamic object *)
  let objects := dynamic_objects pd in
  (* calculate dynamic collision around detection area *)
  '(has_collision, debug2) <-
    checkCollision m pd now lanelet_map_ptr path detection_areas
      detection_area_lanelet_ids objects closest_idx debug1 ;;
  '(is_stuck, debug3) <-
    checkStuckVehicleInIntersection m pd lanelet_map_ptr path
      closest_idx stop_line_idx objects debug2 ;;
  let prohibited :=
    is_entry_prohibited external_go external_stop has_collision is_stuck in
  let state_machine :=
    setStateWithMarginTime (requested_state prohibited) now (state_machine_ m) in
  let m1 := with_state_machine state_machine m in
  (* set stop speed *)
  if State_eqb (getState state_machine) STOP then
    let v := stop_line_velocity m is_stuck in
    let base_link2front := max_longitudinal_offset_m pd in
    let path' := setVelocityFrom stop_line_idx v path in
    if is_stop_required m is_stuck then
      let debug4 := set_stop_required true debug3 in
      let debug5 :=
        set_stop_wall_pose (getAheadPose stop_line_idx base_link2front path') debug4 in
      stop_point <- at_ path' stop_line_idx ;;
      let debug6 := set_stop_point_pose (point_pose stop_point) debug5 in
      judge_point <- at_ path' pass_judge_line_idx ;;
      let debug7 := set_judge_point_pose (point_pose judge_point) debug6 in
      (* get stop point and stop factor *)
      let stop_factor_conflict := toRosPoints (conflicting_targets debug7) in
      let stop_factor_stuck := toRosPoints (stuck_targets debug7) in
      let stop_factor :=
        mkStopFactor (stop_point_pose debug7)
          (stop_factor_conflict ++ stop_factor_stuck) in
      Some (mkCycle true path' (stop_reason ++ [stop_factor]) (with_debug_data debug7 m1))
    else
      let debug4 := set_stop_required false debug3 in
      let debug5 :=
        set_slow_wall_pose (getAheadPose stop_line_idx base_link2front path') debug4 in
      Some (mkCycle true path' stop_reason (with_debug_data debug5 m1))
  else
    Some (mkCycle true path stop_reason (with_debug_data debug3 m1)).

(** [modifyPathVelocity(path, stop_reason)] for the planner data [pd] and
    the clock reading [now]. *)
Definition modifyPathVelocity (m : IntersectionModule) (pd : PlannerData) (now : Time)
    (path : PathWithLaneId) : option Cycle :=
  located <- locate m pd now path ;;
  match located with
  | Return c => Some c
  | Proceed stop_line_idx pass_judge_line_idx closest_idx detection_areas
      detection_area_lanelet_ids debug1 =>
      decide m pd now path stop_line_idx pass_judge_line_idx closest_idx
        detection_areas detection_area_lanelet_ids debug1
  end.

End Intersection.

(** ** A small town

    An instance of the externals on which the module can be run: lanelets
    are axis-parallel rectangles, the ego lane runs along the x axis and arc
    length is measured along x, polygons are compared by their bounding
    boxes (exact for axis-parallel rectangles and segments), and the yaw of
    an orientation is kept in its z component. *)
Module Town.

Record Lanelet : Type := mkLanelet {
  ll_id : Z;
  ll_attributes : list (string * string);
  ll_traffic_lights : list Z;
  ll_x0 : double; ll_x1 : double;
  ll_y0 : double; ll_y1 : double;
  ll_angle : double;
  ll_conflicting : list Z   (* ids of the lanes this lanelet crosses *)
}.

#[global] Instance types : MapTypes := {
  Lanelet := Lanelet;
  LaneletMap := list Lanelet;
  RoutingGraph := unit;
  CompoundPolygon3d := Polygon2d
}.

Definition rectangle (x0 x1 y0 y1 : double) : Polygon2d :=
  [(x0, y0); (x0, y1); (x1, y1); (x1, y0)].

Definition fmin (a b : double) : double := if dlt b a then b else a.
Definition fmax (a b : double) : double := if dlt a b then b else a.

(** The bounding box (xmin, xmax, ymin, ymax) of a ring or line string. *)
Fixpoint bbox (ps : list Point2d) : option (double * double * double * double) :=
  match ps with
  | [] => None
  | (px, py) :: rest =>
      match bbox rest with
      | None => Some (px, px, py, py)
      | Some (x0, x1, y0, y1) => Some (fmin px x0, fmax px x1, fmin py y0, fmax py y1)
      end
  end.

Definition overlap (p q : list Point2d) : bool :=
  match bbox p, bbox q with
  | Some (a0, a1, b0, b1), Some (c0, c1, d0, d1) =>
      (a0 <=? c1)%float && (c0 <=? a1)%float && (b0 <=? d1)%float && (d0 <=? b1)%float
  | _, _ => false
  end.

Fixpoint segments (ps : list Point2d) : list (list Point2d) :=
  match ps with
  | [] => []
  | a :: tl =>
      match tl with
      | [] => []
      | b :: _ => [a; b] :: segments tl
      end
  end.

Definition intersects_linestring (poly : Polygon2d) (ls : LineString2d) : bool :=
  match ls with
  | [p] => overlap poly [p]
  | _ => existsb (overlap poly) (segments ls)
  end.

Definition distance (p : Point2d) (poly : Polygon2d) : double :=
  match bbox poly with
  | None => infinity
  | Some (x0, x1, y0, y1) =>
      let dx := fmax (fmax (x0 - fst p) (fst p - x1)) 0 in
      let dy := fmax (fmax (y0 - snd p) (snd p - y1)) 0 in
      sqrt (dx * dx + dy * dy)
  end%float.

Fixpoint find_lanelet (map : list Lanelet) (id : Z) : option Lanelet :=
  match map with
  | [] => None
  | l :: rest => if ll_id l =? id then Some l else find_lanelet rest id
  end.

Fixpoint lookup (key : string) (kvs : list (string * string)) (default : string)
  : string :=
  match kvs with
  | [] => default
  | (k, v) :: rest => if String.eqb k key then v else lookup key rest default
  end.

Definition lanelet_polygon (l : Lanelet) : Polygon2d :=
  rectangle (ll_x0 l) (ll_x1 l) (ll_y0 l) (ll_y1 l).

(** The stretch of the first lanelet's strip between two arc lengths. *)
Definition polygon_from_arc_length (lanes : list Lanelet) (s e : double)
  : list Point2d :=
  match lanes with
  | [] => []
  | l :: _ =>
      if dlt s e
      then rectangle (ll_x0 l + s) (ll_x0 l + e) (ll_y0 l) (ll_y1 l)
      else []
  end.

Definition arc_length (lanes : list Lanelet) (p : Pose) : double :=
  match lanes with
  | [] => 0
  | l :: _ => fmax 0 (point_x (position p) - ll_x0 l)
  end%float.

Definition box (p : Pose) (dims : Vector3) : Polygon2d :=
  (rectangle (point_x (position p) - vec_x dims / 2)
             (point_x (position p) + vec_x dims / 2)
             (point_y (position p) - vec_y dims / 2)
             (point_y (position p) + vec_y dims / 2))%float.

(** The index of the path point nearest in x to the pose. *)
Fixpoint closest (path : PathWithLaneId) (p : Pose) (i : Z) (best : option (Z * double))
  : option Z :=
  match path with
  | [] => option_map fst best
  | q :: rest =>
      let dq := fabs (point_x (position (point_pose q)) - point_x (position p))%float in
      match best with
      | Some (_, db) =>
          if dlt dq db then closest rest p (i + 1) (Some (i, dq))
          else closest rest p (i + 1) best
      | None => closest rest p (i + 1) (Some (i, dq))
      end
  end.

Fixpoint first_tagged (lane_id : Z) (path : PathWithLaneId) (i : Z) : option Z :=
  match path with
  | [] => None
  | q :: rest => if hasLaneId q lane_id then Some i else first_tagged lane_id rest (i + 1)
  end.

(** The stop line is the point before the first one inside the lane, the
    pass-judge line the point before the stop line. *)
Definition stop_line (lane_id : Z) (conflicting_areas : list Polygon2d)
    (path : PathWithLaneId) : option (Z * Z * Z) :=
  match conflicting_areas with
  | [] => None
  | _ :: _ =>
      match first_tagged lane_id path 0 with
      | None => None
      | Some first_idx_inside_lane =>
          Some (first_idx_inside_lane - 1, first_idx_inside_lane - 2,
                first_idx_inside_lane)
      end
  end.

Fixpoint set_velocity_from (idx : Z) (vel : double) (path : PathWithLaneId) (i : Z)
  : PathWithLaneId :=
  match path with
  | [] => []
  | q :: rest =>
      (if idx <=? i then mkPathPoint (point_pose q) vel (lane_ids q) else q)
        :: set_velocity_from idx vel rest (i + 1)
  end.

Definition ahead_pose (idx : Z) (d : double) (path : PathWithLaneId) : Pose :=
  match at_ path idx with
  | None => Pose_default
  | Some q =>
      let p := point_pose q in
      mkPose (mkPoint (point_x (position p) + d) (point_y (position p))
                (point_z (position p))) (orientation p)
  end.

Definition x_of (path : PathWithLaneId) (i : Z) : double :=
  match at_ path i with
  | None => 0
  | Some q => point_x (position (point_pose q))
  end.

Definition crossing (map : list Lanelet) (lane_id : Z) : list (list Lanelet) :=
  List.map (fun l => [l])
    (filter (fun l => existsb (Z.eqb lane_id) (ll_conflicting l)) map).

#[global] Instance externals : Externals := {
  laneletLayer_get := find_lanelet;
  attributeOr := fun l key default => lookup key (ll_attributes l) default;
  regulatoryElementsAs_TrafficLight := ll_traffic_lights;
  getArcCoordinates_length := arc_length;
  getLaneletLength3d := fun l => (ll_x1 l - ll_x0 l)%float;
  getPolygonFromArcLength := polygon_from_arc_length;
  isInLanelet := fun p l margin =>
    overlap (lanelet_polygon l)
      [(point_x (position p), point_y (position p))];
  getLaneletAngle := fun l _ => ll_angle l;
  centerline2d_front := fun l => (ll_x0 l, (ll_y0 l + ll_y1 l) / 2)%float;
  to2D_basicPolygon := fun poly => poly;
  bg_within := fun p poly => overlap poly [p];
  bg_distance := distance;
  bg_intersects_linestring := intersects_linestring;
  bg_intersects := overlap;
  bg_disjoint := fun p q => negb (overlap p q);
  getEulerYPR := fun q => (quat_z q, 0, 0)%float;
  setRPY := fun roll pitch yaw => mkQuaternion 0 0 yaw 1;
  getYaw := quat_z;
  normalizeRadian := fun a => a;
  hypot := fun a b => sqrt (a * a + b * b)%float;
  to_bg2d := fun p => (point_x p, point_y p);
  toBoostPoly := List.map (fun p => (point_x p, point_y p));
  obj2polygon := box;
  calcClosestIndex := fun path p => closest path p 0 None;
  calcDist2d := fun p q =>
    fabs (point_x (position (point_pose q)) - point_x (position (point_pose p)))%float;
  getObjectiveLanelets := fun map _ lane_id _ => (crossing map lane_id, crossing map lane_id);
  getPolygon3dFromLaneletsVec := fun lls _ =>
    List.concat (List.map (List.map lanelet_polygon) lls);
  getLaneletIdsFromLaneletsVec := fun lls => List.concat (List.map (List.map ll_id) lls);
  generateStopLine := fun lane_id areas _ _ path => stop_line lane_id areas path;
  isAheadOf := fun p q => dgt (point_x (position p)) (point_x (position q));
  setVelocityFrom := fun idx vel path => set_velocity_from idx vel path 0;
  getAheadPose := ahead_pose;
  calcArcLengthFromPath := fun path i j => (x_of path j - x_of path i)%float
}.

(** *** The map: lane 9 leads into the intersection lane 10, which lane 20
    crosses from south to north, and lane 11 leads out. *)

Definition straight : list (string * string) :=
  [("turn_direction"%string, "straight"%string)].

Definition lane9 : Lanelet :=
  mkLanelet 9 [] [] (-10) 10 (-2) 2 0 [].
Definition lane10 : Lanelet :=
  mkLanelet 10 straight [100] 10 20 (-2) 2 0 [].
Definition lane11 : Lanelet :=
  mkLanelet 11 [] [] 20 30 (-2) 2 0 [].
Definition lane20 : Lanelet :=
  mkLanelet 20 [] [] 12 20 (-40) 40 0x1.921fb54442d18p+0 [10].

Definition town : list Lanelet := [lane9; lane10; lane11; lane20].

Definition level : Quaternion := mkQuaternion 0 0 0 1.
Definition north : Quaternion := mkQuaternion 0 0 0x1.921fb54442d18p+0 1.

Definition waypoint (px : double) (lane : Z) : PathPointWithLaneId :=
  mkPathPoint (mkPose (mkPoint px 0 0) level) 5 [lane].

(** Eight waypoints, 5 m apart, with target velocity 5 m/s. *)
Definition road : PathWithLaneId :=
  [waypoint (-10) 9; waypoint (-5) 9; waypoint 0 9; waypoint 5 9;
   waypoint 10 10; waypoint 15 10; waypoint 20 11; waypoint 25 11].

(** The parameters, for a margin time and a decel velocity. *)
Definition configured (margin_time decel : double) : PlannerParam :=
  {| state_transit_margin_time := margin_time;
     decel_velocity := decel;
     stuck_vehicle_detect_dist := 3;
     stuck_vehicle_ignore_dist := 5;
     stuck_vehicle_vel_thr := 0.5;
     intersection_velocity := 5;
     intersection_max_acc := 1;
     detection_area_margin := 0.5;
     detection_area_length := 100;
     detection_area_angle_thr := 0.5;
     min_predicted_path_confidence := 0.5;
     external_input_timeout := 1;
     collision_start_margin_time := 0.5;
     collision_end_margin_time := 0.5 |}.

Definition param : PlannerParam := configured 2 3.

Definition sec (n : Z) : Time := n * 1000000000.

(** A predicted pose: at [t] seconds, at ([px], [py]), heading north. *)
Definition pose_at (t : Z) (px py : double) : PoseWithCovarianceStamped :=
  mkStamped (sec t) (mkPose (mkPoint px py 0) north).

(** A vehicle 2 m by 2 m at ([px], [py]) heading north, with one predicted
    path. *)
Definition vehicle (id : Z) (type : SemanticType) (px py speed : double)
    (conf : double) (poses : list PoseWithCovarianceStamped) : DynamicObject :=
  mkDynamicObject id type
    (mkObjectState (mkPose (mkPoint px py 0) north) true speed
       [mkPredictedPath poses conf])
    (mkShape BOUNDING_BOX (mkVector3 2 2 2) []).

(** The planner data with the ego vehicle at [px] on the road, driving at
    5 m/s. *)
Definition data (px : double) (objects : list DynamicObject)
    (input : option ExternalInput) : PlannerData :=
  mkPlannerData (mkPose (mkPoint px 0 0) level) 5 objects town tt 4 5 input.

(** The module of lane 10 in a given state, with the margin time of the
    parameters. *)
Definition module_of (p : PlannerParam) (s : State) (start : option Time)
  : IntersectionModule :=
  mkIntersectionModule 10 "straight" true p
    (mkStateMachine s (state_transit_margin_time p) start) DebugData_default.

(** *** Objects *)

(** A car that crosses the ego lane at x = 15 between 1 s and 3 s, when the
    ego vehicle, 15 m before it at 5 m/s, is due there. *)
Definition car_a : DynamicObject :=
  vehicle 1 CAR 15 (-20) 10 0.75
    [pose_at 0 15 (-20); pose_at 1 15 (-10); pose_at 2 15 0; pose_at 3 15 10;
     pose_at 4 15 20].

(** A car that crosses the ego lane at x = 19 within the first second, long
    before the ego vehicle gets there. *)
Definition car_b : DynamicObject :=
  vehicle 2 CAR 19 (-5) 10 0.75
    [pose_at 0 19 (-5); pose_at 1 19 5; pose_at 2 19 15].

(** A car that crossed the ego lane at x = 17 at 8 s and is past it at 10 s;
    its predicted path starts at 7 s. *)
Definition car_c : DynamicObject :=
  vehicle 3 CAR 17 20 10 0.75
    [pose_at 7 17 (-10); pose_at 8 17 0; pose_at 9 17 10; pose_at 10 17 20;
     pose_at 11 17 30].

(** A bicycle and a car standing on the ego lane beyond the intersection. *)
Definition bicycle : DynamicObject := vehicle 4 BICYCLE 22 0 0 0.75 [].
Definition standing_car : DynamicObject := vehicle 5 CAR 24 0 0 0.75 [].

Definition go_input : ExternalInput := mkExternalInput IntersectionStatus_GO (sec 0).

(** The detection area of lane 10 and the ids of its lanelets. *)
Definition area20 : list Polygon2d := [lanelet_polygon lane20].
Definition ids20 : list Z := [20].

(** The velocities along a path. *)
Definition velocities (path : PathWithLaneId) : list double :=
  List.map point_twist_linear_x path.

(** *** Further objects, inputs and paths *)

(** A pedestrian and a car on the course of [car_a]; the predicted path of
    the car has the confidence 0.25, below the threshold of 0.5. *)
Definition pedestrian : DynamicObject :=
  vehicle 6 PEDESTRIAN 15 (-20) 10 0.75
    [pose_at 0 15 (-20); pose_at 1 15 (-10); pose_at 2 15 0; pose_at 3 15 10;
     pose_at 4 15 20].

Definition car_d : DynamicObject :=
  vehicle 7 CAR 15 (-20) 10 0.25
    [pose_at 0 15 (-20); pose_at 1 15 (-10); pose_at 2 15 0; pose_at 3 15 10;
     pose_at 4 15 20].

Definition stop_input : ExternalInput :=
  mkExternalInput IntersectionStatus_STOP (sec 0).

(** The road before the intersection: no waypoint is in lane 10. *)
Definition approach : PathWithLaneId :=
  [waypoint (-10) 9; waypoint (-5) 9; waypoint 0 9].

(** A module of lane 9, which no lanelet crosses. *)
Definition module_of_lane9 (s : State) : IntersectionModule :=
  mkIntersectionModule 9 "else" false param
    (mkStateMachine s (state_transit_margin_time param) None) DebugData_default.

End Town.

(** ** Vocabulary of the properties *)

Definition is_bicycle (object : DynamicObject) : bool :=
  SemanticType_eqb (semantic_type object) BICYCLE.

(** The time-distance profile in the words of the specification: starting
    from the speed [v], the elapsed time [t] and the arc length [s], each
    segment of length [d] contributes a pair whose arc length grows by [d]
    and whose time grows by [d] over the average speed, where the next speed
    is min(sqrt(v^2 + 2 a_max d), v_cap) and the average speed is
    min((v + v_next) / 2, v_cap). *)
Fixpoint profile_from (a_max v_cap v t s : double) (ds : list double)
  : list (double * double) :=
  match ds with
  | [] => []
  | d :: rest =>
      let v_next := std_min (sqrt (v * v + 2 * a_max * d))%float v_cap in
      let v_average := std_min ((v + v_next) / 2)%float v_cap in
      let t' := (t + d / v_average)%float in
      let s' := (s + d)%float in
      (t', s') :: profile_from a_max v_cap v_next t' s' rest
  end.

Definition profile (a_max v_cap v0 : double) (ds : list double)
  : list (double * double) :=
  (0, 0)%float :: profile_from a_max v_cap v0 0 0 ds.

(** The waypoints the profile covers, among those after the closest one: all
    up to and including the first that is not tagged with the lane although
    a tagged one has been [seen]; all of them when there is no such
    waypoint. *)
Fixpoint covered (lane : Z) (seen : bool) (points : list PathPointWithLaneId)
  : list PathPointWithLaneId :=
  match points with
  | [] => []
  | p :: rest =>
      if seen && negb (hasLaneId p lane) then [p]
      else p :: covered lane (seen || hasLaneId p lane) rest
  end.

(** The lengths of the segments from [prev] through [points]. *)
Fixpoint segment_lengths `{Externals} (prev : PathPointWithLaneId)
    (points : list PathPointWithLaneId) : list double :=
  match points with
  | [] => []
  | p :: rest => calcDist2d prev p :: segment_lengths p rest
  end.

(** Two modules that differ at most in their state machine and debug data. *)
Definition same_configuration `{MapTypes} (m m' : IntersectionModule) : Prop :=
  lane_id_ m = lane_id_ m' /\ turn_direction_ m = turn_direction_ m' /\
  has_traffic_light_ m = has_traffic_light_ m' /\
  planner_param_ m = planner_param_ m'.

(** The first loop of [checkCollision] for one object: whether it is of a
    target class, lies outside the ego lane polygon and is kept by the
    detection areas; [None] when the lookup of a lanelet throws on the way. *)
Definition is_collision_target `{Externals} (m : IntersectionModule) (pd : PlannerData)
    (ego_poly : Polygon2d) (detection_areas : list CompoundPolygon3d)
    (detection_area_lanelet_ids : list Z) (object : DynamicObject) : option bool :=
  if isTargetCollisionVehicleType object
     && negb (bg_within (to_bg2d (position (pose_covariance_pose (state object))))
                ego_poly)
  then in_detection_area m pd object detection_areas detection_area_lanelet_ids
  else Some false.

Definition is_Some_true (b : option bool) : bool :=
  match b with
  | Some true => true
  | _ => false
  end.

Definition is_None {A : Type} (a : option A) : bool :=
  match a with
  | None => true
  | Some _ => false
  end.

(** All predicted paths of the object have a confidence below [thr]. *)
Definition all_paths_below (thr : double) (object : DynamicObject) : bool :=
  forallb (fun p => dlt (confidence p) thr) (predicted_paths (state object)).

(** The test of [cutPredictPathWithDuration] on one predicted pose. *)
Definition before (now : Time) (time_thr : double) (pose : PoseWithCovarianceStamped)
  : bool :=
  dlt (seconds (header_stamp pose - now)) time_thr.

(** The predicate of both [find_if] calls, [p.lane_ids.front() == lane_id_],
    on a point that has a lane id. *)
Definition front_lane_is (lane_id : Z) (p : PathPointWithLaneId) : bool :=
  match lane_ids p with
  | front :: _ => front =? lane_id
  | [] => false
  end.

Definition has_front_lane (p : PathPointWithLaneId) : bool :=
  negb (is_empty (lane_ids p)).

(** What the loop of [checkStuckVehicleInIntersection] looks for: a vehicle
    of a stuck-target class, not faster than the threshold, whose footprint
    is not disjoint from the detection area. *)
Definition is_stuck_candidate `{Externals} (param : PlannerParam) (area : Polygon2d)
    (object : DynamicObject) : bool :=
  isTargetStuckVehicleType object &&
  negb (dgt (fabs (twist_linear_x (state object))) (stuck_vehicle_vel_thr param)) &&
  negb (bg_disjoint (toFootprintPolygon object) area).

(** The test of [checkAngleForTargetLanelets] on one lanelet id that is in
    the map: the lanelet contains the pose, within the margin, and its
    direction at the pose is within the angle threshold of the yaw of the
    pose. *)
Definition angle_matches `{Externals} (m : IntersectionModule) (pd : PlannerData)
    (pose : Pose) (lanelet_id : Z) : bool :=
  match laneletLayer_get (lanelet_map pd) lanelet_id with
  | Some ll =>
      isInLanelet pose ll (detection_area_margin (planner_param_ m)) &&
      dlt (fabs (normalizeRadian
                   (getLaneletAngle ll (position pose) - getYaw (orientation pose))%float))
          (detection_area_angle_thr (planner_param_ m))
  | None => false
  end.

(** * The multiple vehicle tracker

    A shallow embedding of
    [multi_object_tracker/src/tracker/model/multiple_vehicle_tracker.cpp]. *)
Module Tracking.

(** The message types the file hands on without looking inside.
    [TrackedBody] stands for the fields of a tracked object besides its id
    and its classification. *)
Class Messages : Type := {
  UUID : Type;
  Classification : Type;   (* std::vector<ObjectClassification> *)
  DetectedObject : Type;
  detected_classification : DetectedObject -> Classification;   (* object.classification *)
  TrackedBody : Type
}.

(** [autoware_auto_perception_msgs::msg::TrackedObject]. *)
Record TrackedObject `{Messages} : Type := mkTrackedObject {
  object_id : UUID;
  classification : Classification;
  body : TrackedBody
}.

Arguments mkTrackedObject {_}.

(** What the file calls and does not define: the base class [Tracker], the
    two trackers it combines, whose methods return a boolean and update the
    tracker or the object behind the reference, and the label constants. *)
Class Trackers `{Messages} : Type := {
  Tracker : Type;
  Tracker_new : Time -> Classification -> Tracker;
  getHighestProbLabel : Tracker -> Z;   (* uint8_t *)
  getUUID : Tracker -> UUID;
  getClassification : Tracker -> Classification;
  setClassification : Classification -> Tracker -> Tracker;
  Label_CAR : Z;
  Label_BUS : Z;
  Label_TRUCK : Z;
  NormalVehicleTracker : Type;
  NormalVehicleTracker_new : Time -> DetectedObject -> NormalVehicleTracker;
  NormalVehicleTracker_predict : Time -> NormalVehicleTracker -> bool * NormalVehicleTracker;
  NormalVehicleTracker_measure :
    DetectedObject -> Time -> NormalVehicleTracker -> bool * NormalVehicleTracker;
  NormalVehicleTracker_getTrackedObject :
    NormalVehicleTracker -> Time -> TrackedObject -> bool * TrackedObject;
  BigVehicleTracker : Type;
  BigVehicleTracker_new : Time -> DetectedObject -> BigVehicleTracker;
  BigVehicleTracker_predict : Time -> BigVehicleTracker -> bool * BigVehicleTracker;
  BigVehicleTracker_measure :
    DetectedObject -> Time -> BigVehicleTracker -> bool * BigVehicleTracker;
  BigVehicleTracker_getTrackedObject :
    BigVehicleTracker -> Time -> TrackedObject -> bool * TrackedObject
}.

Section MultipleVehicleTracker.

Context {M : Messages} {T : Trackers}.

(** [MultipleVehicleTracker]: the base class and the two members. *)
Record MultipleVehicleTracker : Type := mkMultipleVehicleTracker {
  tracker : Tracker;
  normal_vehicle_tracker_ : NormalVehicleTracker;
  big_vehicle_tracker_ : BigVehicleTracker
}.

(** The constructor. *)
Definition MultipleVehicleTracker_new (time : Time) (object : DetectedObject)
  : MultipleVehicleTracker :=
  mkMultipleVehicleTracker (Tracker_new time (detected_classification object))
    (NormalVehicleTracker_new time object) (BigVehicleTracker_new time object).

(** [predict(time)]: the returned boolean and the tracker afterwards. *)
Definition predict (time : Time) (t : MultipleVehicleTracker)
  : bool * MultipleVehicleTracker :=
  let big := snd (BigVehicleTracker_predict time (big_vehicle_tracker_ t)) in
  let normal := snd (NormalVehicleTracker_predict time (normal_vehicle_tracker_ t)) in
  (true, mkMultipleVehicleTracker (tracker t) normal big).

(** [measure(object, time)]. *)
Definition measure (object : DetectedObject) (time : Time) (t : MultipleVehicleTracker)
  : bool * MultipleVehicleTracker :=
  let big := snd (BigVehicleTracker_measure object time (big_vehicle_tracker_ t)) in
  let normal :=
    snd (NormalVehicleTracker_measure object time (normal_vehicle_tracker_ t)) in
  (true,
   mkMultipleVehicleTracker
     (setClassification (detected_classification object) (tracker t)) normal big).

(** [getTrackedObject(time, object)]: the returned boolean and the object
    behind the reference afterwards. *)
Definition getTrackedObject (t : MultipleVehicleTracker) (time : Time)
    (object : TrackedObject) : bool * TrackedObject :=
  let label := getHighestProbLabel (tracker t) in
  let object :=
    if label =? Label_CAR then
      snd (NormalVehicleTracker_getTrackedObject (normal_vehicle_tracker_ t) time object)
    else if (label =? Label_BUS) || (label =? Label_TRUCK) then
      snd (BigVehicleTracker_getTrackedObject (big_vehicle_tracker_ t) time object)
    else object in
  (true,
   mkTrackedObject (getUUID (tracker t)) (getClassification (tracker t)) (body object)).

(** The two operations that update a tracker, and a sequence of them
    performed in turn: the returned booleans, oldest first, and the tracker
    afterwards. *)
Inductive Operation : Type :=
| Predict (time : Time)
| Measure (object : DetectedObject) (time : Time).

Definition perform (t : MultipleVehicleTracker) (op : Operation)
  : bool * MultipleVehicleTracker :=
  match op with
  | Predict time => predict time t
  | Measure object time => measure object time t
  end.

Definition perform_all (t : MultipleVehicleTracker) (ops : list Operation)
  : list bool * MultipleVehicleTracker :=
  fold_left (fun acc op =>
               let '(results, t) := acc in
               let '(result, t') := perform t op in
               (results ++ [result], t'))
    ops ([], t).

(** The objects measured by a sequence of operations, oldest first. *)
Definition measured (ops : list Operation) : list DetectedObject :=
  flat_map (fun op => match op with
                      | Measure object _ => [object]
                      | Predict _ => []
                      end) ops.

End MultipleVehicleTracker.

End Tracking.

(** * The route API

    A shallow embedding of the route node of the internal API
    ([route.cpp]): the conversion of a route of the external API into a
    route of the planner, and the three services, each of which publishes
    one message and answers with success.  A publisher is the list of the
    messages published on it so far, oldest first. *)
Module RouteApi.

(** std_msgs and geometry_msgs. *)
Record Header : Type := mkHeader { stamp : Time; frame_id : string }.

Record PoseStamped : Type := mkPoseStamped { header : Header; pose : Pose }.

(** [autoware_external_api_msgs], the fields the file reads. *)
Module External.

Record RouteSection : Type := mkRouteSection {
  lane_ids : list Z;
  preferred_lane_id : Z;
  continued_lane_ids : list Z
}.

Record Route : Type := mkRoute {
  goal_pose : PoseStamped;
  route_sections : list RouteSection
}.

End External.

(** [autoware_planning_msgs], the fields the file builds. *)
Module Planning.

Record RouteSection : Type := mkRouteSection {
  lane_ids : list Z;
  preferred_lane_id : Z;
  continued_lane_ids : list Z
}.

Record Route : Type := mkRoute {
  header : Header;
  goal_pose : Pose;
  route_sections : list RouteSection
}.

End Planning.

Definition convertRouteSection (section : External.RouteSection)
  : Planning.RouteSection :=
  Planning.mkRouteSection (External.lane_ids section)
    (External.preferred_lane_id section) (External.continued_lane_ids section).

(** [convertRoute]: the loop pushes the converted sections back one by one. *)
Definition convertRoute (route : External.Route) : Planning.Route :=
  let route_sections :=
    fold_left (fun route_sections section =>
                 route_sections ++ [convertRouteSection section])
      (External.route_sections route) [] in
  Planning.mkRoute (header (External.goal_pose route))
    (pose (External.goal_pose route)) route_sections.

Section Node.

(** [autoware_api_utils::response_success()], which the file calls and does
    not define. *)
Variable ResponseStatus : Type.
Variable response_success : ResponseStatus.

(** The node [internal_api::Route] with its three publishers. *)
Record Route : Type := mkRoute {
  pub_route_ : list Planning.Route;
  pub_goal_ : list PoseStamped;
  pub_checkpoint_ : list PoseStamped
}.

(** The constructor creates the services and the publishers. *)
Definition Route_new : Route := mkRoute [] [] [].

(** The services: the node afterwards and [response->status]. *)
Definition setRoute (request_route : External.Route) (node : Route)
  : Route * ResponseStatus :=
  (mkRoute (pub_route_ node ++ [convertRoute request_route]) (pub_goal_ node)
     (pub_checkpoint_ node),
   response_success).

Definition setGoal (request_pose : PoseStamped) (node : Route)
  : Route * ResponseStatus :=
  (mkRoute (pub_route_ node) (pub_goal_ node ++ [request_pose]) (pub_checkpoint_ node),
   response_success).

Definition setCheckpoint (request_pose : PoseStamped) (node : Route)
  : Route * ResponseStatus :=
  (mkRoute (pub_route_ node) (pub_goal_ node) (pub_checkpoint_ node ++ [request_pose]),
   response_success).

(** A call of one of the three services, and the calls served in turn: the
    node afterwards and the responses, oldest first. *)
Inductive Call : Type :=
| SetRoute (route : External.Route)
| SetGoal (pose : PoseStamped)
| SetCheckpoint (pose : PoseStamped).

Definition serve (node : Route) (call : Call) : Route * ResponseStatus :=
  match call with
  | SetRoute route => setRoute route node
  | SetGoal pose => setGoal pose node
  | SetCheckpoint pose => setCheckpoint pose node
  end.

Definition serve_all (node : Route) (calls : list Call) : Route * list ResponseStatus :=
  fold_left (fun acc call =>
               let '(node, responses) := acc in
               let '(node', response) := serve node call in
               (node', responses ++ [response]))
    calls (node, []).

Definition requested_routes (calls : list Call) : list External.Route :=
  flat_map (fun call => match call with SetRoute route => [route] | _ => [] end) calls.

Definition requested_goals (calls : list Call) : list PoseStamped :=
  flat_map (fun call => match call with SetGoal pose => [pose] | _ => [] end) calls.

Definition requested_checkpoints (calls : list Call) : list PoseStamped :=
  flat_map (fun call => match call with SetCheckpoint pose => [pose] | _ => [] end) calls.

End Node.

End RouteApi.

(* ================================================================= *)
(** * Properties *)

(** ** The state machine *)

Lemma run_snoc (sm : StateMachine) (rs : list Request) (r : Request) :
  run sm (rs ++ [r]) = step (run sm rs) r.
Proof. unfold run. rewrite fold_left_app. reflexivity. Qed.

Lemma step_margin (sm : StateMachine) (r : Request) :
  margin_time_ (step sm r) = margin_time_ sm.
Proof.
  destruct r as [[|] now]; destruct sm as [[|] m [start|]];
    unfold step, setStateWithMarginTime; simpl; try reflexivity;
    destruct (dgt _ _); reflexivity.
Qed.

Lemma run_margin (rs : list Request) (sm : StateMachine) :
  margin_time_ (run sm rs) = margin_time_ sm.
Proof.
  revert sm. induction rs as [|r rs IH]; intros sm; [reflexivity|].
  change (run sm (r :: rs)) with (run (step sm r) rs).
  rewrite IH. apply step_margin.
Qed.

(** What one evaluation can do to the pending timestamp: it is either
    cleared, or recorded as the present clock reading by a GO request that
    found none while in STOP, or kept by a GO request in STOP. *)
Lemma step_pending (sm : StateMachine) (r : Request) (t0 : Time) :
  start_time_ (step sm r) = Some t0 ->
  fst r = GO /\ state_ sm = STOP /\ state_ (step sm r) = STOP /\
  ((start_time_ sm = None /\ t0 = snd r) \/ start_time_ sm = Some t0).
Proof.
  destruct r as [[|] now]; destruct sm as [[|] m [start|]];
    unfold step, setStateWithMarginTime; simpl; try discriminate.
  - destruct (dgt _ _); simpl; [discriminate|].
    intros H; injection H as ->. repeat split; auto.
  - intros H; injection H as <-. repeat split; auto.
Qed.

(** A STOP to GO transition needs a pending timestamp that is older than the
    margin time, and a GO request. *)
Lemma step_STOP_GO (sm : StateMachine) (r : Request) :
  state_ sm = STOP -> state_ (step sm r) = GO ->
  fst r = GO /\
  exists t0, start_time_ sm = Some t0 /\
             dgt (seconds (snd r - t0)) (margin_time_ sm) = true.
Proof.
  destruct r as [[|] now]; destruct sm as [[|] m [start|]];
    unfold step, setStateWithMarginTime; simpl; try discriminate.
  intros _. destruct (dgt _ _) eqn:E; simpl; [|discriminate].
  intros _. split; [reflexivity|]. exists start. auto.
Qed.

(** The pending timestamp of a machine that started without one is the clock
    reading of an earlier GO request, made in STOP with no timestamp pending,
    and every request since was GO and left the machine in STOP. *)
Lemma pending_origin (rs : list Request) (sm0 : StateMachine) (t0 : Time) :
  start_time_ sm0 = None ->
  start_time_ (run sm0 rs) = Some t0 ->
  exists pre mid,
    rs = pre ++ (GO, t0) :: mid /\
    Forall (fun q => fst q = GO) mid /\
    state_ (run sm0 pre) = STOP /\
    start_time_ (run sm0 pre) = None /\
    forall k, state_ (run sm0 (pre ++ (GO, t0) :: firstn k mid)) = STOP.
Proof.
  intros H0. induction rs as [|r rs IH] using rev_ind.
  - simpl. congruence.
  - rewrite run_snoc. intros H.
    destruct (step_pending _ _ H) as (Hr & Hs & Hs' & [[Hn Ht] | Hk]).
    + exists rs, []. destruct r as [q now]; simpl in *; subst.
      repeat split; auto.
      intros k. rewrite firstn_nil, run_snoc. exact Hs'.
    + destruct (IH Hk) as (pre & mid & -> & Hall & Hp & Hn & Hst).
      exists pre, (mid ++ [r]).
      rewrite <- app_assoc. simpl. repeat split; auto.
      * apply Forall_app. split; [exact Hall|]. constructor; auto.
      * intros k. destruct (Nat.le_gt_cases k (List.length mid)) as [Hle|Hgt].
        -- rewrite firstn_app.
           replace (k - List.length mid)%nat with 0%nat by lia.
           simpl. rewrite app_nil_r. apply Hst.
        -- rewrite firstn_all2 by (rewrite length_app; simpl; lia).
           replace (pre ++ (GO, t0) :: mid ++ [r])
             with ((pre ++ (GO, t0) :: mid) ++ [r])
             by (rewrite <- app_assoc; reflexivity).
           rewrite run_snoc. exact Hs'.
Qed.

(** C1 (debounce of the STOP to GO transition).  Take a machine that starts
    in STOP with no pending timestamp and has processed the requests [rs],
    and let [r] be the next request.
    - If [r] moves the machine from STOP to GO, then [r] requests GO and [rs]
      ends with an uninterrupted sequence of GO requests, [(GO, t0) :: mid],
      whose first one found the machine in STOP with nothing pending, during
      which the machine stayed in STOP, and whose elapsed clock time up to
      [r], in seconds, is strictly greater than the margin time.
    - A STOP request leaves the machine in STOP with the pending timestamp
      cleared, and so does any request equal to the current state, without
      changing the state.
    - After a STOP request, a GO request at [later] records [later] itself as
      the pending timestamp and stays in STOP whatever time has passed before:
      the debounce restarts from zero elapsed time.
    - A GO request while in GO leaves the state GO. *)
Theorem debounce_STOP_to_GO (margin : double) (rs : list Request) (r : Request) :
  let sm0 := mkStateMachine STOP margin None in
  let sm := run sm0 rs in
  (state_ sm = STOP -> state_ (step sm r) = GO ->
   fst r = GO /\
   exists pre t0 mid,
     rs = pre ++ (GO, t0) :: mid /\
     Forall (fun q => fst q = GO) mid /\
     state_ (run sm0 pre) = STOP /\
     start_time_ (run sm0 pre) = None /\
     (forall k, state_ (run sm0 (pre ++ (GO, t0) :: firstn k mid)) = STOP) /\
     dgt (seconds (snd r - t0)) margin = true) /\
  (forall now, step sm (STOP, now) = mkStateMachine STOP margin None) /\
  (forall now, step sm (state_ sm, now) = mkStateMachine (state_ sm) margin None) /\
  (forall now later,
     step (step sm (STOP, now)) (GO, later) = mkStateMachine STOP margin (Some later)) /\
  (forall now, state_ sm = GO -> state_ (step sm (GO, now)) = GO).
Proof.
  intros sm0 sm.
  assert (Hm : margin_time_ sm = margin) by (unfold sm; rewrite run_margin; reflexivity).
  split; [|split; [|split; [|split]]].
  - intros Hs Hg.
    destruct (step_STOP_GO _ _ Hs Hg) as (Hr & t0 & Ht & Hd).
    split; [exact Hr|].
    destruct (@pending_origin rs sm0 t0 eq_refl Ht)
      as (pre & mid & E & Hall & Hp & Hn & Hst).
    exists pre, t0, mid. rewrite Hm in Hd. repeat split; assumption.
  - intros now. unfold step, setStateWithMarginTime. simpl.
    rewrite Hm. destruct (state_ sm); reflexivity.
  - intros now. unfold step, setStateWithMarginTime. simpl.
    rewrite Hm. destruct (state_ sm); reflexivity.
  - intros now later. unfold step, setStateWithMarginTime. simpl.
    rewrite Hm. destruct (state_ sm); reflexivity.
  - intros now Hs. unfold step, setStateWithMarginTime. simpl.
    rewrite Hs. reflexivity.
Qed.

(** A run of C1: margin time 2 s, GO requested at 0 s and at 1 s (the machine
    stays in STOP), then at 3 s, which makes the transition. *)
Lemma debounce_STOP_to_GO_witness :
  let rs := [(GO, 0); (GO, 1000000000)] in
  let r := (GO, 3000000000) in
  state_ (run (mkStateMachine STOP 2%float None) rs) = STOP /\
  state_ (step (run (mkStateMachine STOP 2%float None) rs) r) = GO /\
  exists pre t0 mid,
    rs = pre ++ (GO, t0) :: mid /\
    dgt (seconds (snd r - t0)) 2%float = true.
Proof.
  intros rs r.
  assert (H1 : state_ (run (mkStateMachine STOP 2%float None) rs) = STOP)
    by (vm_compute; reflexivity).
  assert (H2 : state_ (step (run (mkStateMachine STOP 2%float None) rs) r) = GO)
    by (vm_compute; reflexivity).
  split; [exact H1|]. split; [exact H2|].
  destruct (debounce_STOP_to_GO 2%float rs r) as [H _].
  destruct (H H1 H2) as (_ & pre & t0 & mid & E & _ & _ & _ & _ & Hd).
  exists pre, t0, mid. split; assumption.
Defined.

(** ** Exceptions *)

Lemma bind_Some {A B : Type} (m : option A) (k : A -> option B) (b : B) :
  bind m k = Some b -> exists a, m = Some a /\ k a = Some b.
Proof. destruct m as [a|]; simpl; [eauto | discriminate]. Qed.

Lemma at_app_middle {A : Type} (pre : list A) (a : A) (rest : list A) :
  at_ (pre ++ a :: rest) (Z.of_nat (List.length pre)) = Some a.
Proof.
  unfold at_. replace (Z.of_nat (List.length pre) <? 0) with false
    by (symmetry; apply Z.ltb_ge; lia).
  rewrite Nat2Z.id, nth_error_app2, Nat.sub_diag by lia. reflexivity.
Qed.

Lemma at_split {A : Type} (v : list A) (i : Z) (a : A) :
  at_ v i = Some a ->
  0 <= i /\ v = firstn (Z.to_nat i) v ++ a :: skipn (S (Z.to_nat i)) v /\
  List.length (firstn (Z.to_nat i) v) = Z.to_nat i.
Proof.
  unfold at_. destruct (i <? 0) eqn:Hi; [discriminate|].
  apply Z.ltb_ge in Hi. intros H. split; [exact Hi|].
  assert (Hlen : (Z.to_nat i < List.length v)%nat)
    by (apply nth_error_Some; congruence).
  split.
  - rewrite <- (firstn_skipn (Z.to_nat i) v) at 1. f_equal.
    clear Hlen. revert H. generalize (Z.to_nat i) as n.
    induction v as [|b v IH]; intros [|n]; simpl; try discriminate.
    + intros H; injection H as ->. reflexivity.
    + apply IH.
  - rewrite length_firstn. lia.
Qed.

(** ** The external override *)

Section Override.

Context {MT : MapTypes} {E : Externals}.

Lemma isTargetExternalInputStatus_exclusive (m : IntersectionModule)
    (pd : PlannerData) (now : Time) :
  isTargetExternalInputStatus m pd now IntersectionStatus_GO &&
  isTargetExternalInputStatus m pd now IntersectionStatus_STOP = false.
Proof.
  unfold isTargetExternalInputStatus.
  destruct (external_intersection_status_input pd) as [input|]; [|reflexivity].
  destruct (status input); simpl; try reflexivity.
  apply andb_false_r.
Qed.

(** C9.  In one cycle the external-go condition and the external-stop
    condition never hold together: both read the status of the one external
    input record, which cannot equal GO and STOP at once.  Hence, for the two
    values the cycle computes, the order in which the override tests them does
    not matter: entry is prohibited exactly when the stop input is active, or
    the go input is not and a collision or a stuck vehicle was detected. *)
Theorem external_go_stop_exclusive (m : IntersectionModule) (pd : PlannerData)
    (now : Time) :
  let external_go := isTargetExternalInputStatus m pd now IntersectionStatus_GO in
  let external_stop := isTargetExternalInputStatus m pd now IntersectionStatus_STOP in
  external_go && external_stop = false /\
  forall has_collision is_stuck,
    is_entry_prohibited external_go external_stop has_collision is_stuck =
    (if external_stop then true
     else if external_go then false
     else has_collision || is_stuck).
Proof.
  cbv zeta. split; [apply isTargetExternalInputStatus_exclusive|].
  intros hc st. unfold is_entry_prohibited.
  pose proof (isTargetExternalInputStatus_exclusive m pd now) as H.
  destruct (isTargetExternalInputStatus m pd now IntersectionStatus_GO),
           (isTargetExternalInputStatus m pd now IntersectionStatus_STOP);
    simpl in *; congruence.
Qed.

End Override.

(** ** The planning cycle *)

Section Cycle.

Context {MT : MapTypes} {E : Externals}.

Ltac same_config H :=
  match type of H with
  | same_configuration ?m ?m' =>
      destruct m, m'; unfold same_configuration in H; simpl in H;
      destruct H as (? & ? & ? & ?); subst
  end.

Lemma checkAngleForTargetLanelets_config m m' pd pose ids :
  same_configuration m m' ->
  checkAngleForTargetLanelets m pd pose ids = checkAngleForTargetLanelets m' pd pose ids.
Proof.
  intros H. same_config H.
  induction ids as [|id ids IH]; simpl; [reflexivity|].
  rewrite IH. reflexivity.
Qed.

Lemma in_detection_area_config m m' pd object areas ids :
  same_configuration m m' ->
  in_detection_area m pd object areas ids = in_detection_area m' pd object areas ids.
Proof.
  intros H. induction areas as [|a areas IH]; simpl; [reflexivity|].
  rewrite IH, (checkAngleForTargetLanelets_config _ _ _ H).
  same_config H. reflexivity.
Qed.

Lemma extract_target_objects_config m m' pd ego areas ids objects :
  same_configuration m m' ->
  extract_target_objects m pd ego areas ids objects =
  extract_target_objects m' pd ego areas ids objects.
Proof.
  intros H. induction objects as [|o objects IH]; simpl; [reflexivity|].
  rewrite IH, (in_detection_area_config _ _ _ _ H). reflexivity.
Qed.

Lemma checkCollision_config m m' pd now map path areas ids objects ci d :
  same_configuration m m' ->
  checkCollision m pd now map path areas ids objects ci d =
  checkCollision m' pd now map path areas ids objects ci d.
Proof.
  intros H. unfold checkCollision.
  assert (Hg : forall a b x y, generateEgoIntersectionLanePolygon m map path a b x y =
               generateEgoIntersectionLanePolygon m' map path a b x y)
    by (intros; same_config H; reflexivity).
  rewrite Hg.
  destruct (generateEgoIntersectionLanePolygon m' map path ci ci 0 0); simpl; [|reflexivity].
  rewrite (extract_target_objects_config _ _ _ _ _ H).
  same_config H. reflexivity.
Qed.

Lemma checkStuck_config m m' pd map path ci si objects d :
  same_configuration m m' ->
  checkStuckVehicleInIntersection m pd map path ci si objects d =
  checkStuckVehicleInIntersection m' pd map path ci si objects d.
Proof. intros H. same_config H. reflexivity. Qed.


Lemma isTargetExternalInputStatus_config m m' pd now s :
  same_configuration m m' ->
  isTargetExternalInputStatus m pd now s = isTargetExternalInputStatus m' pd now s.
Proof. intros H. same_config H. reflexivity. Qed.

(** An early return of [locate] leaves the path, the stop reason and the
    state machine as they were. *)
Lemma locate_Return m pd now path c :
  locate m pd now path = Some (Return c) ->
  cycle_path c = path /\ cycle_stop_reason c = [] /\
  exists d, cycle_module c = with_debug_data d m /\
            ego_lane_polygon d = [] /\ stuck_vehicle_detect_area d = [] /\
            candidate_collision_ego_lane_polygon d = [] /\
            candidate_collision_object_polygons d = [] /\
            conflicting_targets d = [] /\ stuck_targets d = [] /\
            stop_required d = false.
Proof.
  unfold locate.
  destruct (getObjectiveLanelets _ _ _ _) as [conflicting detection].
  destruct (is_empty _).
  { intros H; injection H as <-. simpl. repeat split. eexists. repeat split. }
  destruct (generateStopLine _ _ _ _ _) as [[[sl pj] fi]|].
  2: { intros H; injection H as <-. simpl. repeat split. eexists. repeat split. }
  destruct (_ || _).
  { intros H; injection H as <-. simpl. repeat split. eexists. repeat split. }
  destruct (calcClosestIndex _ _) as [ci|].
  2: { intros H; injection H as <-. simpl. repeat split. eexists. repeat split. }
  intros H. apply bind_Some in H. destruct H as (over & _ & H).
  destruct (_ && _); [|discriminate].
  injection H as <-. simpl. repeat split. eexists. repeat split.
Qed.

(** The early returns of [locate] depend on the module through its
    configuration and the state of its state machine only. *)
Lemma locate_Return_config m m' pd now path c :
  same_configuration m m' ->
  state_ (state_machine_ m') = state_ (state_machine_ m) ->
  locate m pd now path = Some (Return c) ->
  exists c', locate m' pd now path = Some (Return c') /\
             returned c' = returned c.
Proof.
  intros H Hs. unfold locate, getState. rewrite Hs.
  rewrite <- (isTargetExternalInputStatus_config pd now _ H).
  destruct H as (Hl & _ & _ & Hp). rewrite <- Hl, <- Hp.
  destruct (getObjectiveLanelets _ _ _ _) as [conflicting detection].
  destruct (is_empty _).
  { intros H; injection H as <-. eexists. split; reflexivity. }
  destruct (generateStopLine _ _ _ _ _) as [[[sl pj] fi]|].
  2: { intros H; injection H as <-. eexists. split; reflexivity. }
  destruct (_ || _).
  { intros H; injection H as <-. eexists. split; reflexivity. }
  destruct (calcClosestIndex _ _) as [ci|].
  2: { intros H; injection H as <-. eexists. split; reflexivity. }
  intros H. apply bind_Some in H. destruct H as (over & -> & H). simpl.
  destruct (_ && _); [|discriminate].
  injection H as <-. eexists. split; reflexivity.
Qed.

(** When [locate] goes on to the detection for one module, it does so with
    the same values for a module of the same configuration, unless that
    module is in GO and returns at the pass-judge test. *)
Lemma locate_Proceed_config m m' pd now path sl pj ci areas ids d1 :
  same_configuration m m' ->
  locate m pd now path = Some (Proceed sl pj ci areas ids d1) ->
  locate m' pd now path = Some (Proceed sl pj ci areas ids d1) \/
  (state_ (state_machine_ m') = GO /\
   exists d, locate m' pd now path =
             Some (Return (mkCycle true path [] (with_debug_data d m')))).
Proof.
  intros H. unfold locate, getState.
  rewrite <- (isTargetExternalInputStatus_config pd now _ H).
  destruct H as (Hl & _ & _ & Hp). rewrite <- Hl, <- Hp.
  destruct (getObjectiveLanelets _ _ _ _) as [conflicting detection].
  destruct (is_empty _); [discriminate|].
  destruct (generateStopLine _ _ _ _ _) as [[[sl' pj'] fi]|]; [|discriminate].
  destruct (_ || _); [discriminate|].
  destruct (calcClosestIndex _ _) as [ci'|]; [|discriminate].
  intros H. apply bind_Some in H. destruct H as (over & -> & H). simpl.
  destruct (State_eqb (state_ (state_machine_ m)) GO && over && _) eqn:Ea;
    [discriminate|].
  injection H as <- <- <- <- <- <-.
  destruct (state_ (state_machine_ m')) eqn:Es; simpl.
  - destruct (over && _) eqn:Eb.
    + right. split; [reflexivity|]. eexists. reflexivity.
    + left. reflexivity.
  - left. reflexivity.
Qed.

Lemma setStateWithMarginTime_twice (r : State) (now : Time) (sm : StateMachine) :
  dgt (seconds 0) (margin_time_ sm) = false ->
  setStateWithMarginTime r now (setStateWithMarginTime r now sm) =
  setStateWithMarginTime r now sm.
Proof.
  intros H. destruct sm as [[|] margin [start|]], r;
    unfold setStateWithMarginTime; simpl in *; try reflexivity.
  - destruct (dgt (seconds (now - start)) margin) eqn:Ed; simpl; [reflexivity|].
    rewrite Ed. reflexivity.
  - rewrite Z.sub_diag, H. reflexivity.
Qed.

(** What [decide] does when it returns. *)
Lemma decide_inv (m : IntersectionModule) (pd : PlannerData) (now : Time)
    (path : PathWithLaneId) (sl pj ci : Z) (areas : list CompoundPolygon3d)
    (ids : list Z) (d1 : DebugData) (c : Cycle) :
  decide m pd now path sl pj ci areas ids d1 = Some c ->
  exists has_collision d2 is_stuck d3,
    checkCollision m pd now (lanelet_map pd) path areas ids (dynamic_objects pd) ci d1
      = Some (has_collision, d2) /\
    checkStuckVehicleInIntersection m pd (lanelet_map pd) path ci sl
      (dynamic_objects pd) d2 = Some (is_stuck, d3) /\
    let external_go := isTargetExternalInputStatus m pd now IntersectionStatus_GO in
    let external_stop := isTargetExternalInputStatus m pd now IntersectionStatus_STOP in
    let sm :=
      setStateWithMarginTime
        (requested_state
           (is_entry_prohibited external_go external_stop has_collision is_stuck))
        now (state_machine_ m) in
    returned c = true /\
    state_machine_ (cycle_module c) = sm /\
    cycle_path c =
      (if State_eqb (state_ sm) STOP
       then setVelocityFrom sl (stop_line_velocity m is_stuck) path
       else path) /\
    same_configuration m (cycle_module c).
Proof.
  unfold decide. intros H.
  apply bind_Some in H. destruct H as ([hc d2] & Hc & H).
  apply bind_Some in H. destruct H as ([st d3] & Hs & H).
  exists hc, d2, st, d3. split; [exact Hc|]. split; [exact Hs|].
  cbv zeta. unfold getState in H.
  destruct (State_eqb _ STOP).
  - destruct (is_stop_required m st).
    + apply bind_Some in H. destruct H as (sp & _ & H).
      apply bind_Some in H. destruct H as (jp & _ & H).
      injection H as <-. simpl. repeat split; reflexivity.
    + injection H as <-. simpl. repeat split; reflexivity.
  - injection H as <-. simpl. repeat split; reflexivity.
Qed.

(** [decide] for two modules of the same configuration whose state machines
    end the cycle in the same state. *)
Lemma decide_config m m' pd now path sl pj ci areas ids d1 c hc d2 st d3 :
  same_configuration m m' ->
  checkCollision m pd now (lanelet_map pd) path areas ids (dynamic_objects pd) ci d1
    = Some (hc, d2) ->
  checkStuckVehicleInIntersection m pd (lanelet_map pd) path ci sl
    (dynamic_objects pd) d2 = Some (st, d3) ->
  (let r := requested_state
              (is_entry_prohibited
                 (isTargetExternalInputStatus m pd now IntersectionStatus_GO)
                 (isTargetExternalInputStatus m pd now IntersectionStatus_STOP)
                 hc st) in
   state_ (setStateWithMarginTime r now (state_machine_ m')) =
   state_ (setStateWithMarginTime r now (state_machine_ m))) ->
  decide m pd now path sl pj ci areas ids d1 = Some c ->
  exists c', decide m' pd now path sl pj ci areas ids d1 = Some c' /\
             returned c' = returned c /\
             cycle_path c' = cycle_path c /\
             cycle_stop_reason c' = cycle_stop_reason c /\
             state_ (state_machine_ (cycle_module c')) =
             state_ (state_machine_ (cycle_module c)).
Proof.
  intros H Hc Hs Hst. cbv zeta in Hst.
  unfold decide.
  rewrite <- (checkCollision_config pd now _ path areas ids _ ci d1 H), Hc.
  simpl.
  rewrite <- (checkStuck_config pd _ path ci sl _ d2 H), Hs. simpl.
  rewrite <- !(isTargetExternalInputStatus_config pd now _ H).
  unfold getState. rewrite Hst.
  assert (Hv : stop_line_velocity m' st = stop_line_velocity m st)
    by (same_config H; reflexivity).
  assert (Hr : is_stop_required m' st = is_stop_required m st)
    by (same_config H; reflexivity).
  rewrite Hv, Hr. intros Hd.
  destruct (State_eqb _ STOP).
  - destruct (is_stop_required m st).
    + apply bind_Some in Hd. destruct Hd as (sp & -> & Hd).
      apply bind_Some in Hd. destruct Hd as (jp & -> & Hd).
      injection Hd as <-. simpl. eexists. split; [reflexivity|].
      simpl. rewrite Hst. repeat split; reflexivity.
    + injection Hd as <-. eexists. split; [reflexivity|].
      simpl. rewrite Hst. repeat split; reflexivity.
  - injection Hd as <-. eexists. split; [reflexivity|].
    simpl. rewrite Hst. repeat split; reflexivity.
Qed.

(** C8, as amended.  When the margin time of the state machine is not
    negative (0 > margin_time_ is false), a second call of
    [modifyPathVelocity] on the same planner data, clock reading and input
    path, made on the module as the first call left it, returns as well, with
    the same boolean, the same final GO/STOP state and the same output
    path. *)
Theorem modifyPathVelocity_twice (m : IntersectionModule) (pd : PlannerData)
    (now : Time) (path : PathWithLaneId) (c1 : Cycle) :
  dgt (seconds 0) (margin_time_ (state_machine_ m)) = false ->
  modifyPathVelocity m pd now path = Some c1 ->
  exists c2,
    modifyPathVelocity (cycle_module c1) pd now path = Some c2 /\
    returned c2 = returned c1 /\
    state_ (state_machine_ (cycle_module c2)) =
    state_ (state_machine_ (cycle_module c1)) /\
    cycle_path c2 = cycle_path c1.
Proof.
  intros Hm H1. unfold modifyPathVelocity in H1.
  apply bind_Some in H1.
  destruct H1 as ([c|sl pj ci areas ids d1] & HL & H1).
  - (* the first call returned early *)
    injection H1 as ->.
    destruct (locate_Return _ _ _ _ HL) as (Hp & _ & d & Hmod & _).
    assert (Hcfg : same_configuration m (cycle_module c1))
      by (rewrite Hmod; repeat split).
    assert (Hst : state_ (state_machine_ (cycle_module c1)) = state_ (state_machine_ m))
      by (rewrite Hmod; reflexivity).
    destruct (locate_Return_config pd now path Hcfg Hst HL) as (c2 & HL2 & Hr).
    exists c2. unfold modifyPathVelocity. rewrite HL2. simpl.
    destruct (locate_Return _ _ _ _ HL2) as (Hp2 & _ & d' & Hmod2 & _).
    repeat split; [exact Hr| |congruence].
    rewrite Hmod2. reflexivity.
  - (* the first call went through the detection *)
    destruct (decide_inv _ _ _ _ _ _ _ _ _ _ H1)
      as (hc & d2 & st & d3 & Hc & Hs & Hret & Hsm & Hpath & Hcfg).
    cbv zeta in Hsm, Hpath.
    destruct (locate_Proceed_config pd now path Hcfg HL) as [HL2 | (Hgo & d & HL2)].
    + destruct (@decide_config m (cycle_module c1) pd now path sl pj ci areas ids
                  d1 c1 hc d2 st d3 Hcfg Hc Hs) as (c2 & Hd2 & Hr2 & Hp2 & _ & Hs2).
      * cbv zeta. rewrite Hsm, setStateWithMarginTime_twice by exact Hm.
        reflexivity.
      * exact H1.
      * exists c2. unfold modifyPathVelocity. rewrite HL2. simpl.
        repeat split; assumption.
    + exists (mkCycle true path [] (with_debug_data d (cycle_module c1))).
      unfold modifyPathVelocity. rewrite HL2. simpl.
      repeat split; [congruence|].
      rewrite Hpath. rewrite Hsm in Hgo. rewrite Hgo. reflexivity.
Qed.

(** C2.  In a cycle that reaches the state machine (it did not return before
    line 158) the state machine is called with the state requested from the
    cycle's two external conditions and the results of the collision and stuck
    checks.  An active external-go input makes the requested state GO whatever
    the checks found, and an active external-stop input makes it STOP whatever
    they found.  The two conditions are never both true in a cycle: they
    compare the status of the one input record with GO and with STOP.  So in
    every cycle in which both are asserted the requested state is STOP. *)
Theorem external_override (m : IntersectionModule) (pd : PlannerData) (now : Time)
    (path : PathWithLaneId) (sl pj ci : Z) (areas : list CompoundPolygon3d)
    (ids : list Z) (d1 : DebugData) (c : Cycle) :
  locate m pd now path = Some (Proceed sl pj ci areas ids d1) ->
  modifyPathVelocity m pd now path = Some c ->
  let external_go := isTargetExternalInputStatus m pd now IntersectionStatus_GO in
  let external_stop := isTargetExternalInputStatus m pd now IntersectionStatus_STOP in
  let requested has_collision is_stuck :=
    requested_state
      (is_entry_prohibited external_go external_stop has_collision is_stuck) in
  (exists has_collision d2 is_stuck d3,
     checkCollision m pd now (lanelet_map pd) path areas ids (dynamic_objects pd) ci d1
       = Some (has_collision, d2) /\
     checkStuckVehicleInIntersection m pd (lanelet_map pd) path ci sl
       (dynamic_objects pd) d2 = Some (is_stuck, d3) /\
     state_machine_ (cycle_module c) =
     setStateWithMarginTime (requested has_collision is_stuck) now (state_machine_ m)) /\
  (external_go = true ->
   (forall has_collision is_stuck, requested has_collision is_stuck = GO) /\
   state_machine_ (cycle_module c) =
   setStateWithMarginTime GO now (state_machine_ m)) /\
  (external_stop = true ->
   (forall has_collision is_stuck, requested has_collision is_stuck = STOP) /\
   state_machine_ (cycle_module c) =
   setStateWithMarginTime STOP now (state_machine_ m)) /\
  external_go && external_stop = false /\
  (external_go = true -> external_stop = true ->
   forall has_collision is_stuck, requested has_collision is_stuck = STOP).
Proof.
  intros HL H. unfold modifyPathVelocity in H. rewrite HL in H. simpl in H.
  destruct (decide_inv _ _ _ _ _ _ _ _ _ _ H)
    as (hc & d2 & st & d3 & Hc & Hs & _ & Hsm & _ & _).
  cbv zeta in Hsm. cbv zeta.
  pose proof (isTargetExternalInputStatus_exclusive m pd now) as Hex.
  split; [exists hc, d2, st, d3; auto|].
  split; [|split; [|split; [exact Hex|]]].
  - intros Hg. rewrite Hsm, Hg. split; reflexivity.
  - intros Hstop. rewrite Hstop, andb_true_r in Hex.
    rewrite Hsm, Hstop, Hex. split; reflexivity.
  - intros Hg Hstop. rewrite Hg, Hstop in Hex. discriminate.
Qed.

(** The constructor reads the turn direction and the traffic lights off the
    assigned lanelet; a lanelet without the attribute gets "else". *)
Lemma IntersectionModule_new_fields lane_id (pd : PlannerData) param initial m :
  IntersectionModule_new lane_id pd param initial = Some m ->
  exists assigned_lanelet,
    laneletLayer_get (lanelet_map pd) lane_id = Some assigned_lanelet /\
    turn_direction_ m = attributeOr assigned_lanelet "turn_direction" "else" /\
    has_traffic_light_ m =
      negb (is_empty (regulatoryElementsAs_TrafficLight assigned_lanelet)) /\
    planner_param_ m = param /\
    margin_time_ (state_machine_ m) = state_transit_margin_time param.
Proof.
  unfold IntersectionModule_new. intros H.
  apply bind_Some in H. destruct H as (ll & Hl & H).
  injection H as <-. exists ll. repeat split. exact Hl.
Qed.

(** A cycle changes neither the lane, the turn direction, the traffic-light
    flag nor the parameters of the module. *)
Lemma modifyPathVelocity_configuration (m : IntersectionModule) (pd : PlannerData)
    (now : Time) (path : PathWithLaneId) (c : Cycle) :
  modifyPathVelocity m pd now path = Some c ->
  same_configuration m (cycle_module c).
Proof.
  unfold modifyPathVelocity. intros H. apply bind_Some in H.
  destruct H as ([c'|sl pj ci areas ids d1] & HL & H).
  - injection H as ->. destruct (locate_Return _ _ _ _ HL) as (_ & _ & d & -> & _).
    repeat split.
  - destruct (decide_inv _ _ _ _ _ _ _ _ _ _ H)
      as (hc & d2 & st & d3 & _ & _ & _ & _ & _ & Hcfg).
    exact Hcfg.
Qed.

(** C3, as amended.  Let the module be constructed for a lanelet and run,
    possibly after other cycles, a cycle that reaches the state machine and
    ends in STOP.  The velocity handed to [setVelocityFrom] at the stop-line
    index is 0 when a stuck vehicle was detected, or the lanelet has no
    traffic-light regulatory element, or its turn direction attribute is not
    "straight"; otherwise it is the configured decel velocity.  (So it is 0
    exactly when one of the three holds or the decel velocity is itself 0.) *)
Theorem hard_stop_policy (lane_id : Z) (pd0 : PlannerData) (param : PlannerParam)
    (initial : StateMachine) (m0 m : IntersectionModule) (pd : PlannerData)
    (now : Time) (path : PathWithLaneId) (sl pj ci : Z)
    (areas : list CompoundPolygon3d) (ids : list Z) (d1 : DebugData) (c : Cycle) :
  IntersectionModule_new lane_id pd0 param initial = Some m0 ->
  same_configuration m0 m ->
  locate m pd now path = Some (Proceed sl pj ci areas ids d1) ->
  modifyPathVelocity m pd now path = Some c ->
  state_ (state_machine_ (cycle_module c)) = STOP ->
  exists assigned_lanelet has_collision d2 is_stuck d3,
    laneletLayer_get (lanelet_map pd0) lane_id = Some assigned_lanelet /\
    checkCollision m pd now (lanelet_map pd) path areas ids (dynamic_objects pd) ci d1
      = Some (has_collision, d2) /\
    checkStuckVehicleInIntersection m pd (lanelet_map pd) path ci sl
      (dynamic_objects pd) d2 = Some (is_stuck, d3) /\
    cycle_path c =
      setVelocityFrom sl
        (if is_stuck
            || is_empty (regulatoryElementsAs_TrafficLight assigned_lanelet)
            || negb (String.eqb (attributeOr assigned_lanelet "turn_direction" "else")
                       "straight")
         then 0%float else decel_velocity param)
        path.
Proof.
  intros Hnew Hcfg HL H Hstop.
  destruct (IntersectionModule_new_fields _ _ _ _ Hnew)
    as (ll & Hll & Hturn & Htl & Hparam & _).
  destruct Hcfg as (_ & Hc2 & Hc3 & Hc4).
  unfold modifyPathVelocity in H. rewrite HL in H. simpl in H.
  destruct (decide_inv _ _ _ _ _ _ _ _ _ _ H)
    as (hc & d2 & st & d3 & Hc & Hs & _ & Hsm & Hp & _).
  cbv zeta in Hsm, Hp. rewrite <- Hsm, Hstop in Hp. simpl in Hp.
  exists ll, hc, d2, st, d3. repeat split; try assumption.
  rewrite Hp. unfold stop_line_velocity, is_stop_required.
  rewrite <- Hc2, <- Hc3, <- Hc4, Hturn, Htl, Hparam, negb_involutive.
  reflexivity.
Qed.

(** C4.  A module in GO, whose closest path index lies beyond the index of
    the pass-judge line, with no external stop active, returns true and
    leaves the path, the stop reason and the state machine as they were,
    whatever the dynamic objects are and whatever the collision check would
    find: the cycle ends at the pass-judge test, before the collision and
    stuck checks, and nothing is evaluated after it.  The test itself needs
    the stop line and the closest index of this cycle; the module keeps only
    the debug copy of the path and of the detection areas. *)
Theorem latched_pass_through (m : IntersectionModule) (pd : PlannerData) (now : Time)
    (path : PathWithLaneId) (sl pj fi ci : Z) :
  let lanelets :=
    getObjectiveLanelets (lanelet_map pd) (routing_graph pd) (lane_id_ m)
      (planner_param_ m) in
  let conflicting_areas :=
    getPolygon3dFromLaneletsVec (fst lanelets)
      (detection_area_length (planner_param_ m)) in
  let detection_areas :=
    getPolygon3dFromLaneletsVec (snd lanelets)
      (detection_area_length (planner_param_ m)) in
  let debug0 := set_path_raw path DebugData_default in
  state_ (state_machine_ m) = GO ->
  generateStopLine (lane_id_ m) conflicting_areas pd (planner_param_ m) path
    = Some (sl, pj, fi) ->
  calcClosestIndex path (current_pose pd) = Some ci ->
  pj < ci ->
  isTargetExternalInputStatus m pd now IntersectionStatus_STOP = false ->
  modifyPathVelocity m pd now path =
    Some (mkCycle true path []
            (with_debug_data
               (if is_empty detection_areas then debug0
                else set_detection_area detection_areas debug0) m)).
Proof.
  cbv zeta. intros Hgo Hsl Hci Hlt Hes.
  unfold modifyPathVelocity, locate, getState.
  destruct (getObjectiveLanelets _ _ _ _) as [conflicting detection].
  simpl in Hsl. simpl fst. simpl snd. rewrite Hgo, Hes.
  destruct (is_empty _); [reflexivity|].
  rewrite Hsl.
  destruct (_ || _); [reflexivity|].
  rewrite Hci.
  replace (ci =? pj) with false by (symmetry; apply Z.eqb_neq; lia).
  replace (ci >? pj) with true by (symmetry; apply Z.gtb_lt; lia).
  reflexivity.
Qed.

End Cycle.

(** ** The time-distance profile *)

Section Profile.

Context {MT : MapTypes} {E : Externals}.

(** The loop of [calcIntersectionPassingTime], entered at the index after
    [prev] with the points [rest] ahead: it appends to the array the profile
    of the specification over the covered waypoints, and ends with the lane
    found if it was found before or is met among [rest]. *)
Lemma passing_loop_profile (param : PlannerParam) (lane : Z)
    (rest pre : list PathPointWithLaneId) (prev : PathPointWithLaneId)
    (s : PassingLoop) (fuel : nat) :
  (List.length rest <= fuel)%nat ->
  exists s',
    passing_loop fuel param lane (pre ++ prev :: rest) (S (List.length pre)) s = Some s' /\
    time_distance_array s' =
      time_distance_array s ++
      profile_from (intersection_max_acc param) (intersection_velocity param)
        (closest_vel s) (passing_time s) (dist_sum s)
        (segment_lengths prev (covered lane (assigned_lane_found s) rest)) /\
    assigned_lane_found s' =
      assigned_lane_found s || existsb (fun p => hasLaneId p lane) rest.
Proof.
  revert pre prev s fuel.
  induction rest as [|cur rest IH]; intros pre prev s fuel Hfuel.
  - exists s. split; [|split].
    + destruct fuel; simpl; [reflexivity|].
      replace (_ <? _)%nat with false; [reflexivity|].
      symmetry. apply Nat.ltb_ge. rewrite length_app. simpl. lia.
    + simpl. rewrite app_nil_r. reflexivity.
    + simpl. rewrite orb_false_r. reflexivity.
  - destruct fuel as [|fuel]; [simpl in Hfuel; lia|].
    simpl in Hfuel.
    cbn [passing_loop].
    replace (_ <? _)%nat with true
      by (symmetry; apply Nat.ltb_lt; rewrite length_app; simpl; lia).
    replace (Z.of_nat (S (List.length pre)) - 1) with (Z.of_nat (List.length pre)) by lia.
    rewrite at_app_middle. cbn [bind].
    replace (pre ++ prev :: cur :: rest) with ((pre ++ [prev]) ++ cur :: rest)
      by (rewrite <- app_assoc; reflexivity).
    replace (S (List.length pre)) with (List.length (pre ++ [prev]))
      by (rewrite length_app; simpl; lia).
    rewrite at_app_middle. cbn [bind].
    unfold passing_body.
    destruct (assigned_lane_found s && negb (hasLaneId cur lane)) eqn:Hstop.
    + (* break *)
      eexists. split; [reflexivity|]. cbn [time_distance_array assigned_lane_found].
      apply andb_prop in Hstop. destruct Hstop as [Hf Hn].
      rewrite Hf. cbn [covered]. rewrite Hn. simpl. split; reflexivity.
    + set (s1 := mkPassingLoop _ _ _ _ _).
      destruct (IH (pre ++ [prev]) cur s1 fuel ltac:(lia))
        as (s' & Hloop & Harr & Hfound).
      replace (S (List.length (pre ++ [prev]))) with (S (S (List.length pre))) in Hloop
        by (rewrite length_app; simpl; lia).
      replace (List.length (pre ++ [prev])) with (S (List.length pre))
        by (rewrite length_app; simpl; lia).
      assert (Hseen : assigned_lane_found s || hasLaneId cur lane = hasLaneId cur lane)
        by (destruct (assigned_lane_found s), (hasLaneId cur lane);
            simpl in *; congruence).
      exists s'. split; [exact Hloop|]. split.
      * rewrite Harr. unfold s1.
        cbn [time_distance_array closest_vel passing_time dist_sum
             assigned_lane_found].
        rewrite <- app_assoc. cbn [covered]. rewrite Hstop, Hseen. reflexivity.
      * rewrite Hfound. unfold s1. cbn [assigned_lane_found existsb].
        rewrite orb_assoc, Hseen.
        destruct (assigned_lane_found s), (hasLaneId cur lane); simpl in *;
          congruence.
Qed.

Lemma passing_loop_head (param : PlannerParam) (lane : Z) (path : PathWithLaneId)
    (fuel i : nat) (s s' : PassingLoop) (first : double * double) :
  passing_loop fuel param lane path i s = Some s' ->
  hd_error (time_distance_array s) = Some first ->
  hd_error (time_distance_array s') = Some first.
Proof.
  revert i s. induction fuel as [|fuel IH]; intros i s; simpl.
  - intros H; injection H as <-. auto.
  - destruct (i <? List.length path)%nat; [|intros H; injection H as <-; auto].
    intros H Hhd.
    apply bind_Some in H. destruct H as (prev & _ & H).
    apply bind_Some in H. destruct H as (cur & _ & H).
    destruct (passing_body param lane prev cur s) as [s1 stop] eqn:Hb.
    assert (H1 : hd_error (time_distance_array s1) = Some first).
    { unfold passing_body in Hb.
      destruct (assigned_lane_found s && _); injection Hb as <- _; simpl;
        destruct (time_distance_array s); simpl in *; congruence. }
    destruct stop; [injection H as <-; exact H1|].
    exact (IH _ _ H H1).
Qed.

Lemma passing_loop_past_end (param : PlannerParam) (lane : Z) (path : PathWithLaneId)
    (fuel i : nat) (s : PassingLoop) :
  (List.length path <= i)%nat ->
  passing_loop fuel param lane path i s = Some s.
Proof.
  intros H. destruct fuel; simpl; [reflexivity|].
  replace (i <? List.length path)%nat with false
    by (symmetry; apply Nat.ltb_ge; exact H).
  reflexivity.
Qed.

(** The loop run by [calcIntersectionPassingTime] from a closest index
    inside the path. *)
Lemma calcIntersectionPassingTime_loop (m : IntersectionModule) (path : PathWithLaneId)
    (closest_idx lane : Z) (p0 : PathPointWithLaneId) (s : PassingLoop) :
  at_ path closest_idx = Some p0 ->
  let rest := skipn (S (Z.to_nat closest_idx)) path in
  exists s',
    (if closest_idx + 1 <? 0 then Some s
     else passing_loop (List.length path) (planner_param_ m) lane path
            (Z.to_nat (closest_idx + 1)) s) = Some s' /\
    time_distance_array s' =
      time_distance_array s ++
      profile_from (intersection_max_acc (planner_param_ m))
        (intersection_velocity (planner_param_ m))
        (closest_vel s) (passing_time s) (dist_sum s)
        (segment_lengths p0 (covered lane (assigned_lane_found s) rest)) /\
    assigned_lane_found s' =
      assigned_lane_found s || existsb (fun p => hasLaneId p lane) rest.
Proof.
  intros Hat rest. destruct (at_split _ _ Hat) as (Hi & Hsplit & Hlen).
  replace (closest_idx + 1 <? 0) with false by (symmetry; apply Z.ltb_ge; lia).
  replace (Z.to_nat (closest_idx + 1)) with (S (Z.to_nat closest_idx)) by lia.
  fold rest in Hsplit.
  set (pre := firstn (Z.to_nat closest_idx) path) in *.
  clearbody pre rest. subst path. rewrite <- Hlen.
  apply passing_loop_profile.
  rewrite length_app. simpl. lia.
Qed.

(** C7, as amended.  The profile returned by [calcIntersectionPassingTime]
    starts with the pair (0, 0).  From a closest index inside the path, when the lane id
    is met among the waypoints after it, the profile is that of the
    specification, from the initial speed max(epsilon, |current speed|) with
    the positive epsilon 0.1, over the segments from the closest waypoint
    through the covered waypoints: those up to and including the first one
    not tagged with the lane id after a tagged one has been seen.  When the
    lane id is not met, the profile is the single pair (0, 0). *)
Theorem calcIntersectionPassingTime_profile (m : IntersectionModule) (pd : PlannerData)
    (path : PathWithLaneId) (closest_idx lane : Z) :
  let param := planner_param_ m in
  let epsilon := 0x1.999999999999ap-4%float in
  let v0 := std_max epsilon (fabs (current_velocity pd)) in
  let rest := skipn (S (Z.to_nat closest_idx)) path in
  dlt 0 epsilon = true /\
  (forall profile,
     calcIntersectionPassingTime m pd path closest_idx lane = Some profile ->
     hd_error profile = Some (0, 0)%float) /\
  (forall p0,
     at_ path closest_idx = Some p0 ->
     calcIntersectionPassingTime m pd path closest_idx lane =
     Some (if existsb (fun p => hasLaneId p lane) rest
           then profile (intersection_max_acc param) (intersection_velocity param) v0
                  (segment_lengths p0 (covered lane false rest))
           else [(0, 0)%float])).
Proof.
  cbv zeta. split; [reflexivity|]. split.
  - intros arr. unfold calcIntersectionPassingTime. intros H.
    apply bind_Some in H. destruct H as (s & Hs & H).
    destruct (assigned_lane_found s); simpl in H; injection H as <-;
      [|reflexivity].
    destruct (closest_idx + 1 <? 0).
    + injection Hs as <-. reflexivity.
    + exact (passing_loop_head _ _ _ _ _ _ Hs eq_refl).
  - intros p0 Hat. unfold calcIntersectionPassingTime.
    destruct (@calcIntersectionPassingTime_loop m path closest_idx lane p0
                (mkPassingLoop (std_max 0x1.999999999999ap-4 (fabs (current_velocity pd)))
                   0 0 [(0, 0)%float] false) Hat)
      as (s' & -> & Harr & Hfound).
    cbn [bind]. rewrite Hfound. cbn [assigned_lane_found orb].
    destruct (existsb _ _); simpl; [|reflexivity].
    rewrite Harr. reflexivity.
Qed.

(** When the lane id is not met after the closest index, the profile is the
    single pair (0, 0). *)
Lemma calcIntersectionPassingTime_passed (m : IntersectionModule) (pd : PlannerData)
    (path : PathWithLaneId) (closest_idx lane : Z) :
  0 <= closest_idx ->
  existsb (fun p => hasLaneId p lane) (skipn (S (Z.to_nat closest_idx)) path) = false ->
  calcIntersectionPassingTime m pd path closest_idx lane = Some [(0, 0)%float].
Proof.
  intros Hi Hex. unfold calcIntersectionPassingTime.
  destruct (at_ path closest_idx) as [p0|] eqn:Hat.
  - destruct (@calcIntersectionPassingTime_loop m path closest_idx lane p0
                (mkPassingLoop (std_max 0x1.999999999999ap-4 (fabs (current_velocity pd)))
                   0 0 [(0, 0)%float] false) Hat)
      as (s' & -> & _ & Hfound).
    cbn [bind]. rewrite Hfound, Hex. reflexivity.
  - replace (closest_idx + 1 <? 0) with false by (symmetry; apply Z.ltb_ge; lia).
    rewrite passing_loop_past_end; [reflexivity|].
    unfold at_ in Hat.
    replace (closest_idx <? 0) with false in Hat by (symmetry; apply Z.ltb_ge; lia).
    apply nth_error_None in Hat. lia.
Qed.
End Profile.

(** ** Collision and stuck detection *)

Section Detect.

Context {MT : MapTypes} {E : Externals}.

Lemma cutPredictPathWithDuration_poses (now : Time) (objects : list DynamicObject)
    (time_thr : double) (object : DynamicObject) (predicted_path : PredictedPath)
    (pose : PoseWithCovarianceStamped) :
  In object (cutPredictPathWithDuration now objects time_thr) ->
  In predicted_path (predicted_paths (state object)) ->
  In pose (predicted_poses predicted_path) ->
  dlt (seconds (header_stamp pose - now)) time_thr = true.
Proof.
  unfold cutPredictPathWithDuration. intros Ho Hp Hq.
  apply in_map_iff in Ho. destruct Ho as (o & <- & _). simpl in Hp.
  apply in_map_iff in Hp. destruct Hp as (pp & <- & _). simpl in Hq.
  apply filter_In in Hq. tauto.
Qed.

Lemma find_stuck_vehicle_filter (param : PlannerParam) (area : Polygon2d)
    (objects : list DynamicObject) (d : DebugData) :
  find_stuck_vehicle param area objects d =
  find_stuck_vehicle param area (filter (fun o => negb (is_bicycle o)) objects) d.
Proof.
  induction objects as [|o objects IH]; [reflexivity|].
  cbn [filter find_stuck_vehicle]. destruct (is_bicycle o) eqn:Hb; cbn [negb].
  - assert (Ht : isTargetStuckVehicleType o = false).
    { unfold is_bicycle in Hb. unfold isTargetStuckVehicleType.
      destruct (semantic_type o); try discriminate. reflexivity. }
    rewrite Ht. exact IH.
  - cbn [find_stuck_vehicle]. rewrite IH. reflexivity.
Qed.

Lemma find_stuck_vehicle_target (param : PlannerParam) (area : Polygon2d)
    (objects : list DynamicObject) (d d' : DebugData) (is_stuck : bool) :
  find_stuck_vehicle param area objects d = (is_stuck, d') ->
  if is_stuck
  then exists o, In o objects /\ isTargetStuckVehicleType o = true /\
                 d' = set_stuck_targets (stuck_targets d ++ [o]) d
  else d' = d.
Proof.
  induction objects as [|o objects IH]; simpl.
  - intros H; injection H as <- <-. reflexivity.
  - destruct (isTargetStuckVehicleType o) eqn:Ht; simpl.
    + destruct (dgt _ _).
      * intros H. specialize (IH H). destruct is_stuck; [|exact IH].
        destruct IH as (o' & Hin & Hty & Hd). exists o'. auto.
      * destruct (bg_disjoint _ _); simpl.
        -- intros H. specialize (IH H). destruct is_stuck; [|exact IH].
           destruct IH as (o' & Hin & Hty & Hd). exists o'. auto.
        -- intros H; injection H as <- <-. exists o. auto.
    + intros H. specialize (IH H). destruct is_stuck; [|exact IH].
      destruct IH as (o' & Hin & Hty & Hd). exists o'. auto.
Qed.

(** C10.  The collision filter accepts the classes CAR, BUS, TRUCK, MOTORBIKE
    and BICYCLE, the stuck-vehicle filter only CAR, BUS, TRUCK and MOTORBIKE.
    So the stuck check gives the same result with the bicycles removed from
    the objects, the object that triggers it is never a bicycle, and objects
    that are all bicycles never trigger it, whatever their speed and
    position. *)
Theorem stuck_check_ignores_bicycles (m : IntersectionModule) (pd : PlannerData)
    (lanelet_map_ptr : LaneletMap) (path : PathWithLaneId) (closest_idx stop_idx : Z)
    (objects : list DynamicObject) (d : DebugData) :
  (forall o,
     isTargetCollisionVehicleType o =
     match semantic_type o with
     | CAR | BUS | TRUCK | MOTORBIKE | BICYCLE => true
     | _ => false
     end) /\
  (forall o,
     isTargetStuckVehicleType o =
     match semantic_type o with
     | CAR | BUS | TRUCK | MOTORBIKE => true
     | _ => false
     end) /\
  checkStuckVehicleInIntersection m pd lanelet_map_ptr path closest_idx stop_idx
    objects d =
  checkStuckVehicleInIntersection m pd lanelet_map_ptr path closest_idx stop_idx
    (filter (fun o => negb (is_bicycle o)) objects) d /\
  (forall is_stuck d',
     checkStuckVehicleInIntersection m pd lanelet_map_ptr path closest_idx stop_idx
       objects d = Some (is_stuck, d') ->
     if is_stuck
     then exists o, In o objects /\ semantic_type o <> BICYCLE /\
                    stuck_targets d' = stuck_targets d ++ [o]
     else stuck_targets d' = stuck_targets d) /\
  (forallb is_bicycle objects = true ->
   forall is_stuck d',
     checkStuckVehicleInIntersection m pd lanelet_map_ptr path closest_idx stop_idx
       objects d = Some (is_stuck, d') ->
     is_stuck = false).
Proof.
  assert (Hinv : forall is_stuck d',
     checkStuckVehicleInIntersection m pd lanelet_map_ptr path closest_idx stop_idx
       objects d = Some (is_stuck, d') ->
     if is_stuck
     then exists o, In o objects /\ semantic_type o <> BICYCLE /\
                    stuck_targets d' = stuck_targets d ++ [o]
     else stuck_targets d' = stuck_targets d).
  { intros is_stuck d'. unfold checkStuckVehicleInIntersection. intros H.
    apply bind_Some in H. destruct H as (area & _ & H). injection H as H.
    apply find_stuck_vehicle_target in H. destruct is_stuck.
    - destruct H as (o & Hin & Hty & ->). exists o. split; [exact Hin|].
      split; [|reflexivity].
      unfold isTargetStuckVehicleType in Hty. intros Hb. rewrite Hb in Hty.
      discriminate.
    - subst d'. reflexivity. }
  split; [|split; [|split; [|split]]].
  - intros o. unfold isTargetCollisionVehicleType.
    destruct (semantic_type o); reflexivity.
  - intros o. unfold isTargetStuckVehicleType.
    destruct (semantic_type o); reflexivity.
  - unfold checkStuckVehicleInIntersection.
    destruct (generateEgoIntersectionLanePolygon _ _ _ _ _ _ _); simpl; [|reflexivity].
    rewrite find_stuck_vehicle_filter. reflexivity.
  - exact Hinv.
  - intros Hall is_stuck d' H. specialize (Hinv _ _ H).
    destruct is_stuck; [|reflexivity].
    destruct Hinv as (o & Hin & Hne & _).
    rewrite forallb_forall in Hall. specialize (Hall _ Hin).
    unfold is_bicycle in Hall. destruct (semantic_type o); try discriminate.
    congruence.
Qed.

Lemma checkCollision_passed (m : IntersectionModule) (pd : PlannerData) (now : Time)
    (lanelet_map_ptr : LaneletMap) (path : PathWithLaneId)
    (detection_areas : list CompoundPolygon3d) (detection_area_lanelet_ids : list Z)
    (objects : list DynamicObject) (closest_idx : Z) (d : DebugData)
    (r : bool * DebugData) :
  0 <= closest_idx ->
  existsb (fun p => hasLaneId p (to_int (lane_id_ m)))
    (skipn (S (Z.to_nat closest_idx)) path) = false ->
  checkCollision m pd now lanelet_map_ptr path detection_areas
    detection_area_lanelet_ids objects closest_idx d = Some r ->
  exists ego_poly target_objects lanes arc dist,
    extract_target_objects m pd ego_poly detection_areas detection_area_lanelet_ids
      objects = Some target_objects /\
    check_target_objects
      (mkCollisionScan (planner_param_ m) ego_poly [(0, 0)%float] lanes arc dist
         (max_longitudinal_offset_m pd))
      (cutPredictPathWithDuration now target_objects 0) false
      (set_ego_lane_polygon ego_poly d) = Some r.
Proof.
  intros Hi Hex. unfold checkCollision. intros H.
  apply bind_Some in H. destruct H as (ego_poly & _ & H).
  apply bind_Some in H. destruct H as (targets & Ht & H).
  rewrite (calcIntersectionPassingTime_passed m pd path (to_int (lane_id_ m)) Hi Hex)
    in H.
  cbn [bind back rev app hd_error fst] in H.
  apply bind_Some in H. destruct H as (lanes & _ & H).
  apply bind_Some in H. destruct H as (p & _ & H).
  apply bind_Some in H. destruct H as (dist & _ & H).
  eauto 10.
Qed.
(** The conversion to [int] leaves a lane id in the range of [int] as it
    is, and maps any other to an id in that range. *)
Lemma to_int_in_range (z : Z) :
  -2147483648 <= z < 2147483648 -> to_int z = z.
Proof. unfold to_int. intros H. rewrite Z.mod_small; lia. Qed.

Lemma to_int_range (z : Z) : -2147483648 <= to_int z < 2147483648.
Proof.
  unfold to_int.
  pose proof (Z.mod_pos_bound (z + 2147483648) 4294967296 eq_refl). lia.
Qed.

(** Path by path, the cut keeps the poses that pass its test, in their
    order, and drops the others. *)
Lemma cutPredictPathWithDuration_exact (now : Time) (objects : list DynamicObject)
    (time_thr : double) :
  Forall2
    (fun object cut_object =>
       Forall2
         (fun predicted_path cut_path =>
            predicted_poses cut_path =
            filter (fun pose => dlt (seconds (header_stamp pose - now)) time_thr)
              (predicted_poses predicted_path))
         (predicted_paths (state object)) (predicted_paths (state cut_object)))
    objects (cutPredictPathWithDuration now objects time_thr).
Proof.
  unfold cutPredictPathWithDuration.
  induction objects as [|o objects IH]; [constructor|].
  cbn [map]. constructor; [|exact IH]. cbn.
  induction (predicted_paths (state o)) as [|pp paths IHp]; [constructor|].
  cbn [map]. constructor; [reflexivity|exact IHp].
Qed.

(** C6, as amended.  The evaluated lane id is [lane_id_] as [checkCollision]
    passes it, converted to [int].  When no waypoint after the closest index
    is tagged with it, [calcIntersectionPassingTime] returns the single pair
    (0, 0).  The collision test is not skipped: [checkCollision] still scans
    the target objects, against that single-point profile, with their
    predicted paths cut at a duration of 0.  Of each predicted path that cut
    keeps, in their order, exactly the poses for which the duration from the
    clock reading to the stamp, in seconds, is below 0. *)
Theorem passed_intersection (m : IntersectionModule) (pd : PlannerData) (now : Time)
    (lanelet_map_ptr : LaneletMap) (path : PathWithLaneId)
    (detection_areas : list CompoundPolygon3d) (detection_area_lanelet_ids : list Z)
    (objects : list DynamicObject) (closest_idx : Z) (d : DebugData) :
  let lane := to_int (lane_id_ m) in
  0 <= closest_idx ->
  existsb (fun p => hasLaneId p lane) (skipn (S (Z.to_nat closest_idx)) path) = false ->
  calcIntersectionPassingTime m pd path closest_idx lane = Some [(0, 0)%float] /\
  (forall r,
     checkCollision m pd now lanelet_map_ptr path detection_areas
       detection_area_lanelet_ids objects closest_idx d = Some r ->
     exists ego_poly target_objects lanes arc dist,
       extract_target_objects m pd ego_poly detection_areas
         detection_area_lanelet_ids objects = Some target_objects /\
       check_target_objects
         (mkCollisionScan (planner_param_ m) ego_poly [(0, 0)%float] lanes arc dist
            (max_longitudinal_offset_m pd))
         (cutPredictPathWithDuration now target_objects 0) false
         (set_ego_lane_polygon ego_poly d) = Some r) /\
  (forall target_objects,
     Forall2
       (fun object cut_object =>
          Forall2
            (fun predicted_path cut_path =>
               predicted_poses cut_path =
               filter (fun pose => dlt (seconds (header_stamp pose - now)) 0)
                 (predicted_poses predicted_path))
            (predicted_paths (state object)) (predicted_paths (state cut_object)))
       target_objects (cutPredictPathWithDuration now target_objects 0)) /\
  (forall target_objects object predicted_path pose,
     In object (cutPredictPathWithDuration now target_objects 0) ->
     In predicted_path (predicted_paths (state object)) ->
     In pose (predicted_poses predicted_path) ->
     dlt (seconds (header_stamp pose - now)) 0 = true).
Proof.
  cbv zeta. intros Hi Hex. split; [|split; [|split]].
  - apply calcIntersectionPassingTime_passed; assumption.
  - intros r. apply checkCollision_passed; assumption.
  - intros targets. apply cutPredictPathWithDuration_exact.
  - intros targets object pp pose. apply cutPredictPathWithDuration_poses.
Qed.
End Detect.

(** ** Runs in the town *)

(** C2: a run.  The module is in STOP, [car_a] is on a collision course and
    the external-go input is active: GO is requested, which starts the
    margin time. *)
Lemma external_override_witness :
  let m := Town.module_of Town.param STOP None in
  let pd := Town.data 0 [Town.car_a] (Some Town.go_input) in
  exists c,
    modifyPathVelocity m pd (Town.sec 0) Town.road = Some c /\
    isTargetExternalInputStatus m pd (Town.sec 0) IntersectionStatus_GO = true /\
    List.map object_id (conflicting_targets (debug_data_ (cycle_module c))) = [1] /\
    state_machine_ (cycle_module c) = mkStateMachine STOP 2 (Some 0).
Proof.
  intros m pd.
  destruct (modifyPathVelocity m pd (Town.sec 0) Town.road) as [c|] eqn:H;
    [|vm_compute in H; discriminate].
  exists c. split; [reflexivity|].
  assert (HL : locate m pd (Town.sec 0) Town.road =
               Some (Proceed 3 2 2 Town.area20 Town.ids20
                       (set_detection_area Town.area20
                          (set_path_raw Town.road DebugData_default))))
    by (vm_compute; reflexivity).
  destruct (@external_override _ _ _ _ _ _ _ _ _ _ _ _ _ HL H) as (_ & Hgo & _).
  split; [vm_compute; reflexivity|]. split.
  - vm_compute in H. injection H as <-. vm_compute. reflexivity.
  - destruct Hgo as (_ & ->); vm_compute; reflexivity.
Defined.

(** C3: a run.  The module is constructed for lane 10, which has a traffic
    light and goes straight; [car_a] is on a collision course and nothing is
    stuck: the module stops softly, at the decel velocity of 3 m/s. *)
Lemma hard_stop_policy_witness :
  let initial := mkStateMachine GO 0 None in
  let pd := Town.data 0 [Town.car_a] None in
  exists m c,
    IntersectionModule_new 10 pd Town.param initial = Some m /\
    modifyPathVelocity m pd (Town.sec 0) Town.road = Some c /\
    state_ (state_machine_ (cycle_module c)) = STOP /\
    cycle_path c = setVelocityFrom 3 3 Town.road.
Proof.
  intros initial pd.
  destruct (IntersectionModule_new 10 pd Town.param initial) as [m|] eqn:Hnew;
    [|vm_compute in Hnew; discriminate].
  destruct (modifyPathVelocity m pd (Town.sec 0) Town.road) as [c|] eqn:H;
    [|vm_compute in Hnew; injection Hnew as <-; vm_compute in H; discriminate].
  exists m, c. split; [reflexivity|]. split; [exact H|].
  assert (Hstop : state_ (state_machine_ (cycle_module c)) = STOP).
  { vm_compute in Hnew. injection Hnew as <-. vm_compute in H.
    injection H as <-. reflexivity. }
  split; [exact Hstop|].
  assert (HL : locate m pd (Town.sec 0) Town.road =
               Some (Proceed 3 2 2 Town.area20 Town.ids20
                       (set_detection_area Town.area20
                          (set_path_raw Town.road DebugData_default)))).
  { vm_compute in Hnew. injection Hnew as <-. vm_compute. reflexivity. }
  assert (Hcfg : same_configuration m m) by (repeat split).
  destruct (@hard_stop_policy _ _ _ _ _ _ _ _ _ _ _ _ _ _ _ _ _ _ Hnew Hcfg HL H Hstop)
    as (ll & hc & d2 & st & d3 & Hll & _ & Hs & ->).
  vm_compute in Hnew. injection Hnew as <-.
  vm_compute in Hll. injection Hll as <-.
  vm_compute in Hs. injection Hs as <- _.
  reflexivity.
Defined.

(** C3: with a decel velocity of 0 the velocity written from the stop line
    on is exactly zero although no vehicle is stuck, lane 10 has a traffic
    light and its turn direction is "straight". *)
Lemma zero_decel_velocity_written :
  let pd := Town.data 0 [Town.car_a] None in
  let summary c :=
    (state_ (state_machine_ (cycle_module c)), Town.velocities (cycle_path c),
     stuck_targets (debug_data_ (cycle_module c))) in
  option_map summary
    (m <- IntersectionModule_new 10 pd (Town.configured 2 0) (mkStateMachine GO 0 None) ;;
     modifyPathVelocity m pd (Town.sec 0) Town.road)
  = Some (STOP, [5; 5; 5; 0; 0; 0; 0; 0]%float, []) /\
  regulatoryElementsAs_TrafficLight Town.lane10 = [100] /\
  attributeOr Town.lane10 "turn_direction" "else" = "straight"%string.
Proof. vm_compute. repeat split. Qed.

(** C4: a run.  The module is in GO and the ego vehicle, at x = 6, is
    closest to index 3, beyond the pass-judge line at index 2.  [car_a] is
    on a collision course, which the collision check would flag, but the
    cycle returns with the path as it was. *)
Lemma latched_pass_through_witness :
  let m := Town.module_of Town.param GO None in
  let pd := Town.data 6 [Town.car_a] None in
  option_map fst
    (checkCollision m pd (Town.sec 0) Town.town Town.road Town.area20 Town.ids20
       [Town.car_a] 3 DebugData_default) = Some true /\
  modifyPathVelocity m pd (Town.sec 0) Town.road =
    Some (mkCycle true Town.road []
            (with_debug_data
               (set_detection_area Town.area20
                  (set_path_raw Town.road DebugData_default)) m)).
Proof.
  intros m pd. split; [vm_compute; reflexivity|].
  refine (@latched_pass_through _ _ m pd (Town.sec 0) Town.road 3 2 4 3 _ _ _ _ _).
  - reflexivity.
  - reflexivity.
  - vm_compute. reflexivity.
  - lia.
  - reflexivity.
Defined.

(** C5: the flag [collision_detected] is not reset between the objects.
    [car_a] meets the trimmed ego lane; [car_b] enters the ego lane but
    never meets the stretch trimmed to its own entry and exit, as the scan
    of [car_b] alone shows.  Scanned after [car_a], [car_b] is recorded as a
    conflicting target all the same; scanned before it, it is not. *)
Theorem conflicting_targets_stale_flag :
  let m := Town.module_of Town.param STOP None in
  let scan objects :=
    option_map
      (fun r => (fst r, List.map object_id (conflicting_targets (snd r))))
      (checkCollision m (Town.data 0 objects None) (Town.sec 0) Town.town Town.road
         Town.area20 Town.ids20 objects 2 DebugData_default) in
  scan [Town.car_a; Town.car_b] = Some (true, [1; 2]) /\
  scan [Town.car_b] = Some (false, []) /\
  scan [Town.car_b; Town.car_a] = Some (true, [1]).
Proof. vm_compute. repeat split. Qed.

(** C6: a run.  The ego vehicle is at index 5 and no later waypoint is in
    lane 10. *)
Lemma passed_intersection_witness :
  let m := Town.module_of Town.param STOP None in
  let pd := Town.data 15 [Town.car_c] None in
  calcIntersectionPassingTime m pd Town.road 5 10 = Some [(0, 0)%float].
Proof.
  intros m pd.
  refine (proj1 (@passed_intersection _ _ m pd (Town.sec 10) Town.town Town.road
                   Town.area20 Town.ids20 [Town.car_c] 5 DebugData_default _ _)).
  - lia.
  - reflexivity.
Defined.

(** C6: no waypoint after index 5 is in lane 10 and the profile is the
    single pair (0, 0), yet the collision test runs and flags [car_c], whose
    predicted poses at 7 s, 8 s and 9 s are stamped before the clock reading
    of 10 s. *)
Lemma degenerate_profile_collision_flagged :
  let m := Town.module_of Town.param STOP None in
  let pd := Town.data 15 [Town.car_c] None in
  existsb (fun p => hasLaneId p 10) (skipn 6 Town.road) = false /\
  calcIntersectionPassingTime m pd Town.road 5 10 = Some [(0, 0)%float] /\
  option_map
    (fun r => (fst r, List.map object_id (conflicting_targets (snd r))))
    (checkCollision m pd (Town.sec 10) Town.town Town.road Town.area20 Town.ids20
       [Town.car_c] 5 DebugData_default) = Some (true, [3]).
Proof. vm_compute. repeat split. Qed.

(** C7: a run.  From index 2 at 5 m/s, with segments of 5 m: lane 10 is
    entered at index 4 and left at index 6, where the profile ends. *)
Lemma calcIntersectionPassingTime_profile_witness :
  let m := Town.module_of Town.param STOP None in
  let pd := Town.data 0 [] None in
  calcIntersectionPassingTime m pd Town.road 2 10 =
  Some [(0, 0); (1, 5); (2, 10); (3, 15); (4, 20)]%float.
Proof.
  intros m pd.
  destruct (@calcIntersectionPassingTime_profile _ _ m pd Town.road 2 10)
    as (_ & _ & H).
  rewrite (H (Town.waypoint 0 9) eq_refl).
  vm_compute. reflexivity.
Defined.

(** C7: from index 5 on no waypoint is tagged with lane 10.  The recurrence
    over the two segments after index 5, from the speed of 5 m/s, gives three
    pairs; the profile returned is the single pair (0, 0). *)
Lemma profile_without_tagged_waypoint :
  let m := Town.module_of Town.param STOP None in
  let pd := Town.data 15 [] None in
  let rest := skipn 6 Town.road in
  let v0 := std_max 0x1.999999999999ap-4%float (fabs (current_velocity pd)) in
  existsb (fun p => hasLaneId p 10) rest = false /\
  option_map
    (fun p0 =>
       profile (intersection_max_acc Town.param) (intersection_velocity Town.param) v0
         (segment_lengths p0 (covered 10 false rest)))
    (at_ Town.road 5) = Some [(0, 0); (1, 5); (2, 10)]%float /\
  calcIntersectionPassingTime m pd Town.road 5 10 = Some [(0, 0)%float].
Proof. vm_compute. repeat split. Qed.

(** C8: a run.  With the margin time of 2 s the first call records the
    pending timestamp and stays in STOP; the second call does the same. *)
Lemma modifyPathVelocity_twice_witness :
  let m := Town.module_of Town.param STOP None in
  let pd := Town.data 0 [] None in
  exists c1 c2,
    modifyPathVelocity m pd (Town.sec 0) Town.road = Some c1 /\
    modifyPathVelocity (cycle_module c1) pd (Town.sec 0) Town.road = Some c2 /\
    returned c2 = returned c1 /\
    state_ (state_machine_ (cycle_module c2)) =
    state_ (state_machine_ (cycle_module c1)) /\
    cycle_path c2 = cycle_path c1.
Proof.
  intros m pd.
  destruct (modifyPathVelocity m pd (Town.sec 0) Town.road) as [c1|] eqn:H;
    [|vm_compute in H; discriminate].
  destruct (@modifyPathVelocity_twice _ _ m pd (Town.sec 0) Town.road c1)
    as (c2 & H2 & Hr & Hs & Hp).
  - reflexivity.
  - exact H.
  - exists c1, c2. auto.
Defined.

(** C8: with a margin time of -1 s the two calls differ.  The first call
    records the pending timestamp, stays in STOP and writes the decel
    velocity; for the second call no time has passed, which is more than the
    margin: it moves to GO and leaves the path as it was. *)
Lemma negative_margin_second_call :
  let m := Town.module_of (Town.configured (-1) 3) STOP None in
  let pd := Town.data 0 [] None in
  let summary c :=
    (returned c, state_ (state_machine_ (cycle_module c)),
     Town.velocities (cycle_path c)) in
  option_map summary (modifyPathVelocity m pd (Town.sec 0) Town.road)
  = Some (true, STOP, [5; 5; 5; 3; 3; 3; 3; 3]%float) /\
  option_map summary
    (c1 <- modifyPathVelocity m pd (Town.sec 0) Town.road ;;
     modifyPathVelocity (cycle_module c1) pd (Town.sec 0) Town.road)
  = Some (true, GO, [5; 5; 5; 5; 5; 5; 5; 5]%float).
Proof. vm_compute. split; reflexivity. Qed.

(** C10: a run.  A bicycle standing in the stuck-detection area does not
    trigger the stuck check; a car standing there does. *)
Lemma stuck_check_ignores_bicycles_witness :
  let m := Town.module_of Town.param GO None in
  let check objects :=
    checkStuckVehicleInIntersection m (Town.data 0 objects None) Town.town Town.road
      2 3 objects DebugData_default in
  option_map fst (check [Town.bicycle]) = Some false /\
  option_map fst (check [Town.bicycle; Town.standing_car]) = Some true.
Proof.
  intros m check. split; [|vm_compute; reflexivity].
  destruct (check [Town.bicycle]) as [[is_stuck d']|] eqn:H;
    [|vm_compute in H; discriminate].
  destruct (@stuck_check_ignores_bicycles _ _ m (Town.data 0 [Town.bicycle] None)
              Town.town Town.road 2 3 [Town.bicycle] DebugData_default)
    as (_ & _ & _ & _ & Hall).
  rewrite (Hall eq_refl _ _ H). reflexivity.
Defined.

(* ================================================================= *)
(** * Further properties *)

(** ** The state machine under repeated requests *)

Lemma run_GO_in_GO (margin : double) (ts : list Time) :
  run (mkStateMachine GO margin None) (map (pair GO) ts) = mkStateMachine GO margin None.
Proof. induction ts as [|t ts IH]; [reflexivity|exact IH]. Qed.

Lemma run_GO_pending (margin : double) (t0 : Time) (ts : list Time) :
  run (mkStateMachine STOP margin (Some t0)) (map (pair GO) ts) =
  if existsb (fun t => dgt (seconds (t - t0)) margin) ts
  then mkStateMachine GO margin None
  else mkStateMachine STOP margin (Some t0).
Proof.
  induction ts as [|t ts IH]; [reflexivity|].
  cbn [map existsb].
  change (run ?sm (?r :: ?rs)) with (run (step sm r) rs).
  unfold step at 1. cbn [fst snd]. unfold setStateWithMarginTime.
  cbn [State_eqb state_ start_time_ margin_time_].
  destruct (dgt (seconds (t - t0)) margin) eqn:Ed; cbn [orb].
  - apply run_GO_in_GO.
  - exact IH.
Qed.

(** X1.  A machine in STOP with nothing pending that is asked for GO at [t0]
    and then again at the times [ts], with no STOP request in between, is in
    GO afterwards exactly when one of the later requests came more than the
    margin time after [t0]; until then it stays in STOP with [t0] as its
    pending timestamp: repeating the request does not restart the clock, and
    the first request alone never grants GO. *)
Theorem uninterrupted_GO_requests (margin : double) (t0 : Time) (ts : list Time) :
  run (mkStateMachine STOP margin None) ((GO, t0) :: map (pair GO) ts) =
  if existsb (fun t => dgt (seconds (t - t0)) margin) ts
  then mkStateMachine GO margin None
  else mkStateMachine STOP margin (Some t0).
Proof.
  change (run ?sm (?r :: ?rs)) with (run (step sm r) rs).
  unfold step at 1, setStateWithMarginTime. cbn [fst snd State_eqb state_ start_time_].
  apply run_GO_pending.
Qed.

Lemma step_pending_in_STOP (sm : StateMachine) (r : Request) :
  state_ (step sm r) = GO -> start_time_ (step sm r) = None.
Proof.
  destruct sm as [[|] margin [start|]], r as [[|] now];
    unfold step, setStateWithMarginTime; simpl; try reflexivity; try discriminate.
  destruct (dgt (seconds (now - start)) margin); simpl; [reflexivity|discriminate].
Qed.

(** X2.  After any request, whatever the machine was before and whatever was
    requested earlier, a pending timestamp exists only in STOP: a machine in
    GO has none.  The margin time is never changed by a request. *)
Theorem pending_only_in_STOP (sm : StateMachine) (rs : list Request) (r : Request) :
  (state_ (run sm (rs ++ [r])) = GO -> start_time_ (run sm (rs ++ [r])) = None) /\
  margin_time_ (run sm (rs ++ [r])) = margin_time_ sm.
Proof.
  split.
  - rewrite run_snoc. apply step_pending_in_STOP.
  - apply run_margin.
Qed.

(** A comparison with a NaN is false. *)
Lemma dgt_nan (x : double) : dgt x nan = false.
Proof.
  unfold dgt. rewrite ltb_spec.
  replace (Prim2SF nan) with S754_nan by reflexivity.
  reflexivity.
Qed.

Lemma step_nan (sm : StateMachine) (r : Request) :
  state_ sm = STOP -> margin_time_ sm = nan -> state_ (step sm r) = STOP.
Proof.
  destruct sm as [s m st], r as [[|] t]; simpl; intros -> ->;
    unfold step, setStateWithMarginTime; simpl; try reflexivity.
  destruct st; [|reflexivity]. rewrite dgt_nan. reflexivity.
Qed.

(** X3.  With a margin time that is not a number the machine never leaves
    STOP, whatever is requested and however long: the comparison
    [duration > margin_time_] is false on a NaN. *)
Theorem nan_margin_never_GO (start : option Time) (rs : list Request) :
  state_ (run (mkStateMachine STOP nan start) rs) = STOP.
Proof.
  induction rs as [|r rs IH] using rev_ind; [reflexivity|].
  rewrite run_snoc. apply step_nan; [exact IH|].
  rewrite run_margin. reflexivity.
Qed.

(** ** What the two checks write

    The debug data are the only thing the two checks change.  A reading [f]
    of the debug data that the fields assigned by a check do not affect has
    the same value before and after the check. *)

Section Frame.

Context {MT : MapTypes} {E : Externals}.

Lemma check_predicted_paths_frame {T : Type} (f : DebugData -> T)
    (c : CollisionScan) (object : DynamicObject) :
  (forall v d, f (set_candidate_collision_ego_lane_polygon v d) = f d) ->
  (forall v d, f (set_candidate_collision_object_polygons v d) = f d) ->
  (forall v d, f (set_conflicting_targets v d) = f d) ->
  forall paths cd d cd' d',
    check_predicted_paths c object paths cd d = Some (cd', d') -> f d' = f d.
Proof.
  intros H1 H2 H3. induction paths as [|p paths IH]; intros cd d cd' d'.
  - simpl. intros H; injection H as _ <-. reflexivity.
  - cbn [check_predicted_paths]. cbv zeta.
    destruct (dlt (confidence p) _); [apply IH|].
    destruct (bg_intersects_linestring _ _); [|apply IH].
    intros H.
    apply bind_Some in H. destruct H as (first_pose & _ & H).
    apply bind_Some in H. destruct H as (front_pose & _ & H).
    destruct (if dgt _ 0 then _ else _) as [start|]; [|exact (IH _ _ _ _ H)].
    apply bind_Some in H. destruct H as (last_pose & _ & H).
    apply bind_Some in H. destruct H as (start_td & _ & H).
    apply bind_Some in H. destruct H as (end_td & _ & H).
    apply bind_Some in H. destruct H as (front & _ & H).
    apply bind_Some in H. destruct H as ([cd1 cands] & _ & H).
    destruct cd1.
    + injection H as _ <-. rewrite H3, H2, H1. reflexivity.
    + rewrite (IH _ _ _ _ H), H2, H1. reflexivity.
Qed.

Lemma check_target_objects_frame {T : Type} (f : DebugData -> T)
    (c : CollisionScan) :
  (forall v d, f (set_candidate_collision_ego_lane_polygon v d) = f d) ->
  (forall v d, f (set_candidate_collision_object_polygons v d) = f d) ->
  (forall v d, f (set_conflicting_targets v d) = f d) ->
  forall objects cd d cd' d',
    check_target_objects c objects cd d = Some (cd', d') -> f d' = f d.
Proof.
  intros H1 H2 H3. induction objects as [|o objects IH]; intros cd d cd' d'.
  - simpl. intros H; injection H as _ <-. reflexivity.
  - cbn [check_target_objects]. intros H.
    apply bind_Some in H. destruct H as ([cd1 d1] & Hp & H).
    rewrite (IH _ _ _ _ H).
    exact (check_predicted_paths_frame f c o H1 H2 H3 _ _ _ Hp).
Qed.

Lemma checkCollision_frame {T : Type} (f : DebugData -> T)
    m pd now map path areas ids objects ci d b d' :
  (forall v d, f (set_ego_lane_polygon v d) = f d) ->
  (forall v d, f (set_candidate_collision_ego_lane_polygon v d) = f d) ->
  (forall v d, f (set_candidate_collision_object_polygons v d) = f d) ->
  (forall v d, f (set_conflicting_targets v d) = f d) ->
  checkCollision m pd now map path areas ids objects ci d = Some (b, d') ->
  f d' = f d.
Proof.
  intros H0 H1 H2 H3. unfold checkCollision. intros H.
  apply bind_Some in H. destruct H as (ego_poly & _ & H).
  apply bind_Some in H. destruct H as (targets & _ & H).
  apply bind_Some in H. destruct H as (tda & _ & H).
  apply bind_Some in H. destruct H as (last_pair & _ & H).
  apply bind_Some in H. destruct H as (lanes & _ & H).
  apply bind_Some in H. destruct H as (p & _ & H).
  apply bind_Some in H. destruct H as (dist & _ & H).
  rewrite (check_target_objects_frame f _ H1 H2 H3 _ _ _ H). apply H0.
Qed.

Lemma find_stuck_vehicle_frame {T : Type} (f : DebugData -> T) param area :
  (forall v d, f (set_stuck_targets v d) = f d) ->
  forall objects d, f (snd (find_stuck_vehicle param area objects d)) = f d.
Proof.
  intros H. induction objects as [|o objects IH]; intros d; [reflexivity|].
  cbn [find_stuck_vehicle].
  destruct (negb _); [apply IH|].
  destruct (dgt _ _); [apply IH|].
  destruct (negb _); [apply H | apply IH].
Qed.

Lemma checkStuck_frame {T : Type} (f : DebugData -> T)
    m pd map path ci si objects d b d' :
  (forall v d, f (set_stuck_vehicle_detect_area v d) = f d) ->
  (forall v d, f (set_stuck_targets v d) = f d) ->
  checkStuckVehicleInIntersection m pd map path ci si objects d = Some (b, d') ->
  f d' = f d.
Proof.
  intros H1 H2. unfold checkStuckVehicleInIntersection. intros H.
  apply bind_Some in H. destruct H as (area & _ & H).
  injection H as H.
  pose proof (find_stuck_vehicle_frame f (planner_param_ m) area H2 objects
                (set_stuck_vehicle_detect_area area d)) as Hf.
  rewrite H in Hf. simpl in Hf. rewrite Hf. apply H1.
Qed.

End Frame.

(** ** The planning cycle: early returns, GO and the stop reason *)

Section CycleReturns.

Context {MT : MapTypes} {E : Externals}.

(** What [locate] has established when the cycle goes on to the detection. *)
Lemma locate_Proceed_inv m pd now path sl pj ci areas ids d1 :
  locate m pd now path = Some (Proceed sl pj ci areas ids d1) ->
  let lanelets :=
    getObjectiveLanelets (lanelet_map pd) (routing_graph pd) (lane_id_ m)
      (planner_param_ m) in
  areas = getPolygon3dFromLaneletsVec (snd lanelets)
            (detection_area_length (planner_param_ m)) /\
  ids = getLaneletIdsFromLaneletsVec (snd lanelets) /\
  is_empty areas = false /\
  (exists fi,
     generateStopLine (lane_id_ m)
       (getPolygon3dFromLaneletsVec (fst lanelets)
          (detection_area_length (planner_param_ m)))
       pd (planner_param_ m) path = Some (sl, pj, fi)) /\
  0 < sl /\ 0 < pj /\
  calcClosestIndex path (current_pose pd) = Some ci /\
  d1 = set_detection_area areas (set_path_raw path DebugData_default).
Proof.
  unfold locate. cbv zeta.
  destruct (getObjectiveLanelets _ _ _ _) as [conflicting detection].
  cbn [fst snd].
  destruct (is_empty _) eqn:He; [discriminate|].
  destruct (generateStopLine _ _ _ _ _) as [[[sl' pj'] fi]|]; [|discriminate].
  destruct (_ || _) eqn:Ho; [discriminate|].
  destruct (calcClosestIndex _ _) as [ci'|]; [|discriminate].
  intros H. apply bind_Some in H. destruct H as (over & _ & H).
  destruct (_ && _); [discriminate|].
  injection H as <- <- <- <- <- <-.
  apply orb_false_elim in Ho. destruct Ho as [Ha Hb].
  apply Z.leb_gt in Ha, Hb.
  repeat split; try assumption. exists fi. reflexivity.
Qed.

(** The stop flag of the debug data is not set by the two checks. *)
Lemma checks_leave_stop_required m pd now path sl ci areas ids d1 hc d2 st d3 :
  checkCollision m pd now (lanelet_map pd) path areas ids (dynamic_objects pd) ci d1
    = Some (hc, d2) ->
  checkStuckVehicleInIntersection m pd (lanelet_map pd) path ci sl
    (dynamic_objects pd) d2 = Some (st, d3) ->
  stop_required d3 = stop_required d1.
Proof.
  intros Hc Hs.
  rewrite (checkStuck_frame stop_required _ _ _ _ _ _ _ _
             (fun _ _ => eq_refl) (fun _ _ => eq_refl) Hs).
  exact (checkCollision_frame stop_required _ _ _ _ _ _ _ _ _ _
           (fun _ _ => eq_refl) (fun _ _ => eq_refl) (fun _ _ => eq_refl)
           (fun _ _ => eq_refl) Hc).
Qed.

(** The three ways in which [decide] ends: in GO, with a soft stop, with a
    hard stop. *)
Lemma decide_ends m pd now path sl pj ci areas ids d1 c :
  decide m pd now path sl pj ci areas ids d1 = Some c ->
  exists hc d2 st d3,
    checkCollision m pd now (lanelet_map pd) path areas ids (dynamic_objects pd) ci d1
      = Some (hc, d2) /\
    checkStuckVehicleInIntersection m pd (lanelet_map pd) path ci sl
      (dynamic_objects pd) d2 = Some (st, d3) /\
    match state_ (state_machine_ (cycle_module c)) with
    | GO =>
        cycle_path c = path /\ cycle_stop_reason c = [] /\
        debug_data_ (cycle_module c) = d3
    | STOP =>
        cycle_path c = setVelocityFrom sl (stop_line_velocity m st) path /\
        if is_stop_required m st
        then stop_required (debug_data_ (cycle_module c)) = true /\
             option_map point_pose (at_ (cycle_path c) sl) =
               Some (stop_point_pose (debug_data_ (cycle_module c))) /\
             cycle_stop_reason c =
               [mkStopFactor (stop_point_pose (debug_data_ (cycle_module c)))
                  (toRosPoints (conflicting_targets (debug_data_ (cycle_module c))) ++
                   toRosPoints (stuck_targets (debug_data_ (cycle_module c))))]
        else stop_required (debug_data_ (cycle_module c)) = false /\
             cycle_stop_reason c = []
    end.
Proof.
  unfold decide. intros H.
  apply bind_Some in H. destruct H as ([hc d2] & Hc & H).
  apply bind_Some in H. destruct H as ([st d3] & Hs & H).
  exists hc, d2, st, d3. split; [exact Hc|]. split; [exact Hs|].
  unfold getState in H.
  destruct (setStateWithMarginTime _ _ _) as [s mg stt] eqn:Esm.
  cbn [state_] in H. destruct s; cbn [State_eqb] in H.
  - injection H as <-. simpl. repeat split.
  - destruct (is_stop_required m st) eqn:Er.
    + apply bind_Some in H. destruct H as (sp & Hsp & H).
      apply bind_Some in H. destruct H as (jp & _ & H).
      injection H as <-. simpl. rewrite Hsp. repeat split.
    + injection H as <-. simpl. repeat split.
Qed.

(** X4.  When the lane has no detection area the cycle ends at once: it
    returns true with the path and the state machine as they were and the
    stop reason just initialised, whatever the objects, the state and the
    external input are.  In particular an active external stop input is not
    acted upon. *)
Theorem no_detection_area_no_planning (m : IntersectionModule) (pd : PlannerData)
    (now : Time) (path : PathWithLaneId) :
  is_empty
    (getPolygon3dFromLaneletsVec
       (snd (getObjectiveLanelets (lanelet_map pd) (routing_graph pd) (lane_id_ m)
               (planner_param_ m)))
       (detection_area_length (planner_param_ m))) = true ->
  modifyPathVelocity m pd now path =
    Some (mkCycle true path []
            (with_debug_data (set_path_raw path DebugData_default) m)).
Proof.
  unfold modifyPathVelocity, locate. cbv zeta.
  destruct (getObjectiveLanelets _ _ _ _) as [conflicting detection].
  cbn [snd]. intros ->. reflexivity.
Qed.

(** X5.  A cycle returns false only when the stop line could not be
    generated or the closest index could not be computed; such a cycle has
    written no velocity to the path, leaves the stop reason as initialised
    and the state machine as it was. *)
Theorem failed_cycle_leaves_no_trace (m : IntersectionModule) (pd : PlannerData)
    (now : Time) (path : PathWithLaneId) (c : Cycle) :
  modifyPathVelocity m pd now path = Some c ->
  returned c = false ->
  let lanelets :=
    getObjectiveLanelets (lanelet_map pd) (routing_graph pd) (lane_id_ m)
      (planner_param_ m) in
  let stop_line :=
    generateStopLine (lane_id_ m)
      (getPolygon3dFromLaneletsVec (fst lanelets)
         (detection_area_length (planner_param_ m)))
      pd (planner_param_ m) path in
  (stop_line = None \/ calcClosestIndex path (current_pose pd) = None) /\
  cycle_path c = path /\ cycle_stop_reason c = [] /\
  state_machine_ (cycle_module c) = state_machine_ m.
Proof.
  unfold modifyPathVelocity. intros H Hr. cbv zeta.
  apply bind_Some in H. destruct H as ([c'|sl pj ci areas ids d1] & HL & H).
  - injection H as ->.
    destruct (locate_Return _ _ _ _ HL) as (Hp & Hs & d & Hm & _).
    split; [|rewrite Hm; auto].
    revert HL. unfold locate. cbv zeta.
    destruct (getObjectiveLanelets _ _ _ _) as [conflicting detection].
    cbn [fst snd].
    destruct (is_empty _).
    { intros HL; injection HL as <-. discriminate. }
    destruct (generateStopLine _ _ _ _ _) as [[[sl pj] fi]|]; [|auto].
    destruct (_ || _).
    { intros HL; injection HL as <-. discriminate. }
    destruct (calcClosestIndex _ _) as [ci|]; [|auto].
    intros HL. apply bind_Some in HL. destruct HL as (over & _ & HL).
    destruct (_ && _); [|discriminate].
    injection HL as <-. discriminate.
  - destruct (decide_inv _ _ _ _ _ _ _ _ _ _ H)
      as (hc & d2 & st & d3 & _ & _ & Hret & _).
    cbv zeta in Hret. congruence.
Qed.

(** X6.  A cycle after which the module is in GO has written no velocity
    to the path: the velocities are written only in STOP.  It reports no
    stop factor and leaves the stop flag of the debug data unset. *)
Theorem GO_leaves_the_path (m : IntersectionModule) (pd : PlannerData)
    (now : Time) (path : PathWithLaneId) (c : Cycle) :
  modifyPathVelocity m pd now path = Some c ->
  state_ (state_machine_ (cycle_module c)) = GO ->
  cycle_path c = path /\ cycle_stop_reason c = [] /\
  stop_required (debug_data_ (cycle_module c)) = false.
Proof.
  unfold modifyPathVelocity. intros H Hgo.
  apply bind_Some in H. destruct H as ([c'|sl pj ci areas ids d1] & HL & H).
  - injection H as ->.
    destruct (locate_Return _ _ _ _ HL) as (Hp & Hs & d & -> & Hd).
    simpl. repeat split; try assumption. tauto.
  - destruct (locate_Proceed_inv _ _ _ _ HL) as (_ & _ & _ & _ & _ & _ & _ & Hd1).
    destruct (decide_ends _ _ _ _ _ _ _ _ _ _ H)
      as (hc & d2 & st & d3 & Hc & Hs & Hend).
    rewrite Hgo in Hend. destruct Hend as (Hp & Hr & Hd).
    split; [exact Hp|]. split; [exact Hr|].
    rewrite Hd, (checks_leave_stop_required _ _ _ _ _ _ _ _ _ Hc Hs), Hd1.
    reflexivity.
Qed.

(** X7.  The stop reason of a cycle holds one stop factor when the cycle has
    set the stop flag of the debug data, and none otherwise.  The flag is
    set only by a cycle that ends in STOP and has written the velocity 0
    from the stop line on; the pose of the factor is that of the path point
    at the stop line, and its points are those of the conflicting targets
    followed by those of the stuck targets.  A stop at the decel velocity is
    not reported. *)
Theorem stop_factor_reported (m : IntersectionModule) (pd : PlannerData)
    (now : Time) (path : PathWithLaneId) (c : Cycle) :
  modifyPathVelocity m pd now path = Some c ->
  let d := debug_data_ (cycle_module c) in
  cycle_stop_reason c =
    (if stop_required d
     then [mkStopFactor (stop_point_pose d)
             (toRosPoints (conflicting_targets d) ++ toRosPoints (stuck_targets d))]
     else []) /\
  (stop_required d = true ->
   returned c = true /\ state_ (state_machine_ (cycle_module c)) = STOP /\
   exists sl, cycle_path c = setVelocityFrom sl 0 path /\
              option_map point_pose (at_ (cycle_path c) sl) = Some (stop_point_pose d)).
Proof.
  unfold modifyPathVelocity. intros H. cbv zeta.
  apply bind_Some in H. destruct H as ([c'|sl pj ci areas ids d1] & HL & H).
  - injection H as ->.
    destruct (locate_Return _ _ _ _ HL) as (Hp & Hs & d & -> & Hd).
    simpl. replace (stop_required d) with false by (symmetry; tauto).
    split; [assumption|discriminate].
  - destruct (locate_Proceed_inv _ _ _ _ HL) as (_ & _ & _ & _ & _ & _ & _ & Hd1).
    destruct (decide_inv _ _ _ _ _ _ _ _ _ _ H) as (_ & _ & _ & _ & _ & _ & Hret & _).
    destruct (decide_ends _ _ _ _ _ _ _ _ _ _ H)
      as (hc & d2 & st & d3 & Hc & Hs & Hend).
    destruct (state_ (state_machine_ (cycle_module c))).
    + destruct Hend as (Hp & Hr & Hd).
      rewrite Hd, (checks_leave_stop_required _ _ _ _ _ _ _ _ _ Hc Hs), Hd1.
      simpl. split; [exact Hr|discriminate].
    + destruct Hend as (Hp & Hend). unfold stop_line_velocity in Hp.
      destruct (is_stop_required m st).
      * destruct Hend as (-> & Hpose & ->). split; [reflexivity|].
        intros _. split; [exact Hret|]. split; [reflexivity|].
        exists sl. split; assumption.
      * destruct Hend as (-> & ->). split; [reflexivity|discriminate].
Qed.

(** X8.  A cycle does not read the debug data the last cycle left: it
    starts from fresh ones.  Between two cycles the module remembers nothing
    but its state machine. *)
Theorem debug_data_not_carried_over (m : IntersectionModule) (d : DebugData)
    (pd : PlannerData) (now : Time) (path : PathWithLaneId) :
  modifyPathVelocity (with_debug_data d m) pd now path =
  modifyPathVelocity m pd now path.
Proof.
  assert (Hcfg : same_configuration (with_debug_data d m) m) by (repeat split).
  unfold modifyPathVelocity.
  assert (HL : locate (with_debug_data d m) pd now path = locate m pd now path).
  { unfold locate. destruct m; reflexivity. }
  rewrite HL. destruct (locate m pd now path) as [[c|sl pj ci areas ids d1]|];
    try reflexivity.
  cbn [bind]. unfold decide.
  rewrite (checkCollision_config pd now _ path areas ids _ ci d1 Hcfg).
  destruct (checkCollision m _ _ _ _ _ _ _ _ _) as [[hc d2]|]; [|reflexivity].
  cbn [bind].
  rewrite (checkStuck_config pd _ path ci sl _ d2 Hcfg).
  destruct (checkStuckVehicleInIntersection m _ _ _ _ _ _ _) as [[st d3]|];
    [|reflexivity].
  cbn [bind].
  rewrite !(isTargetExternalInputStatus_config pd now _ Hcfg).
  destruct m; reflexivity.
Qed.

End CycleReturns.

(** ** The external input in a cycle *)

Section ExternalInput.
Context {MT : MapTypes} {E : Externals}.

(** X9.  An external input that is absent, or whose age is not below the
    timeout (whatever its status), is not acted upon: in a cycle that
    reaches the state machine, STOP is requested exactly when the collision
    check or the stuck check found something, GO otherwise. *)
Theorem stale_external_input_ignored (m : IntersectionModule) (pd : PlannerData)
    (now : Time) (path : PathWithLaneId) (sl pj ci : Z)
    (areas : list CompoundPolygon3d) (ids : list Z) (d1 : DebugData) (c : Cycle) :
  match external_intersection_status_input pd with
  | None => True
  | Some input =>
      dlt (seconds (now - input_stamp input))
          (external_input_timeout (planner_param_ m)) = false
  end ->
  locate m pd now path = Some (Proceed sl pj ci areas ids d1) ->
  modifyPathVelocity m pd now path = Some c ->
  exists has_collision d2 is_stuck d3,
    checkCollision m pd now (lanelet_map pd) path areas ids (dynamic_objects pd) ci d1
      = Some (has_collision, d2) /\
    checkStuckVehicleInIntersection m pd (lanelet_map pd) path ci sl
      (dynamic_objects pd) d2 = Some (is_stuck, d3) /\
    state_machine_ (cycle_module c) =
    setStateWithMarginTime (if has_collision || is_stuck then STOP else GO) now
      (state_machine_ m).
Proof.
  intros Hin HL H. unfold modifyPathVelocity in H. rewrite HL in H. simpl in H.
  destruct (decide_inv _ _ _ _ _ _ _ _ _ _ H)
    as (hc & d2 & st & d3 & Hc & Hs & _ & Hsm & _ & _).
  exists hc, d2, st, d3. split; [exact Hc|]. split; [exact Hs|].
  cbv zeta in Hsm. rewrite Hsm.
  assert (Hoff : forall s, isTargetExternalInputStatus m pd now s = false).
  { intros s. unfold isTargetExternalInputStatus.
    destruct (external_intersection_status_input pd) as [input|]; [|reflexivity].
    rewrite Hin. apply andb_false_r. }
  rewrite !Hoff. reflexivity.
Qed.

(** X10.  The external go input does not bypass the margin time.  A module
    in STOP with nothing pending that gets an active external go input stays
    in STOP in that cycle: the cycle only records the clock reading as the
    pending timestamp, and still writes the stop-line velocity to the
    path. *)
Theorem external_go_waits_for_margin (m : IntersectionModule) (pd : PlannerData)
    (now : Time) (path : PathWithLaneId) (sl pj ci : Z)
    (areas : list CompoundPolygon3d) (ids : list Z) (d1 : DebugData) (c : Cycle) :
  isTargetExternalInputStatus m pd now IntersectionStatus_GO = true ->
  state_ (state_machine_ m) = STOP ->
  start_time_ (state_machine_ m) = None ->
  locate m pd now path = Some (Proceed sl pj ci areas ids d1) ->
  modifyPathVelocity m pd now path = Some c ->
  state_machine_ (cycle_module c) =
    mkStateMachine STOP (margin_time_ (state_machine_ m)) (Some now) /\
  exists is_stuck,
    cycle_path c = setVelocityFrom sl (stop_line_velocity m is_stuck) path.
Proof.
  intros Hgo Hst Hpend HL H. unfold modifyPathVelocity in H. rewrite HL in H.
  simpl in H.
  destruct (decide_inv _ _ _ _ _ _ _ _ _ _ H)
    as (hc & d2 & st & d3 & _ & _ & _ & Hsm & Hp & _).
  cbv zeta in Hsm, Hp. rewrite Hgo in Hsm, Hp. cbn in Hsm, Hp.
  destruct (state_machine_ m) as [s mg stt]. simpl in Hst, Hpend. subst s stt.
  cbn in Hsm, Hp. split; [exact Hsm|]. exists st. exact Hp.
Qed.

(** X11.  An active external stop input is acted upon at once, wherever the
    ego vehicle is relative to the pass-judge line and whatever the state:
    when there is a detection area, the stop line and the pass-judge line
    are placed beyond the path's first point and the closest index is found,
    a cycle that returns ends in STOP with no pending timestamp and has
    written the stop-line velocity to the path. *)
Theorem external_stop_honoured (m : IntersectionModule) (pd : PlannerData)
    (now : Time) (path : PathWithLaneId) (sl pj fi ci : Z) (c : Cycle) :
  let lanelets :=
    getObjectiveLanelets (lanelet_map pd) (routing_graph pd) (lane_id_ m)
      (planner_param_ m) in
  let conflicting_areas :=
    getPolygon3dFromLaneletsVec (fst lanelets)
      (detection_area_length (planner_param_ m)) in
  let detection_areas :=
    getPolygon3dFromLaneletsVec (snd lanelets)
      (detection_area_length (planner_param_ m)) in
  isTargetExternalInputStatus m pd now IntersectionStatus_STOP = true ->
  is_empty detection_areas = false ->
  generateStopLine (lane_id_ m) conflicting_areas pd (planner_param_ m) path
    = Some (sl, pj, fi) ->
  0 < sl -> 0 < pj ->
  calcClosestIndex path (current_pose pd) = Some ci ->
  modifyPathVelocity m pd now path = Some c ->
  returned c = true /\
  state_machine_ (cycle_module c) =
    mkStateMachine STOP (margin_time_ (state_machine_ m)) None /\
  exists is_stuck,
    cycle_path c = setVelocityFrom sl (stop_line_velocity m is_stuck) path.
Proof.
  cbv zeta. intros Hstop Hne Hsl Hsl0 Hpj0 Hci.
  unfold modifyPathVelocity, locate. cbv zeta.
  destruct (getObjectiveLanelets _ _ _ _) as [conflicting detection].
  cbn [fst snd] in *. rewrite Hne, Hsl.
  replace (sl <=? 0) with false by (symmetry; apply Z.leb_gt; assumption).
  replace (pj <=? 0) with false by (symmetry; apply Z.leb_gt; assumption).
  cbn [orb]. rewrite Hci, Hstop.
  intros H. apply bind_Some in H. destruct H as (located & HL & H).
  apply bind_Some in HL. destruct HL as (over & _ & HL).
  cbn [negb] in HL. rewrite andb_false_r in HL. injection HL as <-.
  destruct (decide_inv _ _ _ _ _ _ _ _ _ _ H)
    as (hc & d2 & st & d3 & _ & _ & Hret & Hsm & Hp & _).
  cbv zeta in Hsm, Hp. rewrite Hstop in Hsm, Hp.
  pose proof (isTargetExternalInputStatus_exclusive m pd now) as Hex.
  rewrite Hstop, andb_true_r in Hex. rewrite Hex in Hsm, Hp. cbn in Hsm, Hp.
  assert (Hset : setStateWithMarginTime STOP now (state_machine_ m) =
                 mkStateMachine STOP (margin_time_ (state_machine_ m)) None).
  { destruct (state_machine_ m) as [[|] mg stt]; reflexivity. }
  rewrite Hset in Hsm, Hp. cbn in Hp.
  split; [exact Hret|]. split; [exact Hsm|]. exists st. exact Hp.
Qed.

(** X12.  A detection stops the module in the same cycle: when the
    collision check or the stuck check found something and no external go
    input is active, a cycle that reaches the state machine ends in STOP
    with no pending timestamp, whatever the state was, and has written the
    stop-line velocity to the path.  STOP is not delayed by the margin
    time. *)
Theorem detection_stops_at_once (m : IntersectionModule) (pd : PlannerData)
    (now : Time) (path : PathWithLaneId) (sl pj ci : Z)
    (areas : list CompoundPolygon3d) (ids : list Z) (d1 d2 d3 : DebugData)
    (has_collision is_stuck : bool) (c : Cycle) :
  locate m pd now path = Some (Proceed sl pj ci areas ids d1) ->
  checkCollision m pd now (lanelet_map pd) path areas ids (dynamic_objects pd) ci d1
    = Some (has_collision, d2) ->
  checkStuckVehicleInIntersection m pd (lanelet_map pd) path ci sl
    (dynamic_objects pd) d2 = Some (is_stuck, d3) ->
  has_collision || is_stuck = true ->
  isTargetExternalInputStatus m pd now IntersectionStatus_GO = false ->
  modifyPathVelocity m pd now path = Some c ->
  returned c = true /\
  state_machine_ (cycle_module c) =
    mkStateMachine STOP (margin_time_ (state_machine_ m)) None /\
  cycle_path c = setVelocityFrom sl (stop_line_velocity m is_stuck) path.
Proof.
  intros HL Hc Hs Hdet Hgo H. unfold modifyPathVelocity in H. rewrite HL in H.
  simpl in H.
  destruct (decide_inv _ _ _ _ _ _ _ _ _ _ H)
    as (hc & d2' & st & d3' & Hc' & Hs' & Hret & Hsm & Hp & _).
  rewrite Hc in Hc'. injection Hc' as <- <-.
  rewrite Hs in Hs'. injection Hs' as <- <-.
  cbv zeta in Hsm, Hp. rewrite Hgo in Hsm, Hp.
  assert (Hreq : requested_state
                   (is_entry_prohibited false
                      (isTargetExternalInputStatus m pd now IntersectionStatus_STOP)
                      has_collision is_stuck) = STOP).
  { unfold is_entry_prohibited. rewrite Hdet.
    destruct (isTargetExternalInputStatus m pd now IntersectionStatus_STOP);
      reflexivity. }
  rewrite Hreq in Hsm, Hp.
  assert (Hset : setStateWithMarginTime STOP now (state_machine_ m) =
                 mkStateMachine STOP (margin_time_ (state_machine_ m)) None).
  { destruct (state_machine_ m) as [[|] mg stt]; reflexivity. }
  rewrite Hset in Hsm, Hp. cbn in Hp.
  split; [exact Hret|]. split; [exact Hsm|exact Hp].
Qed.

End ExternalInput.

(** ** The collision check: which objects it looks at and what it records *)

Section CollisionTargets.

Context {MT : MapTypes} {E : Externals}.

(** The parts of [checkCollision]. *)
Lemma checkCollision_inv m pd now map path areas ids objects ci d r :
  checkCollision m pd now map path areas ids objects ci d = Some r ->
  exists ego_poly targets scan time_thr,
    extract_target_objects m pd ego_poly areas ids objects = Some targets /\
    scan_param scan = planner_param_ m /\
    check_target_objects scan (cutPredictPathWithDuration now targets time_thr) false
      (set_ego_lane_polygon ego_poly d) = Some r.
Proof.
  unfold checkCollision. intros H.
  apply bind_Some in H. destruct H as (ego_poly & _ & H).
  apply bind_Some in H. destruct H as (targets & Hex & H).
  apply bind_Some in H. destruct H as (tda & _ & H).
  apply bind_Some in H. destruct H as (last_pair & _ & H).
  apply bind_Some in H. destruct H as (lanes & _ & H).
  apply bind_Some in H. destruct H as (p & _ & H).
  apply bind_Some in H. destruct H as (dist & _ & H).
  eexists ego_poly, targets, _, _. split; [exact Hex|]. split; [|exact H].
  reflexivity.
Qed.

(** X13.  The first loop of the collision check judges every object on its
    own: the target objects are the objects of a target class that lie
    outside the ego lane polygon and are kept by a detection area, in the
    order of the input; the loop throws exactly when the lookup of a
    lanelet throws for one of the objects. *)
Theorem target_objects_selected (m : IntersectionModule) (pd : PlannerData)
    (ego_poly : Polygon2d) (detection_areas : list CompoundPolygon3d)
    (detection_area_lanelet_ids : list Z) (objects : list DynamicObject) :
  let judged := is_collision_target m pd ego_poly detection_areas
                  detection_area_lanelet_ids in
  extract_target_objects m pd ego_poly detection_areas detection_area_lanelet_ids
    objects =
  if existsb (fun o => is_None (judged o)) objects then None
  else Some (filter (fun o => is_Some_true (judged o)) objects).
Proof.
  cbv zeta. induction objects as [|o objects IH]; [reflexivity|].
  cbn [extract_target_objects existsb filter]. rewrite IH. clear IH.
  set (rest_fails := existsb _ objects). set (rest := filter _ objects).
  unfold is_collision_target.
  destruct (isTargetCollisionVehicleType o); cbn [negb andb]; [|reflexivity].
  destruct (bg_within _ _); cbn [negb]; [reflexivity|].
  destruct (in_detection_area m pd o _ _) as [[|]|];
    cbn [bind is_None is_Some_true orb]; try reflexivity;
    destruct rest_fails; reflexivity.
Qed.

Lemma extract_target_objects_filter m pd ego areas ids objects :
  extract_target_objects m pd ego areas ids objects =
  extract_target_objects m pd ego areas ids
    (filter isTargetCollisionVehicleType objects).
Proof.
  induction objects as [|o objects IH]; [reflexivity|].
  cbn [extract_target_objects filter].
  destruct (isTargetCollisionVehicleType o) eqn:Ht; cbn [negb]; [|exact IH].
  cbn [extract_target_objects]. rewrite Ht, IH. reflexivity.
Qed.

(** X14.  Objects that are not a CAR, BUS, TRUCK, MOTORBIKE or BICYCLE
    (pedestrians, animals, unknown objects) do not exist for the collision
    check: it returns the same flag and leaves the same debug data, or
    throws alike, when they are removed from the objects. *)
Theorem collision_check_ignores_non_vehicles (m : IntersectionModule)
    (pd : PlannerData) (now : Time) (lanelet_map_ptr : LaneletMap)
    (path : PathWithLaneId) (detection_areas : list CompoundPolygon3d)
    (detection_area_lanelet_ids : list Z) (objects : list DynamicObject)
    (closest_idx : Z) (d : DebugData) :
  checkCollision m pd now lanelet_map_ptr path detection_areas
    detection_area_lanelet_ids objects closest_idx d =
  checkCollision m pd now lanelet_map_ptr path detection_areas
    detection_area_lanelet_ids (filter isTargetCollisionVehicleType objects)
    closest_idx d.
Proof.
  unfold checkCollision.
  destruct (generateEgoIntersectionLanePolygon _ _ _ _ _ _ _); [|reflexivity].
  cbn [bind]. rewrite extract_target_objects_filter. reflexivity.
Qed.

Lemma extract_target_objects_incl m pd ego areas ids objects targets :
  extract_target_objects m pd ego areas ids objects = Some targets ->
  forall o, In o targets -> In o objects /\ isTargetCollisionVehicleType o = true.
Proof.
  revert targets. induction objects as [|o objects IH]; intros targets.
  - simpl. intros H; injection H as <-. intros o [].
  - cbn [extract_target_objects].
    destruct (isTargetCollisionVehicleType o) eqn:Ht; cbn [negb].
    2: { intros H o' Hin. destruct (IH _ H _ Hin). split; [right|]; assumption. }
    destruct (bg_within _ _).
    { intros H o' Hin. destruct (IH _ H _ Hin). split; [right|]; assumption. }
    intros H. apply bind_Some in H. destruct H as (keep & _ & H).
    apply bind_Some in H. destruct H as (tl & Htl & H).
    injection H as <-. intros o' Hin.
    destruct keep.
    + destruct Hin as [<-|Hin]; [split; [left; reflexivity|exact Ht]|].
      destruct (IH _ Htl _ Hin). split; [right|]; assumption.
    + destruct (IH _ Htl _ Hin). split; [right|]; assumption.
Qed.

(** The scan of the footprints never lowers the flag. *)
Lemma scan_footprints_flag polygon object poses n cd cands cd' cands' :
  scan_footprints polygon object poses n cd cands = Some (cd', cands') ->
  cd = true -> cd' = true.
Proof.
  revert n cands. induction poses as [|p poses IH]; intros n cands.
  - destruct n as [[|n]|]; simpl; try discriminate.
    intros H; injection H as <- _. auto.
  - destruct n as [[|n]|]; cbn [scan_footprints].
    + intros H; injection H as <- _. auto.
    + destruct (bg_intersects _ _).
      * intros H; injection H as <- _. auto.
      * apply IH.
    + destruct (bg_intersects _ _).
      * intros H; injection H as <- _. auto.
      * apply IH.
Qed.

(** One object: either nothing is recorded and the flag is as before, or the
    object is recorded and the flag is set. *)
Lemma check_predicted_paths_targets (c : CollisionScan) (object : DynamicObject) :
  forall paths cd d cd' d',
    check_predicted_paths c object paths cd d = Some (cd', d') ->
    (conflicting_targets d' = conflicting_targets d /\ cd' = cd) \/
    (conflicting_targets d' = conflicting_targets d ++ [object] /\ cd' = true).
Proof.
  induction paths as [|p paths IH]; intros cd d cd' d'.
  - simpl. intros H; injection H as <- <-. left. split; reflexivity.
  - cbn [check_predicted_paths]. cbv zeta.
    destruct (dlt (confidence p) _); [apply IH|].
    destruct (bg_intersects_linestring _ _); [|apply IH].
    intros H.
    apply bind_Some in H. destruct H as (first_pose & _ & H).
    apply bind_Some in H. destruct H as (front_pose & _ & H).
    destruct (if dgt _ 0 then _ else _) as [start|]; [|exact (IH _ _ _ _ H)].
    apply bind_Some in H. destruct H as (last_pose & _ & H).
    apply bind_Some in H. destruct H as (start_td & _ & H).
    apply bind_Some in H. destruct H as (end_td & _ & H).
    apply bind_Some in H. destruct H as (front & _ & H).
    apply bind_Some in H. destruct H as ([cd1 cands] & Hscan & H).
    destruct cd1.
    + injection H as <- <-. right. split; reflexivity.
    + assert (Hcd : cd = false).
      { destruct cd; [|reflexivity].
        pose proof (scan_footprints_flag _ _ _ _ _ Hscan eq_refl). discriminate. }
      subst cd. destruct (IH _ _ _ _ H) as [[Ht Hf]|[Ht Hf]]; [left|right];
        (split; [rewrite Ht; reflexivity|exact Hf]).
Qed.

Lemma check_target_objects_targets (c : CollisionScan) :
  forall objects cd d cd' d',
    check_target_objects c objects cd d = Some (cd', d') ->
    exists recorded,
      conflicting_targets d' = conflicting_targets d ++ recorded /\
      cd' = cd || negb (is_empty recorded) /\
      incl recorded objects.
Proof.
  induction objects as [|o objects IH]; intros cd d cd' d'.
  - simpl. intros H; injection H as <- <-. exists [].
    rewrite app_nil_r, orb_false_r. repeat split. intros x [].
  - cbn [check_target_objects]. intros H.
    apply bind_Some in H. destruct H as ([cd1 d1] & Hp & H).
    destruct (IH _ _ _ _ H) as (rec & Ht & Hf & Hin).
    destruct (check_predicted_paths_targets _ _ _ _ _ Hp) as [[Ht1 Hf1]|[Ht1 Hf1]].
    + exists rec. rewrite Ht, Ht1, Hf, Hf1. repeat split.
      intros x Hx. right. apply Hin, Hx.
    + exists (o :: rec). rewrite Ht, Ht1, Hf, Hf1, <- app_assoc. cbn.
      rewrite orb_true_r. repeat split.
      intros x [<-|Hx]; [left; reflexivity|right; apply Hin, Hx].
Qed.

(** An object with its predicted paths cut is the object otherwise. *)
Lemma cutPredictPathWithDuration_object now objects thr o :
  In o (cutPredictPathWithDuration now objects thr) ->
  exists o0, In o0 objects /\ object_id o = object_id o0 /\
             semantic_type o = semantic_type o0 /\ shape o = shape o0 /\
             pose_covariance_pose (state o) = pose_covariance_pose (state o0) /\
             twist_linear_x (state o) = twist_linear_x (state o0).
Proof.
  unfold cutPredictPathWithDuration. intros Ho.
  apply in_map_iff in Ho. destruct Ho as (o0 & <- & Ho0).
  exists o0. repeat split. exact Ho0.
Qed.

(** X15.  The collision check returns true exactly when it has recorded a
    conflicting target in this call.  It only appends to the conflicting
    targets; each object it appends is one of the given objects, of a target
    class, with its predicted paths cut; the stuck targets and the stop flag
    of the debug data are left as they were. *)
Theorem collision_flag_and_targets (m : IntersectionModule) (pd : PlannerData)
    (now : Time) (lanelet_map_ptr : LaneletMap) (path : PathWithLaneId)
    (detection_areas : list CompoundPolygon3d) (detection_area_lanelet_ids : list Z)
    (objects : list DynamicObject) (closest_idx : Z) (d d' : DebugData)
    (has_collision : bool) :
  checkCollision m pd now lanelet_map_ptr path detection_areas
    detection_area_lanelet_ids objects closest_idx d = Some (has_collision, d') ->
  exists recorded,
    conflicting_targets d' = conflicting_targets d ++ recorded /\
    has_collision = negb (is_empty recorded) /\
    (forall o, In o recorded ->
       exists o0, In o0 objects /\ isTargetCollisionVehicleType o0 = true /\
                  object_id o = object_id o0 /\
                  semantic_type o = semantic_type o0 /\ shape o = shape o0 /\
                  pose_covariance_pose (state o) = pose_covariance_pose (state o0)) /\
    stuck_targets d' = stuck_targets d /\ stop_required d' = stop_required d.
Proof.
  intros H.
  assert (Hf1 := checkCollision_frame stuck_targets _ _ _ _ _ _ _ _ _ _
                   (fun _ _ => eq_refl) (fun _ _ => eq_refl) (fun _ _ => eq_refl)
                   (fun _ _ => eq_refl) H).
  assert (Hf2 := checkCollision_frame stop_required _ _ _ _ _ _ _ _ _ _
                   (fun _ _ => eq_refl) (fun _ _ => eq_refl) (fun _ _ => eq_refl)
                   (fun _ _ => eq_refl) H).
  destruct (checkCollision_inv _ _ _ _ _ _ _ _ _ _ H)
    as (ego_poly & targets & scan & thr & Hex & _ & Hscan).
  destruct (check_target_objects_targets _ _ _ _ Hscan) as (rec & Ht & Hf & Hin).
  exists rec. split; [exact Ht|]. split; [exact Hf|]. split; [|split; assumption].
  intros o Ho. apply Hin in Ho.
  destruct (cutPredictPathWithDuration_object _ _ _ _ Ho)
    as (o0 & Ho0 & Hid & Hty & Hsh & Hpose & _).
  destruct (extract_target_objects_incl _ _ _ _ _ _ Hex _ Ho0) as [Hobj Htarget].
  exists o0. repeat split; assumption.
Qed.

(** The loops over the predicted paths and over the objects when every
    predicted path is below the confidence threshold. *)
Lemma check_predicted_paths_low_confidence (c : CollisionScan)
    (object : DynamicObject) (paths : list PredictedPath) (cd : bool) (d : DebugData) :
  forallb (fun p => dlt (confidence p) (min_predicted_path_confidence (scan_param c)))
    paths = true ->
  check_predicted_paths c object paths cd d = Some (cd, d).
Proof.
  induction paths as [|p paths IH]; [reflexivity|].
  cbn [forallb check_predicted_paths]. cbv zeta. intros H.
  apply andb_prop in H. destruct H as [-> H]. apply IH, H.
Qed.

Lemma check_target_objects_low_confidence (c : CollisionScan)
    (objects : list DynamicObject) (cd : bool) (d : DebugData) :
  forallb (all_paths_below (min_predicted_path_confidence (scan_param c))) objects
    = true ->
  check_target_objects c objects cd d = Some (cd, d).
Proof.
  induction objects as [|o objects IH]; [reflexivity|].
  cbn [forallb check_target_objects]. intros H.
  apply andb_prop in H. destruct H as [Ho H].
  rewrite (check_predicted_paths_low_confidence c o _ cd d Ho). cbn [bind].
  apply IH, H.
Qed.

Lemma cut_all_paths_below now objects thr conf :
  forallb (all_paths_below conf) objects = true ->
  forallb (all_paths_below conf) (cutPredictPathWithDuration now objects thr) = true.
Proof.
  unfold cutPredictPathWithDuration. rewrite !forallb_forall.
  intros H o Ho. apply in_map_iff in Ho. destruct Ho as (o0 & <- & Ho0).
  specialize (H _ Ho0). unfold all_paths_below in *. cbn.
  rewrite forallb_forall in *. intros p Hp.
  apply in_map_iff in Hp. destruct Hp as (p0 & <- & Hp0). cbn. apply H, Hp0.
Qed.

(** X16.  Predicted paths whose confidence is below
    [min_predicted_path_confidence] are not looked at: when all predicted
    paths of all objects are below it, the collision check returns false,
    records no conflicting target and no candidate polygon, wherever the
    paths lead. *)
Theorem low_confidence_paths_never_flagged (m : IntersectionModule) (pd : PlannerData)
    (now : Time) (lanelet_map_ptr : LaneletMap) (path : PathWithLaneId)
    (detection_areas : list CompoundPolygon3d) (detection_area_lanelet_ids : list Z)
    (objects : list DynamicObject) (closest_idx : Z) (d d' : DebugData)
    (has_collision : bool) :
  forallb (all_paths_below (min_predicted_path_confidence (planner_param_ m)))
    objects = true ->
  checkCollision m pd now lanelet_map_ptr path detection_areas
    detection_area_lanelet_ids objects closest_idx d = Some (has_collision, d') ->
  has_collision = false /\
  conflicting_targets d' = conflicting_targets d /\
  candidate_collision_object_polygons d' = candidate_collision_object_polygons d.
Proof.
  intros Hlow H.
  destruct (checkCollision_inv _ _ _ _ _ _ _ _ _ _ H)
    as (ego_poly & targets & scan & thr & Hex & Hparam & Hscan).
  rewrite check_target_objects_low_confidence in Hscan.
  - injection Hscan as <- <-. repeat split.
  - rewrite Hparam. apply cut_all_paths_below.
    rewrite forallb_forall in *. intros o Ho.
    apply Hlow. apply (extract_target_objects_incl _ _ _ _ _ _ Hex _ Ho).
Qed.

(** The loop of the stuck check as a search for the first candidate. *)
Lemma find_stuck_vehicle_find param area objects d :
  find_stuck_vehicle param area objects d =
  match find (is_stuck_candidate param area) objects with
  | Some object => (true, set_stuck_targets (stuck_targets d ++ [object]) d)
  | None => (false, d)
  end.
Proof.
  induction objects as [|o objects IH]; [reflexivity|].
  cbn [find_stuck_vehicle find]. unfold is_stuck_candidate at 1.
  destruct (isTargetStuckVehicleType o); cbn [negb andb]; [|exact IH].
  destruct (dgt _ _); cbn [negb andb]; [exact IH|].
  destruct (bg_disjoint _ _); cbn [negb]; [exact IH|reflexivity].
Qed.

(** X17.  Objects that are not vehicles never stop the module.  In a cycle
    in which no object is of a collision-target class and no external stop
    input is active, the state machine is either left alone or asked for GO;
    a module that was in GO stays in GO and its path is not touched. *)
Theorem no_vehicle_no_stop (m : IntersectionModule) (pd : PlannerData)
    (now : Time) (path : PathWithLaneId) (c : Cycle) :
  forallb (fun o => negb (isTargetCollisionVehicleType o)) (dynamic_objects pd) = true ->
  isTargetExternalInputStatus m pd now IntersectionStatus_STOP = false ->
  modifyPathVelocity m pd now path = Some c ->
  (state_machine_ (cycle_module c) = state_machine_ m \/
   state_machine_ (cycle_module c) =
     setStateWithMarginTime GO now (state_machine_ m)) /\
  (state_ (state_machine_ m) = GO ->
   state_ (state_machine_ (cycle_module c)) = GO /\ cycle_path c = path).
Proof.
  intros Hnone Hstop H. unfold modifyPathVelocity in H.
  apply bind_Some in H. destruct H as ([c'|sl pj ci areas ids d1] & HL & H).
  - injection H as ->.
    destruct (locate_Return _ _ _ _ HL) as (Hp & _ & d & -> & _).
    split; [left; reflexivity|]. intros Hgo. split; assumption.
  - destruct (decide_inv _ _ _ _ _ _ _ _ _ _ H)
      as (hc & d2 & st & d3 & Hc & Hs & _ & Hsm & Hp & _).
    cbv zeta in Hsm, Hp. rewrite forallb_forall in Hnone.
    assert (Hhc : hc = false).
    { destruct (checkCollision_inv _ _ _ _ _ _ _ _ _ _ Hc)
        as (ego_poly & targets & scan & thr & Hex & _ & Hscan).
      destruct (check_target_objects_targets _ _ _ _ Hscan) as (rec & _ & Hf & Hin).
      destruct rec as [|o rec]; [exact Hf|]. exfalso.
      destruct (cutPredictPathWithDuration_object _ _ _ _ (Hin o (or_introl eq_refl)))
        as (o0 & Ho0 & _).
      destruct (extract_target_objects_incl _ _ _ _ _ _ Hex _ Ho0) as [Hobj Hty].
      specialize (Hnone _ Hobj). rewrite Hty in Hnone. discriminate. }
    assert (Hst : st = false).
    { unfold checkStuckVehicleInIntersection in Hs.
      apply bind_Some in Hs. destruct Hs as (area & _ & Hs).
      rewrite find_stuck_vehicle_find in Hs.
      destruct (find _ _) as [o|] eqn:Hfind; [|injection Hs as <- _; reflexivity].
      exfalso. apply find_some in Hfind. destruct Hfind as [Hobj Hcand].
      specialize (Hnone _ Hobj). unfold is_stuck_candidate in Hcand.
      unfold isTargetCollisionVehicleType in Hnone.
      unfold isTargetStuckVehicleType in Hcand.
      destruct (semantic_type o); discriminate. }
    subst hc st. rewrite Hstop in Hsm, Hp.
    assert (Hreq : requested_state
                     (is_entry_prohibited
                        (isTargetExternalInputStatus m pd now IntersectionStatus_GO)
                        false false false) = GO)
      by (destruct (isTargetExternalInputStatus m pd now IntersectionStatus_GO);
          reflexivity).
    rewrite Hreq in Hsm, Hp.
    split; [right; exact Hsm|]. intros Hgo. rewrite Hsm.
    destruct (state_machine_ m) as [s mg stt]. simpl in Hgo. subst s.
    split; [reflexivity|exact Hp].
Qed.

End CollisionTargets.

(** ** Cutting the predicted paths *)

Lemma filter_filter {A : Type} (f g : A -> bool) (l : list A) :
  filter f (filter g l) = filter (fun a => g a && f a) l.
Proof.
  induction l as [|a l IH]; [reflexivity|]. cbn [filter].
  destruct (g a); cbn [filter andb]; rewrite IH; reflexivity.
Qed.

(** Two cuts in a row keep the poses that pass both tests. *)
Lemma cut_cut (now1 now2 : Time) (thr1 thr2 : double) (objects : list DynamicObject) :
  cutPredictPathWithDuration now2 (cutPredictPathWithDuration now1 objects thr1) thr2 =
  map (fun object =>
    mkDynamicObject (object_id object) (semantic_type object)
      (mkObjectState
         (pose_covariance_pose (state object))
         (orientation_reliable (state object))
         (twist_linear_x (state object))
         (map (fun predicted_path =>
                 mkPredictedPath
                   (filter (fun p => before now1 thr1 p && before now2 thr2 p)
                           (predicted_poses predicted_path))
                   (confidence predicted_path))
              (predicted_paths (state object))))
      (shape object))
    objects.
Proof.
  unfold cutPredictPathWithDuration. rewrite map_map. apply map_ext.
  intros o. cbn. rewrite map_map. f_equal. f_equal. apply map_ext.
  intros p. cbn. rewrite filter_filter. reflexivity.
Qed.

(** X18.  Cutting the predicted paths is idempotent, and two cuts, at
    whatever clock readings and thresholds, give the same objects in either
    order: each pose is kept or dropped by its own stamp alone. *)
Theorem cutPredictPathWithDuration_idempotent (now now' : Time) (thr thr' : double)
    (objects : list DynamicObject) :
  cutPredictPathWithDuration now (cutPredictPathWithDuration now objects thr) thr =
  cutPredictPathWithDuration now objects thr /\
  cutPredictPathWithDuration now' (cutPredictPathWithDuration now objects thr) thr' =
  cutPredictPathWithDuration now (cutPredictPathWithDuration now' objects thr') thr.
Proof.
  split.
  - rewrite cut_cut. unfold cutPredictPathWithDuration. apply map_ext.
    intros o. do 2 f_equal. apply map_ext. intros p. f_equal.
    apply filter_ext. intros q. unfold before. destruct (dlt _ _); reflexivity.
  - rewrite !cut_cut. apply map_ext.
    intros o. do 2 f_equal. apply map_ext. intros p. f_equal.
    apply filter_ext. intros q. apply andb_comm.
Qed.

(** ** The ego lane and the lane after it *)

Section EgoLane.

Context {MT : MapTypes} {E : Externals}.

Lemma find_if_front_lane_none lane_id points :
  forallb has_front_lane points = true ->
  existsb (front_lane_is lane_id) points = false ->
  find_if_front_lane lane_id points = Some (List.length points).
Proof.
  induction points as [|p points IH]; [reflexivity|].
  cbn [forallb existsb find_if_front_lane List.length]. intros Hf Hn.
  apply andb_prop in Hf. destruct Hf as [Hp Hf].
  apply orb_false_elim in Hn. destruct Hn as [Hq Hn].
  unfold has_front_lane in Hp. unfold front_lane_is in Hq.
  destruct (lane_ids p) as [|front ids]; [discriminate|]. cbn.
  rewrite Hq, (IH Hf Hn). reflexivity.
Qed.

Lemma find_if_front_lane_first lane_id points p rest :
  forallb has_front_lane points = true ->
  existsb (front_lane_is lane_id) points = false ->
  front_lane_is lane_id p = true ->
  find_if_front_lane lane_id (points ++ p :: rest) = Some (List.length points).
Proof.
  intros Hf Hn Hp. induction points as [|q points IH].
  - cbn. unfold front_lane_is in Hp.
    destruct (lane_ids p) as [|front ids]; [discriminate|]. cbn. rewrite Hp.
    reflexivity.
  - cbn [forallb existsb] in Hf, Hn.
    apply andb_prop in Hf. destruct Hf as [Hq Hf].
    apply orb_false_elim in Hn. destruct Hn as [Hq' Hn].
    cbn [app find_if_front_lane List.length].
    unfold has_front_lane in Hq. unfold front_lane_is in Hq'.
    destruct (lane_ids q) as [|front ids]; [discriminate|]. cbn.
    rewrite Hq', (IH Hf Hn). reflexivity.
Qed.

Lemma forallb_rev {A : Type} (f : A -> bool) (l : list A) :
  forallb f (rev l) = forallb f l.
Proof.
  induction l as [|a l IH]; [reflexivity|]. cbn.
  rewrite forallb_app, IH. cbn. rewrite andb_true_r. apply andb_comm.
Qed.

Lemma existsb_rev {A : Type} (f : A -> bool) (l : list A) :
  existsb f (rev l) = existsb f l.
Proof.
  induction l as [|a l IH]; [reflexivity|]. cbn.
  rewrite existsb_app, IH. cbn. rewrite orb_false_r. apply orb_comm.
Qed.

(** X19.  When [p] is the last path point whose first lane id is the lane
    of the module and the point [q] follows it, the result is the assigned
    lanelet followed by the lanelet of the first lane id of [q]; when [p] is
    the last point of the path, the result is the assigned lanelet alone.
    The points before [p] are not looked at. *)
Theorem next_lane_follows_last_tagged_point (m : IntersectionModule)
    (lanelet_map_ptr : LaneletMap) (pre post : list PathPointWithLaneId)
    (p q : PathPointWithLaneId) (next_id : Z) (assigned_lanelet next_lanelet : Lanelet) :
  front_lane_is (lane_id_ m) p = true ->
  hd_error (lane_ids q) = Some next_id ->
  forallb has_front_lane post = true ->
  existsb (front_lane_is (lane_id_ m)) (q :: post) = false ->
  laneletLayer_get lanelet_map_ptr (lane_id_ m) = Some assigned_lanelet ->
  laneletLayer_get lanelet_map_ptr next_id = Some next_lanelet ->
  getEgoLaneWithNextLane m lanelet_map_ptr (pre ++ p :: q :: post) =
    Some [assigned_lanelet; next_lanelet] /\
  getEgoLaneWithNextLane m lanelet_map_ptr (pre ++ [p]) = Some [assigned_lanelet].
Proof.
  intros Hp Hq Hpost Hnone Ha Hn. split.
  - unfold getEgoLaneWithNextLane. rewrite Ha. cbn [bind].
    replace (rev (pre ++ p :: q :: post)) with (rev (q :: post) ++ p :: rev pre).
    2: { rewrite rev_app_distr. cbn. rewrite <- !app_assoc. reflexivity. }
    rewrite find_if_front_lane_first.
    + cbn [bind]. rewrite length_rev, length_app. cbn [List.length].
      replace (List.length pre + S (S (List.length post)) - S (List.length post))%nat
        with (S (List.length pre)) by lia.
      replace (S (List.length pre) =? List.length pre + S (S (List.length post)))%nat
        with false by (symmetry; apply Nat.eqb_neq; lia).
      cbn [negb].
      replace (pre ++ p :: q :: post) with ((pre ++ [p]) ++ q :: post)
        by (rewrite <- app_assoc; reflexivity).
      rewrite nth_error_app2 by (rewrite length_app; cbn [List.length]; lia).
      replace (S (List.length pre) - List.length (pre ++ [p]))%nat with 0%nat
        by (rewrite length_app; cbn [List.length]; lia).
      cbn [nth_error bind]. rewrite Hq. cbn [bind]. rewrite Hn. reflexivity.
    + rewrite forallb_rev. cbn [forallb]. rewrite Hpost, andb_true_r.
      unfold has_front_lane. destruct (lane_ids q); [discriminate|reflexivity].
    + rewrite existsb_rev. exact Hnone.
    + exact Hp.
  - unfold getEgoLaneWithNextLane. rewrite Ha. cbn [bind].
    rewrite rev_app_distr. cbn [rev app].
    pose proof (find_if_front_lane_first (lane_id_ m) [] p (rev pre)
                  eq_refl eq_refl Hp) as Hfirst.
    cbn [app List.length] in Hfirst. rewrite Hfirst.
    cbn [bind List.length]. rewrite Nat.sub_0_r, Nat.eqb_refl. reflexivity.
Qed.

(** X20.  When no point of a non-empty path has the lane of the module as
    its first lane id, the reverse search ends at the beginning of the path,
    which is not its end: the result is the assigned lanelet followed by the
    lanelet of the first point of the path. *)
Theorem next_lane_without_tagged_point (m : IntersectionModule)
    (lanelet_map_ptr : LaneletMap) (p0 : PathPointWithLaneId)
    (rest : list PathPointWithLaneId) (first_id : Z)
    (assigned_lanelet first_lanelet : Lanelet) :
  hd_error (lane_ids p0) = Some first_id ->
  forallb has_front_lane rest = true ->
  existsb (front_lane_is (lane_id_ m)) (p0 :: rest) = false ->
  laneletLayer_get lanelet_map_ptr (lane_id_ m) = Some assigned_lanelet ->
  laneletLayer_get lanelet_map_ptr first_id = Some first_lanelet ->
  getEgoLaneWithNextLane m lanelet_map_ptr (p0 :: rest) =
    Some [assigned_lanelet; first_lanelet].
Proof.
  intros H0 Hrest Hnone Ha Hf.
  unfold getEgoLaneWithNextLane. rewrite Ha. cbn [bind].
  rewrite find_if_front_lane_none.
  - cbn [bind]. rewrite length_rev, Nat.sub_diag.
    cbn [List.length Nat.eqb negb nth_error bind].
    rewrite H0. cbn [bind]. rewrite Hf. reflexivity.
  - rewrite forallb_rev. cbn [forallb]. rewrite Hrest, andb_true_r.
    unfold has_front_lane. destruct (lane_ids p0); [discriminate|reflexivity].
  - rewrite existsb_rev. exact Hnone.
Qed.

End EgoLane.

(** ** When the passing time throws, and the first stuck vehicle *)

Section Bounds.

Context {MT : MapTypes} {E : Externals}.

(** Entered at an index of at least 1, the loop of
    [calcIntersectionPassingTime] stays within the path. *)
Lemma passing_loop_returns (param : PlannerParam) (lane : Z) (path : PathWithLaneId) :
  forall fuel i s, (1 <= i)%nat ->
    exists s', passing_loop fuel param lane path i s = Some s'.
Proof.
  induction fuel as [|fuel IH]; intros i s Hi; [eexists; reflexivity|].
  cbn [passing_loop].
  destruct (i <? List.length path)%nat eqn:Hlt; [|eexists; reflexivity].
  apply Nat.ltb_lt in Hlt.
  assert (Hprev : exists prev, at_ path (Z.of_nat i - 1) = Some prev).
  { unfold at_. replace (Z.of_nat i - 1 <? 0) with false
      by (symmetry; apply Z.ltb_ge; lia).
    destruct (nth_error path (Z.to_nat (Z.of_nat i - 1))) eqn:Hn; [eauto|].
    apply nth_error_None in Hn. lia. }
  assert (Hcur : exists cur, at_ path (Z.of_nat i) = Some cur).
  { unfold at_. replace (Z.of_nat i <? 0) with false
      by (symmetry; apply Z.ltb_ge; lia).
    destruct (nth_error path (Z.to_nat (Z.of_nat i))) eqn:Hn; [eauto|].
    apply nth_error_None in Hn. lia. }
  destruct Hprev as (prev & ->), Hcur as (cur & ->). cbn [bind].
  destruct (passing_body param lane prev cur s) as [s1 [|]]; [eexists; reflexivity|].
  apply IH. lia.
Qed.

(** X21.  [calcIntersectionPassingTime] throws for exactly one input: the
    closest index -1 on a non-empty path, where the loop starts at index 0
    and reads the point before it.  For every other closest index (an [int]
    whose successor does not overflow), negative or past the end of the path
    included, it returns a profile. *)
Theorem calcIntersectionPassingTime_throws (m : IntersectionModule) (pd : PlannerData)
    (path : PathWithLaneId) (closest_idx objective_lane_id : Z) :
  -2147483648 <= closest_idx < 2147483647 ->
  calcIntersectionPassingTime m pd path closest_idx objective_lane_id = None <->
  closest_idx = -1 /\ path <> [].
Proof.
  intros _. unfold calcIntersectionPassingTime. cbv zeta. split.
  - destruct (closest_idx + 1 <? 0) eqn:Hneg.
    { cbn. discriminate. }
    apply Z.ltb_ge in Hneg.
    destruct (Z.eq_dec closest_idx (-1)) as [->|Hne].
    + intros H. split; [reflexivity|]. intros ->. cbn in H. discriminate.
    + destruct (@passing_loop_returns (planner_param_ m) objective_lane_id path
                  (List.length path) (Z.to_nat (closest_idx + 1))
                  (mkPassingLoop
                     (std_max 0x1.999999999999ap-4 (fabs (current_velocity pd)))
                     0 0 [(0, 0)%float] false)) as (s' & ->); [lia|].
      cbn [bind]. destruct (negb _); discriminate.
  - intros [-> Hne]. cbn. destruct path as [|p path]; [congruence|]. reflexivity.
Qed.

(** X22.  The stuck check returns true exactly when one of the objects is a
    CAR, BUS, TRUCK or MOTORBIKE whose speed is not above the threshold and
    whose footprint is not disjoint from the stuck-detection area; it
    records the first such object of the list and no other, and it always
    records the detection area. *)
Theorem first_stuck_vehicle_recorded (m : IntersectionModule) (pd : PlannerData)
    (lanelet_map_ptr : LaneletMap) (path : PathWithLaneId) (closest_idx stop_idx : Z)
    (objects : list DynamicObject) (d : DebugData) (area : Polygon2d) :
  generateEgoIntersectionLanePolygon m lanelet_map_ptr path closest_idx stop_idx
    (stuck_vehicle_detect_dist (planner_param_ m) + vehicle_length_m pd)%float
    (stuck_vehicle_ignore_dist (planner_param_ m)) = Some area ->
  checkStuckVehicleInIntersection m pd lanelet_map_ptr path closest_idx stop_idx
    objects d =
  let d1 := set_stuck_vehicle_detect_area area d in
  Some match find (is_stuck_candidate (planner_param_ m) area) objects with
       | Some object => (true, set_stuck_targets (stuck_targets d ++ [object]) d1)
       | None => (false, d1)
       end.
Proof.
  intros H. unfold checkStuckVehicleInIntersection. cbv zeta. rewrite H.
  cbn [bind]. rewrite find_stuck_vehicle_find. reflexivity.
Qed.

End Bounds.

(** ** The multiple vehicle tracker *)

Section TrackedObjects.

Context {M : Tracking.Messages} {T : Tracking.Trackers}.

(** X23.  [getTrackedObject] always returns true, with the id of the object
    set to the UUID of the tracker and its classification to that of the
    tracker.  For a label that is neither CAR, BUS nor TRUCK neither of the
    two trackers is asked, and the rest of the object is what the caller
    passed in; for CAR it is what the normal vehicle tracker wrote, for BUS
    and TRUCK (unless they equal CAR) what the big vehicle tracker wrote. *)
Theorem getTrackedObject_identity (t : Tracking.MultipleVehicleTracker) (time : Time)
    (object : Tracking.TrackedObject) :
  let r := Tracking.getTrackedObject t time object in
  let label := Tracking.getHighestProbLabel (Tracking.tracker t) in
  fst r = true /\
  Tracking.object_id (snd r) = Tracking.getUUID (Tracking.tracker t) /\
  Tracking.classification (snd r) = Tracking.getClassification (Tracking.tracker t) /\
  (label <> Tracking.Label_CAR -> label <> Tracking.Label_BUS ->
   label <> Tracking.Label_TRUCK ->
   Tracking.body (snd r) = Tracking.body object) /\
  (label = Tracking.Label_CAR ->
   Tracking.body (snd r) =
   Tracking.body
     (snd (Tracking.NormalVehicleTracker_getTrackedObject
             (Tracking.normal_vehicle_tracker_ t) time object))) /\
  (label <> Tracking.Label_CAR ->
   label = Tracking.Label_BUS \/ label = Tracking.Label_TRUCK ->
   Tracking.body (snd r) =
   Tracking.body
     (snd (Tracking.BigVehicleTracker_getTrackedObject
             (Tracking.big_vehicle_tracker_ t) time object))).
Proof.
  cbv zeta. unfold Tracking.getTrackedObject. cbn [fst snd].
  repeat split.
  - intros Hc Hb Ht. cbn.
    apply Z.eqb_neq in Hc, Hb, Ht. rewrite Hc, Hb, Ht. reflexivity.
  - intros ->. cbn. rewrite Z.eqb_refl. reflexivity.
  - intros Hc Hbt. cbn. apply Z.eqb_neq in Hc. rewrite Hc.
    destruct Hbt as [->| ->]; rewrite Z.eqb_refl, ?orb_true_r; reflexivity.
Qed.

Lemma perform_all_from (t : Tracking.MultipleVehicleTracker) (results : list bool)
    (ops : list Tracking.Operation) :
  fold_left (fun acc op =>
               let '(results, t) := acc in
               let '(result, t') := Tracking.perform t op in
               (results ++ [result], t'))
    ops (results, t) =
  (results ++ map (fun _ => true) ops,
   fold_left (fun t op => snd (Tracking.perform t op)) ops t).
Proof.
  revert t results. induction ops as [|op ops IH]; intros t results.
  - cbn. rewrite app_nil_r. reflexivity.
  - cbn [fold_left map].
    destruct op as [time|object time]; cbn [Tracking.perform];
      unfold Tracking.predict, Tracking.measure; cbn [snd];
      rewrite IH, <- app_assoc; reflexivity.
Qed.

Lemma performed_base (t : Tracking.MultipleVehicleTracker)
    (ops : list Tracking.Operation) :
  Tracking.tracker (fold_left (fun t op => snd (Tracking.perform t op)) ops t) =
  fold_left (fun base object =>
               Tracking.setClassification (Tracking.detected_classification object)
                 base)
    (Tracking.measured ops) (Tracking.tracker t).
Proof.
  revert t. induction ops as [|op ops IH]; intros t; [reflexivity|].
  cbn [fold_left Tracking.measured flat_map]. rewrite IH.
  destruct op as [time|object time]; cbn [Tracking.perform app];
    unfold Tracking.predict, Tracking.measure; reflexivity.
Qed.

(** X24.  Whatever predictions and measurements a tracker performs and in
    whatever order, each of them returns true, whatever the two trackers
    return; and the base class is afterwards what [setClassification] made
    of it with the classifications of the measured objects, in their order:
    predictions do not touch it, so that they change neither the UUID, the
    classification nor the label by which [getTrackedObject] chooses. *)
Theorem tracker_operations_compose (t : Tracking.MultipleVehicleTracker)
    (ops : list Tracking.Operation) :
  fst (Tracking.perform_all t ops) = map (fun _ => true) ops /\
  Tracking.tracker (snd (Tracking.perform_all t ops)) =
    fold_left (fun base object =>
                 Tracking.setClassification (Tracking.detected_classification object)
                   base)
      (Tracking.measured ops) (Tracking.tracker t).
Proof.
  unfold Tracking.perform_all. rewrite perform_all_from. cbn [fst snd app].
  split; [reflexivity|apply performed_base].
Qed.

End TrackedObjects.

(** ** The route API *)

Lemma fold_left_push_back {A B : Type} (f : A -> B) (l : list A) (acc : list B) :
  fold_left (fun acc a => acc ++ [f a]) l acc = acc ++ map f l.
Proof.
  revert acc. induction l as [|a l IH]; intros acc; cbn.
  - rewrite app_nil_r. reflexivity.
  - rewrite IH, <- app_assoc. reflexivity.
Qed.

(** X25.  [convertRoute] converts section by section: the route of the
    planner has as many sections as the route of the external API, in the
    same order, each with the lane ids, the preferred lane id and the
    continued lane ids of its source; its header and its goal pose are
    those of the stamped goal pose. *)
Theorem convertRoute_sections (route : RouteApi.External.Route) :
  RouteApi.Planning.route_sections (RouteApi.convertRoute route) =
    map RouteApi.convertRouteSection (RouteApi.External.route_sections route) /\
  List.length (RouteApi.Planning.route_sections (RouteApi.convertRoute route)) =
    List.length (RouteApi.External.route_sections route) /\
  (forall i section,
     nth_error (RouteApi.External.route_sections route) i = Some section ->
     exists converted,
       nth_error (RouteApi.Planning.route_sections (RouteApi.convertRoute route)) i
         = Some converted /\
       RouteApi.Planning.lane_ids converted = RouteApi.External.lane_ids section /\
       RouteApi.Planning.preferred_lane_id converted =
         RouteApi.External.preferred_lane_id section /\
       RouteApi.Planning.continued_lane_ids converted =
         RouteApi.External.continued_lane_ids section) /\
  RouteApi.Planning.header (RouteApi.convertRoute route) =
    RouteApi.header (RouteApi.External.goal_pose route) /\
  RouteApi.Planning.goal_pose (RouteApi.convertRoute route) =
    RouteApi.pose (RouteApi.External.goal_pose route).
Proof.
  assert (Hmap : RouteApi.Planning.route_sections (RouteApi.convertRoute route) =
                 map RouteApi.convertRouteSection
                   (RouteApi.External.route_sections route)).
  { unfold RouteApi.convertRoute. cbn.
    rewrite (fold_left_push_back RouteApi.convertRouteSection). reflexivity. }
  split; [exact Hmap|]. split; [rewrite Hmap; apply length_map|].
  split; [|split; reflexivity].
  intros i section Hi. rewrite Hmap, nth_error_map, Hi. cbn.
  eexists. split; [reflexivity|]. repeat split.
Qed.

Section RouteServices.

Variable ResponseStatus : Type.
Variable response_success : ResponseStatus.

Lemma serve_all_from (node : RouteApi.Route) (responses : list ResponseStatus)
    (calls : list RouteApi.Call) :
  fold_left (fun acc call =>
               let '(node, responses) := acc in
               let '(node', response) := RouteApi.serve response_success node call in
               (node', responses ++ [response]))
    calls (node, responses) =
  (RouteApi.mkRoute
     (RouteApi.pub_route_ node ++
      map RouteApi.convertRoute (RouteApi.requested_routes calls))
     (RouteApi.pub_goal_ node ++ RouteApi.requested_goals calls)
     (RouteApi.pub_checkpoint_ node ++ RouteApi.requested_checkpoints calls),
   responses ++ map (fun _ => response_success) calls).
Proof.
  revert node responses. induction calls as [|call calls IH]; intros node responses.
  - cbn. rewrite !app_nil_r. destruct node; reflexivity.
  - cbn [fold_left]. destruct call as [route|pose|pose]; cbn [RouteApi.serve];
      unfold RouteApi.setRoute, RouteApi.setGoal, RouteApi.setCheckpoint;
      rewrite IH; cbn; rewrite <- ?app_assoc; reflexivity.
Qed.

(** X26.  Whatever calls the three services receive and in whatever order,
    every call is answered with success, and afterwards each publisher has
    got one message per call of its service and none from the others: the
    route publisher the converted routes, the goal and checkpoint publishers
    the requested poses, each in the order of the calls. *)
Theorem route_services_publish_in_order (calls : list RouteApi.Call) :
  RouteApi.serve_all response_success RouteApi.Route_new calls =
  (RouteApi.mkRoute
     (map RouteApi.convertRoute (RouteApi.requested_routes calls))
     (RouteApi.requested_goals calls)
     (RouteApi.requested_checkpoints calls),
   map (fun _ => response_success) calls).
Proof.
  unfold RouteApi.serve_all. rewrite serve_all_from. reflexivity.
Qed.

End RouteServices.

(** ** The direction test and the ego lane polygon *)

Section Geometry.

Context {MT : MapTypes} {E : Externals}.

Lemma checkAngleForTargetLanelets_existsb m pd pose ids :
  forallb (fun id => negb (is_None (laneletLayer_get (lanelet_map pd) id))) ids = true ->
  checkAngleForTargetLanelets m pd pose ids =
  Some (existsb (angle_matches m pd pose) ids).
Proof.
  induction ids as [|id ids IH]; [reflexivity|].
  cbn [forallb checkAngleForTargetLanelets existsb]. intros H.
  apply andb_prop in H. destruct H as [Hid H].
  unfold angle_matches at 1.
  destruct (laneletLayer_get (lanelet_map pd) id) as [ll|]; [|discriminate].
  cbn [bind]. destruct (isInLanelet pose ll _); cbn [negb andb orb]; [|exact (IH H)].
  destruct (dlt _ _); cbn [orb]; [reflexivity|exact (IH H)].
Qed.

Lemma in_detection_area_returns m pd object areas ids :
  forallb (fun id => negb (is_None (laneletLayer_get (lanelet_map pd) id))) ids = true ->
  exists keep, in_detection_area m pd object areas ids = Some keep.
Proof.
  intros H. induction areas as [|a areas IH]; [eexists; reflexivity|].
  cbn [in_detection_area]. cbv zeta.
  destruct (dgt _ _); [exact IH|].
  rewrite (checkAngleForTargetLanelets_existsb m pd _ ids H). cbn [bind].
  destruct (existsb _ ids); [eexists; reflexivity|exact IH].
Qed.

(** X27.  When every lanelet id of the detection area is in the map, the
    direction test does not throw, and it is true exactly when one of the
    lanelets contains the pose, within the margin, and runs within the angle
    threshold of its yaw.  The extraction of the target objects then returns
    for any objects. *)
Theorem direction_test_when_lanelets_exist (m : IntersectionModule) (pd : PlannerData)
    (pose : Pose) (ego_poly : Polygon2d) (detection_areas : list CompoundPolygon3d)
    (detection_area_lanelet_ids : list Z) (objects : list DynamicObject) :
  forallb (fun id => negb (is_None (laneletLayer_get (lanelet_map pd) id)))
    detection_area_lanelet_ids = true ->
  checkAngleForTargetLanelets m pd pose detection_area_lanelet_ids =
    Some (existsb (angle_matches m pd pose) detection_area_lanelet_ids) /\
  exists targets,
    extract_target_objects m pd ego_poly detection_areas detection_area_lanelet_ids
      objects = Some targets.
Proof.
  intros H. split; [apply checkAngleForTargetLanelets_existsb, H|].
  induction objects as [|o objects IH]; [eexists; reflexivity|].
  cbn [extract_target_objects]. destruct IH as (tl & ->).
  destruct (negb _); [eexists; reflexivity|].
  destruct (bg_within _ _); [eexists; reflexivity|].
  destruct (in_detection_area_returns m pd o detection_areas _ H) as (keep & ->).
  cbn [bind]. eexists; reflexivity.
Qed.

(** X28.  The polygon of [generateEgoIntersectionLanePolygon] is a closed
    ring: it is empty, or the ring lanelet2 returned for the ego lane and
    the lane after it followed by a copy of its first point. *)
Theorem ego_lane_polygon_closed (m : IntersectionModule) (lanelet_map_ptr : LaneletMap)
    (path : PathWithLaneId) (closest_idx start_idx : Z)
    (extra_dist ignore_dist : double) (polygon : Polygon2d) :
  generateEgoIntersectionLanePolygon m lanelet_map_ptr path closest_idx start_idx
    extra_dist ignore_dist = Some polygon ->
  exists lanes front_lanelet start_arc_length,
    getEgoLaneWithNextLane m lanelet_map_ptr path = Some lanes /\
    hd_error lanes = Some front_lanelet /\
    let ring :=
      getPolygonFromArcLength lanes start_arc_length
        (getLaneletLength3d front_lanelet + extra_dist)%float in
    polygon = match ring with
              | [] => []
              | front :: _ => ring ++ [front]
              end /\
    (polygon = [] \/ hd_error polygon = back polygon /\ 
                     List.length polygon = S (List.length ring)).
Proof.
  unfold generateEgoIntersectionLanePolygon. intros H.
  apply bind_Some in H. destruct H as (lanes & Hl & H).
  apply bind_Some in H. destruct H as (p_start & _ & H).
  apply bind_Some in H. destruct H as (p_closest & _ & H).
  apply bind_Some in H. destruct H as (front_lanelet & Hf & H).
  cbv zeta in H.
  set (start_arc_length := if dlt _ _ then _ else _) in H.
  exists lanes, front_lanelet, start_arc_length.
  split; [exact Hl|]. split; [exact Hf|].
  cbv zeta. destruct (getPolygonFromArcLength _ _ _) as [|front ring].
  - injection H as <-. split; [reflexivity|left; reflexivity].
  - injection H as <-. split; [reflexivity|]. right. split.
    + unfold back. cbn [app rev]. rewrite rev_app_distr. reflexivity.
    + cbn [app List.length]. rewrite length_app. cbn [List.length]. lia.
Qed.

End Geometry.

(** ** The distance to the intersection lane *)

Section Distance.

Context {MT : MapTypes} {E : Externals}.

Lemma find_if_front_lane_returns lane_id points :
  forallb has_front_lane points = true ->
  exists k, find_if_front_lane lane_id points = Some k /\ (k <= List.length points)%nat.
Proof.
  induction points as [|p points IH]; [exists 0%nat; split; [reflexivity|lia]|].
  cbn [forallb find_if_front_lane List.length]. intros H.
  apply andb_prop in H. destruct H as [Hp H].
  unfold has_front_lane in Hp.
  destruct (lane_ids p) as [|front ids]; [discriminate|]. cbn [hd_error bind].
  destruct (front =? lane_id); [exists 0%nat; split; [reflexivity|lia]|].
  destruct (IH H) as (k & -> & Hk). exists (S k). split; [reflexivity|lia].
Qed.

(** X29.  [calcDistanceUntilIntersectionLanelet] returns, for a lane that is
    in the map and a path whose points all carry a lane id, whatever the
    closest index is; the distance is 0 when no point of the path has the
    lane as its first lane id, and when the first point of the path has. *)
Theorem distance_until_intersection_returns (m : IntersectionModule)
    (lanelet_map_ptr : LaneletMap) (path : PathWithLaneId) (closest_idx : Z)
    (assigned_lanelet : Lanelet) :
  laneletLayer_get lanelet_map_ptr (lane_id_ m) = Some assigned_lanelet ->
  forallb has_front_lane path = true ->
  (exists distance,
     calcDistanceUntilIntersectionLanelet m lanelet_map_ptr path closest_idx
       = Some distance) /\
  (existsb (front_lane_is (lane_id_ m)) path = false ->
   calcDistanceUntilIntersectionLanelet m lanelet_map_ptr path closest_idx
     = Some 0%float) /\
  (existsb (front_lane_is (lane_id_ m)) (firstn 1 path) = true ->
   calcDistanceUntilIntersectionLanelet m lanelet_map_ptr path closest_idx
     = Some 0%float).
Proof.
  intros Ha Hall. unfold calcDistanceUntilIntersectionLanelet. rewrite Ha.
  cbn [bind]. split; [|split].
  - destruct (find_if_front_lane_returns (lane_id_ m) path Hall) as (k & -> & Hk).
    cbn [bind].
    destruct ((k =? 0)%nat || (k =? List.length path)%nat) eqn:Hedge;
      [eexists; reflexivity|].
    destruct ((closest_idx <? 0) || (closest_idx >? Z.of_nat k - 1));
      [eexists; reflexivity|].
    apply orb_false_elim in Hedge. destruct Hedge as [H0 Hn].
    apply Nat.eqb_neq in H0, Hn.
    assert (Hat : exists p, at_ path (Z.of_nat k - 1) = Some p).
    { unfold at_. replace (Z.of_nat k - 1 <? 0) with false
        by (symmetry; apply Z.ltb_ge; lia).
      destruct (nth_error path (Z.to_nat (Z.of_nat k - 1))) eqn:Hn'; [eauto|].
      apply nth_error_None in Hn'. lia. }
    destruct Hat as (p & ->). eexists; reflexivity.
  - intros Hnone. rewrite (find_if_front_lane_none (lane_id_ m) path Hall Hnone).
    cbn [bind]. rewrite Nat.eqb_refl, orb_true_r. reflexivity.
  - destruct path as [|p path]; [discriminate|].
    cbn [firstn existsb]. rewrite orb_false_r. intros Hp.
    unfold front_lane_is in Hp. cbn [find_if_front_lane].
    destruct (lane_ids p) as [|front ids]; [discriminate|].
    cbn [hd_error bind]. rewrite Hp. reflexivity.
Qed.

End Distance.

(** ** Further runs in the town *)

(** X4: a run.  The module of lane 9, which no lanelet crosses, gets an
    active external stop input while [car_a] is around: the cycle returns
    true and changes nothing. *)
Lemma no_detection_area_no_planning_witness :
  let m := Town.module_of_lane9 GO in
  let pd := Town.data (-6) [Town.car_a] (Some Town.stop_input) in
  isTargetExternalInputStatus m pd (Town.sec 0) IntersectionStatus_STOP = true /\
  modifyPathVelocity m pd (Town.sec 0) Town.road =
    Some (mkCycle true Town.road []
            (with_debug_data (set_path_raw Town.road DebugData_default) m)).
Proof.
  intros m pd. split; [reflexivity|].
  apply (@no_detection_area_no_planning _ _ m pd (Town.sec 0) Town.road).
  reflexivity.
Defined.

(** X5: a run.  On the road before the intersection no waypoint is in lane
    10 and the stop line cannot be placed: the cycle returns false. *)
Lemma failed_cycle_leaves_no_trace_witness :
  let m := Town.module_of Town.param STOP None in
  let pd := Town.data (-5) [Town.car_a] None in
  exists c,
    modifyPathVelocity m pd (Town.sec 0) Town.approach = Some c /\
    returned c = false /\
    cycle_path c = Town.approach /\ cycle_stop_reason c = [] /\
    state_machine_ (cycle_module c) = state_machine_ m.
Proof.
  intros m pd.
  destruct (modifyPathVelocity m pd (Town.sec 0) Town.approach) as [c|] eqn:H;
    [|vm_compute in H; discriminate].
  assert (Hr : returned c = false)
    by (pose proof H as H'; vm_compute in H'; injection H' as <-; reflexivity).
  destruct (@failed_cycle_leaves_no_trace _ _ m pd (Town.sec 0) Town.approach c H Hr)
    as (_ & Hp & Hs & Hsm).
  exists c. auto.
Defined.

(** X6: a run.  With no object around, the module in GO stays in GO. *)
Lemma GO_leaves_the_path_witness :
  let m := Town.module_of Town.param GO None in
  let pd := Town.data 0 [] None in
  exists c,
    modifyPathVelocity m pd (Town.sec 0) Town.road = Some c /\
    state_ (state_machine_ (cycle_module c)) = GO /\
    cycle_path c = Town.road /\ cycle_stop_reason c = [].
Proof.
  intros m pd.
  destruct (modifyPathVelocity m pd (Town.sec 0) Town.road) as [c|] eqn:H;
    [|vm_compute in H; discriminate].
  assert (Hgo : state_ (state_machine_ (cycle_module c)) = GO)
    by (pose proof H as H'; vm_compute in H'; injection H' as <-; reflexivity).
  destruct (@GO_leaves_the_path _ _ m pd (Town.sec 0) Town.road c H Hgo)
    as (Hp & Hs & _).
  exists c. auto.
Defined.

(** X7: a run.  A car stands in the stuck-detection area: the module stops
    hard at the stop line, index 3 at x = 5, and reports one stop factor
    there, with the position of the car. *)
Lemma stop_factor_reported_witness :
  let m := Town.module_of Town.param GO None in
  let pd := Town.data 0 [Town.standing_car] None in
  exists c,
    modifyPathVelocity m pd (Town.sec 0) Town.road = Some c /\
    stop_required (debug_data_ (cycle_module c)) = true /\
    cycle_stop_reason c =
      [mkStopFactor (mkPose (mkPoint 5 0 0) Town.level) [mkPoint 24 0 0]] /\
    state_ (state_machine_ (cycle_module c)) = STOP.
Proof.
  intros m pd.
  destruct (modifyPathVelocity m pd (Town.sec 0) Town.road) as [c|] eqn:H;
    [|vm_compute in H; discriminate].
  destruct (@stop_factor_reported _ _ m pd (Town.sec 0) Town.road c H) as (Hr & Hs).
  assert (Hflag : stop_required (debug_data_ (cycle_module c)) = true)
    by (pose proof H as H'; vm_compute in H'; injection H' as <-; reflexivity).
  destruct (Hs Hflag) as (_ & Hstop & _).
  exists c. split; [reflexivity|]. split; [exact Hflag|]. split; [|exact Hstop].
  rewrite Hr, Hflag. vm_compute in H. injection H as <-. reflexivity.
Defined.

(** X9: a run.  The external go input is 5 s old, with a timeout of 1 s;
    [car_a] is on a collision course and the module in GO goes to STOP. *)
Lemma stale_external_input_ignored_witness :
  let m := Town.module_of Town.param GO None in
  let pd := Town.data 0 [Town.car_a] (Some Town.go_input) in
  exists c,
    modifyPathVelocity m pd (Town.sec 5) Town.road = Some c /\
    state_machine_ (cycle_module c) = mkStateMachine STOP 2 None.
Proof.
  intros m pd.
  destruct (modifyPathVelocity m pd (Town.sec 5) Town.road) as [c|] eqn:H;
    [|vm_compute in H; discriminate].
  exists c. split; [reflexivity|].
  assert (HL : locate m pd (Town.sec 5) Town.road =
               Some (Proceed 3 2 2 Town.area20 Town.ids20
                       (set_detection_area Town.area20
                          (set_path_raw Town.road DebugData_default))))
    by (vm_compute; reflexivity).
  destruct (@stale_external_input_ignored _ _ m pd (Town.sec 5) Town.road 3 2 2
              Town.area20 Town.ids20 _ c eq_refl HL H)
    as (hc & d2 & st & d3 & Hc & Hs & ->).
  vm_compute in Hc. injection Hc as <- <-.
  vm_compute in Hs. injection Hs as <- _.
  reflexivity.
Defined.

(** X10: a run.  The module in STOP gets an active external go input with
    no object around: it stays in STOP, records the clock reading and writes
    the decel velocity from the stop line on. *)
Lemma external_go_waits_for_margin_witness :
  let m := Town.module_of Town.param STOP None in
  let pd := Town.data 0 [] (Some Town.go_input) in
  exists c,
    modifyPathVelocity m pd (Town.sec 0) Town.road = Some c /\
    state_machine_ (cycle_module c) = mkStateMachine STOP 2 (Some 0) /\
    Town.velocities (cycle_path c) = [5; 5; 5; 3; 3; 3; 3; 3]%float.
Proof.
  intros m pd.
  destruct (modifyPathVelocity m pd (Town.sec 0) Town.road) as [c|] eqn:H;
    [|vm_compute in H; discriminate].
  exists c. split; [reflexivity|].
  assert (HL : locate m pd (Town.sec 0) Town.road =
               Some (Proceed 3 2 2 Town.area20 Town.ids20
                       (set_detection_area Town.area20
                          (set_path_raw Town.road DebugData_default))))
    by (vm_compute; reflexivity).
  destruct (@external_go_waits_for_margin _ _ m pd (Town.sec 0) Town.road 3 2 2
              Town.area20 Town.ids20 _ c eq_refl eq_refl eq_refl HL H)
    as (Hsm & _).
  split; [exact Hsm|].
  vm_compute in H. injection H as <-. reflexivity.
Defined.

(** X11: a run.  The module is in GO and the ego vehicle, at x = 6, is
    beyond the pass-judge line, where a cycle would return at once; with an
    active external stop input it goes to STOP and writes the decel velocity
    from the stop line on. *)
Lemma external_stop_honoured_witness :
  let m := Town.module_of Town.param GO None in
  let pd := Town.data 6 [] (Some Town.stop_input) in
  exists c,
    modifyPathVelocity m pd (Town.sec 0) Town.road = Some c /\
    state_machine_ (cycle_module c) = mkStateMachine STOP 2 None /\
    Town.velocities (cycle_path c) = [5; 5; 5; 3; 3; 3; 3; 3]%float.
Proof.
  intros m pd.
  destruct (modifyPathVelocity m pd (Town.sec 0) Town.road) as [c|] eqn:H;
    [|vm_compute in H; discriminate].
  exists c. split; [reflexivity|].
  destruct (@external_stop_honoured _ _ m pd (Town.sec 0) Town.road 3 2 4 3 c)
    as (_ & Hsm & _).
  - reflexivity.
  - reflexivity.
  - reflexivity.
  - lia.
  - lia.
  - vm_compute. reflexivity.
  - exact H.
  - split; [exact Hsm|]. vm_compute in H. injection H as <-. reflexivity.
Defined.

(** X12: a run.  The module is in GO and [car_a] is on a collision course:
    the cycle ends in STOP and writes the decel velocity from the stop line
    on. *)
Lemma detection_stops_at_once_witness :
  let m := Town.module_of Town.param GO None in
  let pd := Town.data 0 [Town.car_a] None in
  exists c,
    modifyPathVelocity m pd (Town.sec 0) Town.road = Some c /\
    state_machine_ (cycle_module c) = mkStateMachine STOP 2 None /\
    Town.velocities (cycle_path c) = [5; 5; 5; 3; 3; 3; 3; 3]%float.
Proof.
  intros m pd.
  destruct (modifyPathVelocity m pd (Town.sec 0) Town.road) as [c|] eqn:H;
    [|vm_compute in H; discriminate].
  assert (HL : locate m pd (Town.sec 0) Town.road =
               Some (Proceed 3 2 2 Town.area20 Town.ids20
                       (set_detection_area Town.area20
                          (set_path_raw Town.road DebugData_default))))
    by (vm_compute; reflexivity).
  destruct (checkCollision m pd (Town.sec 0) Town.town Town.road Town.area20
              Town.ids20 [Town.car_a] 2
              (@set_detection_area Town.types Town.area20
                 (set_path_raw Town.road DebugData_default)))
    as [[hc d2]|] eqn:Hc; [|vm_compute in Hc; discriminate].
  destruct (checkStuckVehicleInIntersection m pd Town.town Town.road 2 3
              [Town.car_a] d2)
    as [[st d3]|] eqn:Hs;
    [|vm_compute in Hc; injection Hc as <- <-; vm_compute in Hs; discriminate].
  assert (Hdet : hc || st = true)
    by (pose proof Hc as Hc'; vm_compute in Hc'; injection Hc' as <- _; reflexivity).
  destruct (@detection_stops_at_once _ _ m pd (Town.sec 0) Town.road 3 2 2
              Town.area20 Town.ids20 _ d2 d3 hc st c HL Hc Hs Hdet eq_refl H)
    as (_ & Hsm & _).
  exists c. split; [reflexivity|]. split; [exact Hsm|].
  vm_compute in H. injection H as <-. reflexivity.
Defined.

(** X15: a run.  [car_a] is on a collision course: the check returns true
    and records it. *)
Lemma collision_flag_and_targets_witness :
  let m := Town.module_of Town.param STOP None in
  let pd := Town.data 0 [Town.car_a] None in
  exists d' recorded,
    checkCollision m pd (Town.sec 0) Town.town Town.road Town.area20 Town.ids20
      [Town.car_a] 2 DebugData_default = Some (true, d') /\
    conflicting_targets d' = recorded /\
    List.map object_id recorded = [1].
Proof.
  intros m pd.
  destruct (checkCollision m pd (Town.sec 0) Town.town Town.road Town.area20
              Town.ids20 [Town.car_a] 2 DebugData_default) as [[hc d']|] eqn:H;
    [|vm_compute in H; discriminate].
  destruct (@collision_flag_and_targets _ _ m pd (Town.sec 0) Town.town Town.road
              Town.area20 Town.ids20 [Town.car_a] 2 DebugData_default d' hc H)
    as (recorded & Ht & Hf & _).
  exists d', recorded. cbn [conflicting_targets DebugData_default app] in Ht.
  vm_compute in H. injection H as <- <-.
  split; [reflexivity|]. split; [exact Ht|]. rewrite <- Ht. reflexivity.
Defined.

(** X16: a run.  [car_d] is on the course of [car_a], with a predicted path
    of confidence 0.25: the check returns false. *)
Lemma low_confidence_paths_never_flagged_witness :
  let m := Town.module_of Town.param STOP None in
  let pd := Town.data 0 [Town.car_d] None in
  option_map fst
    (checkCollision m pd (Town.sec 0) Town.town Town.road Town.area20 Town.ids20
       [Town.car_d] 2 DebugData_default) = Some false.
Proof.
  intros m pd.
  destruct (checkCollision m pd (Town.sec 0) Town.town Town.road Town.area20
              Town.ids20 [Town.car_d] 2 DebugData_default) as [[hc d']|] eqn:H;
    [|vm_compute in H; discriminate].
  destruct (@low_confidence_paths_never_flagged _ _ m pd (Town.sec 0) Town.town
              Town.road Town.area20 Town.ids20 [Town.car_d] 2 DebugData_default d' hc
              eq_refl H) as (-> & _).
  reflexivity.
Defined.

(** X17: a run.  A pedestrian on the course of [car_a] does not stop the
    module, where [car_a] itself would. *)
Lemma no_vehicle_no_stop_witness :
  let m := Town.module_of Town.param GO None in
  let run objects :=
    modifyPathVelocity m (Town.data 0 objects None) (Town.sec 0) Town.road in
  (exists c, run [Town.pedestrian] = Some c /\
             state_ (state_machine_ (cycle_module c)) = GO /\
             cycle_path c = Town.road) /\
  option_map (fun c => state_ (state_machine_ (cycle_module c))) (run [Town.car_a])
    = Some STOP.
Proof.
  intros m run. split; [|vm_compute; reflexivity].
  destruct (run [Town.pedestrian]) as [c|] eqn:H; [|vm_compute in H; discriminate].
  destruct (@no_vehicle_no_stop _ _ m (Town.data 0 [Town.pedestrian] None)
              (Town.sec 0) Town.road c eq_refl eq_refl H) as (_ & Hgo).
  exists c. split; [reflexivity|]. exact (Hgo eq_refl).
Defined.

(** X19: a run on the road: the last point of lane 10 is at index 5, the
    point after it is in lane 11. *)
Lemma next_lane_follows_last_tagged_point_witness :
  let m := Town.module_of Town.param GO None in
  getEgoLaneWithNextLane m Town.town Town.road = Some [Town.lane10; Town.lane11].
Proof.
  intros m.
  exact (proj1 (@next_lane_follows_last_tagged_point _ _ m Town.town
                  (firstn 5 Town.road) [Town.waypoint 25 11]
                  (Town.waypoint 15 10) (Town.waypoint 20 11) 11
                  Town.lane10 Town.lane11
                  eq_refl eq_refl eq_refl eq_refl eq_refl eq_refl)).
Defined.

(** X20: a run on the road before the intersection, which is all in lane 9:
    the lane "after" lane 10 is lane 9. *)
Lemma next_lane_without_tagged_point_witness :
  let m := Town.module_of Town.param GO None in
  getEgoLaneWithNextLane m Town.town Town.approach = Some [Town.lane10; Town.lane9].
Proof.
  intros m.
  exact (@next_lane_without_tagged_point _ _ m Town.town (Town.waypoint (-10) 9)
           [Town.waypoint (-5) 9; Town.waypoint 0 9] 9 Town.lane10 Town.lane9
           eq_refl eq_refl eq_refl eq_refl eq_refl).
Defined.

(** X21: runs.  The closest index -1 throws on the road; -2 and 100 do
    not. *)
Lemma calcIntersectionPassingTime_throws_witness :
  let m := Town.module_of Town.param GO None in
  let pd := Town.data 0 [] None in
  calcIntersectionPassingTime m pd Town.road (-1) 10 = None /\
  calcIntersectionPassingTime m pd Town.road (-2) 10 <> None /\
  calcIntersectionPassingTime m pd Town.road 100 10 <> None.
Proof.
  intros m pd. split; [|split].
  - apply (proj2 (@calcIntersectionPassingTime_throws _ _ m pd Town.road (-1) 10
                    ltac:(lia))).
    split; [reflexivity|discriminate].
  - intros H.
    apply (proj1 (@calcIntersectionPassingTime_throws _ _ m pd Town.road (-2) 10
                    ltac:(lia))) in H.
    destruct H as [H _]. discriminate.
  - intros H.
    apply (proj1 (@calcIntersectionPassingTime_throws _ _ m pd Town.road 100 10
                    ltac:(lia))) in H.
    destruct H as [H _]. discriminate.
Defined.

(** X22: a run.  A bicycle and two cars stand in the stuck-detection area,
    which reaches from x = 15 to x = 28: the first car is recorded. *)
Lemma first_stuck_vehicle_recorded_witness :
  let m := Town.module_of Town.param GO None in
  let objects := [Town.bicycle; Town.standing_car;
                  Town.vehicle 8 CAR 26 0 0 0.75 []] in
  option_map (fun r => (fst r, List.map object_id (stuck_targets (snd r))))
    (checkStuckVehicleInIntersection m (Town.data 0 objects None) Town.town Town.road
       2 3 objects DebugData_default) = Some (true, [5]).
Proof.
  intros m objects.
  rewrite (@first_stuck_vehicle_recorded _ _ m (Town.data 0 objects None) Town.town
             Town.road 2 3 objects DebugData_default
             (Town.rectangle 15 28 (-2) 2 ++ [(15, -2)%float])).
  - vm_compute. reflexivity.
  - vm_compute. reflexivity.
Defined.

(** X27: a run.  Lane 20 is in the map; the pose of [car_a], in lane 20 and
    heading north as the lane does, passes the direction test. *)
Lemma direction_test_when_lanelets_exist_witness :
  let m := Town.module_of Town.param STOP None in
  let pd := Town.data 0 [Town.car_a] None in
  checkAngleForTargetLanelets m pd (pose_covariance_pose (state Town.car_a))
    Town.ids20 = Some true.
Proof.
  intros m pd.
  assert (Hall : forallb
                   (fun id => negb (is_None (laneletLayer_get (lanelet_map pd) id)))
                   Town.ids20 = true) by (vm_compute; reflexivity).
  destruct (@direction_test_when_lanelets_exist _ _ m pd
              (pose_covariance_pose (state Town.car_a)) [] Town.area20 Town.ids20
              [Town.car_a] Hall) as (-> & _).
  vm_compute. reflexivity.
Defined.

(** X28: a run.  The ego lane polygon ahead of index 2 is the rectangle of
    lane 10 with its first corner repeated. *)
Lemma ego_lane_polygon_closed_witness :
  let m := Town.module_of Town.param STOP None in
  generateEgoIntersectionLanePolygon m Town.town Town.road 2 2 0 0 =
    Some [(10, -2); (10, 2); (20, 2); (20, -2); (10, -2)]%float /\
  hd_error [(10, -2); (10, 2); (20, 2); (20, -2); (10, -2)]%float =
  back [(10, -2); (10, 2); (20, 2); (20, -2); (10, -2)]%float.
Proof.
  intros m.
  assert (H : generateEgoIntersectionLanePolygon m Town.town Town.road 2 2 0 0 =
              Some [(10, -2); (10, 2); (20, 2); (20, -2); (10, -2)]%float)
    by (vm_compute; reflexivity).
  split; [exact H|].
  destruct (@ego_lane_polygon_closed _ _ m Town.town Town.road 2 2 0 0 _ H)
    as (lanes & front & s & _ & _ & _ & [Hempty|[Hclosed _]]).
  - discriminate.
  - exact Hclosed.
Defined.

(** X29: runs.  On the road before the intersection, which is all in lane
    9, the distance to lane 10 is 0; on the road, from index 2, it is
    10 m. *)
Lemma distance_until_intersection_returns_witness :
  let m := Town.module_of Town.param STOP None in
  calcDistanceUntilIntersectionLanelet m Town.town Town.approach 1 = Some 0%float /\
  calcDistanceUntilIntersectionLanelet m Town.town Town.road 2 = Some 10%float.
Proof.
  intros m. split; [|vm_compute; reflexivity].
  assert (Hlane : laneletLayer_get Town.town (lane_id_ m) = Some Town.lane10)
    by (vm_compute; reflexivity).
  destruct (@distance_until_intersection_returns _ _ m Town.town Town.approach 1
              Town.lane10 Hlane eq_refl) as (_ & Hnone & _).
  exact (Hnone eq_refl).
Defined.

(** End of the development. *)

